(** * c64u-obs: frame assembly, colour conversion and frame pacing

    A shallow embedding of the receive path of the C64 Ultimate OBS source
    ([src/c64u-video.c]), of its frame timing engine ([c64u-timing.c]) and of
    the stream stop routine ([src/c64u-source.c]), with the properties the
    design document states about them.

    Conventions.
    - A C unsigned integer of width [w] is a [Z] kept in [0, 2^w) by an
      explicit [wrap w].
    - A [double] is a value of an abstract type with the operations of the
      interface [DoubleOps]; nothing below depends on how rounding behaves.
    - A byte of a datagram is a [Z] in [0, 256).
    - A pixel buffer is the memory behind a [uint32_t *], addressed by pixel
      offset; the two buffers of a source do not overlap.
    - The slot table of a frame is a list indexed with stdpp's [!!] and
      [<[_:=_]>].
    - Each call of [os_gettime_ns] and each [pthread_mutex_lock] result is an
      input of the step that makes it. *)

From Stdlib Require Import ZArith Lia Bool List QArith.
From stdpp Require Import base tactics option list list_numbers functions.

Open Scope Z_scope.

(* ===================================================================== *)
(** * Machine integers *)
(* ===================================================================== *)

Definition wrap (w : Z) (x : Z) : Z := x mod 2 ^ w.

Definition u8 := wrap 8.
Definition u16 := wrap 16.
Definition u32 := wrap 32.
Definition u64 := wrap 64.

(** [for (i = start; cond(i); i++) s = body(i, s);] run for at most [fuel]
    iterations.  Every loop below is given the fuel its bound allows. *)
Fixpoint for_loop {S : Type} (fuel : nat) (i : Z) (cond : Z -> bool)
    (body : Z -> S -> S) (s : S) : S :=
  match fuel with
  | O => s
  | Datatypes.S k => if cond i then for_loop k (i + 1) cond body (body i s) else s
  end.

(* ===================================================================== *)
(** * Doubles *)
(* ===================================================================== *)

(** The operations the sources perform on [double] values.  [d_lit q] is the
    literal written [q] in the source, [d_zero] the all-zero bit pattern left
    by [memset], [d_of_int] the conversion of an integer operand and
    [d_to_u64] the cast [(uint64_t)x].  The two laws are the only facts about
    comparison that the results below use. *)
Class DoubleOps (D : Type) : Type := {
  d_zero : D;
  d_lit : Q -> D;
  d_of_int : Z -> D;
  d_add : D -> D -> D;
  d_sub : D -> D -> D;
  d_mul : D -> D -> D;
  d_div : D -> D -> D;
  d_ltb : D -> D -> bool;
  d_to_u64 : D -> Z;
  d_zero_not_above_two : d_ltb (d_lit 2) d_zero = false;
  d_zero_not_below_minus_two : d_ltb d_zero (d_lit (-2)) = false
}.

(** Exact rationals: an instance to run the definitions on. *)
Definition Q_ltb (a b : Q) : bool := negb (Qle_bool b a).

Definition Q_to_u64 (a : Q) : Z := u64 (Z.quot (Qnum a) (Z.pos (Qden a))).

#[local] Instance QDouble : DoubleOps Q.
Proof.
  refine {| d_zero := 0%Q; d_lit := fun q => q; d_of_int := inject_Z;
            d_add := Qplus; d_sub := Qminus; d_mul := Qmult; d_div := Qdiv;
            d_ltb := Q_ltb; d_to_u64 := Q_to_u64 |}; reflexivity.
Defined.

(* ===================================================================== *)
(** * Pixel buffers *)
(* ===================================================================== *)

(** The memory behind a [uint32_t *]: pixel offset to 32-bit value. *)
Definition pixbuf : Type := Z -> Z.

Definition zero_pixbuf : pixbuf := fun _ => 0.

(** [memset(buf, 0, bytes)] with [bytes] a multiple of four, in pixels. *)
Definition memset_zero (buf : pixbuf) (pixels : Z) : pixbuf :=
  fun i => if (0 <=? i) && (i <? pixels) then 0 else buf i.

(** [memcpy(dst, src, bytes)], in pixels. *)
Definition memcpy_pixels (dst src : pixbuf) (pixels : Z) : pixbuf :=
  fun i => if (0 <=? i) && (i <? pixels) then src i else dst i.

(** [width * height * 4] in [uint32_t] arithmetic, as a count of pixels. *)
Definition frame_size_pixels (width height : Z) : Z := u32 (width * height * 4) / 4.

(* ===================================================================== *)
(** * Timing engine ([c64u-timing.h], [c64u-timing.c]) *)
(* ===================================================================== *)

Inductive c64u_timing_strategy_t : Type :=
  | C64U_TIMING_PASSTHROUGH
  | C64U_TIMING_ADAPTIVE
  | C64U_TIMING_INTERPOLATION
  | C64U_TIMING_VSYNC.

Definition strategy_eqb (a b : c64u_timing_strategy_t) : bool :=
  match a, b with
  | C64U_TIMING_PASSTHROUGH, C64U_TIMING_PASSTHROUGH
  | C64U_TIMING_ADAPTIVE, C64U_TIMING_ADAPTIVE
  | C64U_TIMING_INTERPOLATION, C64U_TIMING_INTERPOLATION
  | C64U_TIMING_VSYNC, C64U_TIMING_VSYNC => true
  | _, _ => false
  end.

(** The anonymous [interpolation] struct; [None] is a [NULL] frame pointer. *)
Record interpolation_t : Type := mk_interpolation {
  frames : list (option pixbuf);
  timestamps : list Z;
  write_index : Z;
  read_index : Z;
  buffer_ready : bool
}.

Record c64u_timing_state (D : Type) : Type := mk_timing {
  strategy : c64u_timing_strategy_t;
  target_fps : D;
  source_fps : D;
  last_obs_frame_time : Z;
  last_c64_frame_time : Z;
  obs_frame_interval_ns : Z;
  c64_frame_interval_ns : Z;
  frame_debt : D;
  frames_delivered : Z;
  frames_received : Z;
  interpolation : interpolation_t;
  frames_dropped : Z;
  frames_duplicated : Z;
  frames_interpolated : Z
}.

Arguments mk_timing {D}.
Arguments strategy {D}.
Arguments target_fps {D}.
Arguments source_fps {D}.
Arguments last_obs_frame_time {D}.
Arguments last_c64_frame_time {D}.
Arguments obs_frame_interval_ns {D}.
Arguments c64_frame_interval_ns {D}.
Arguments frame_debt {D}.
Arguments frames_delivered {D}.
Arguments frames_received {D}.
Arguments interpolation {D}.
Arguments frames_dropped {D}.
Arguments frames_duplicated {D}.
Arguments frames_interpolated {D}.

Section Timing.
Context {D : Type} {dops : DoubleOps D}.

#[local] Abbreviation timing_state := (c64u_timing_state D).

(** Field assignments. *)
Definition set_strategy (s : c64u_timing_strategy_t) (t : timing_state) : timing_state :=
  mk_timing s (target_fps t) (source_fps t) (last_obs_frame_time t)
    (last_c64_frame_time t) (obs_frame_interval_ns t) (c64_frame_interval_ns t)
    (frame_debt t) (frames_delivered t) (frames_received t) (interpolation t)
    (frames_dropped t) (frames_duplicated t) (frames_interpolated t).

Definition set_last_obs_frame_time (v : Z) (t : timing_state) : timing_state :=
  mk_timing (strategy t) (target_fps t) (source_fps t) v
    (last_c64_frame_time t) (obs_frame_interval_ns t) (c64_frame_interval_ns t)
    (frame_debt t) (frames_delivered t) (frames_received t) (interpolation t)
    (frames_dropped t) (frames_duplicated t) (frames_interpolated t).

Definition set_last_c64_frame_time (v : Z) (t : timing_state) : timing_state :=
  mk_timing (strategy t) (target_fps t) (source_fps t) (last_obs_frame_time t)
    v (obs_frame_interval_ns t) (c64_frame_interval_ns t)
    (frame_debt t) (frames_delivered t) (frames_received t) (interpolation t)
    (frames_dropped t) (frames_duplicated t) (frames_interpolated t).

Definition set_frame_debt (v : D) (t : timing_state) : timing_state :=
  mk_timing (strategy t) (target_fps t) (source_fps t) (last_obs_frame_time t)
    (last_c64_frame_time t) (obs_frame_interval_ns t) (c64_frame_interval_ns t)
    v (frames_delivered t) (frames_received t) (interpolation t)
    (frames_dropped t) (frames_duplicated t) (frames_interpolated t).

Definition set_frames_delivered (v : Z) (t : timing_state) : timing_state :=
  mk_timing (strategy t) (target_fps t) (source_fps t) (last_obs_frame_time t)
    (last_c64_frame_time t) (obs_frame_interval_ns t) (c64_frame_interval_ns t)
    (frame_debt t) v (frames_received t) (interpolation t)
    (frames_dropped t) (frames_duplicated t) (frames_interpolated t).

Definition set_frames_received (v : Z) (t : timing_state) : timing_state :=
  mk_timing (strategy t) (target_fps t) (source_fps t) (last_obs_frame_time t)
    (last_c64_frame_time t) (obs_frame_interval_ns t) (c64_frame_interval_ns t)
    (frame_debt t) (frames_delivered t) v (interpolation t)
    (frames_dropped t) (frames_duplicated t) (frames_interpolated t).

Definition set_interpolation (v : interpolation_t) (t : timing_state) : timing_state :=
  mk_timing (strategy t) (target_fps t) (source_fps t) (last_obs_frame_time t)
    (last_c64_frame_time t) (obs_frame_interval_ns t) (c64_frame_interval_ns t)
    (frame_debt t) (frames_delivered t) (frames_received t) v
    (frames_dropped t) (frames_duplicated t) (frames_interpolated t).

Definition set_frames_dropped (v : Z) (t : timing_state) : timing_state :=
  mk_timing (strategy t) (target_fps t) (source_fps t) (last_obs_frame_time t)
    (last_c64_frame_time t) (obs_frame_interval_ns t) (c64_frame_interval_ns t)
    (frame_debt t) (frames_delivered t) (frames_received t) (interpolation t)
    v (frames_duplicated t) (frames_interpolated t).

Definition set_frames_duplicated (v : Z) (t : timing_state) : timing_state :=
  mk_timing (strategy t) (target_fps t) (source_fps t) (last_obs_frame_time t)
    (last_c64_frame_time t) (obs_frame_interval_ns t) (c64_frame_interval_ns t)
    (frame_debt t) (frames_delivered t) (frames_received t) (interpolation t)
    (frames_dropped t) v (frames_interpolated t).

(** [memset(timing, 0, sizeof ...)] followed by the five assignments of
    [c64u_timing_init]. *)
Definition timing_after_memset (s : c64u_timing_strategy_t) (target source : D) : timing_state :=
  mk_timing s target source 0 0
    (d_to_u64 (d_div (d_lit 1000000000) target))
    (d_to_u64 (d_div (d_lit 1000000000) source))
    d_zero 0 0
    (mk_interpolation [None; None; None] [0; 0; 0] 0 0 false)
    0 0 0.

(** The allocation loop of [c64u_timing_init]: [bmalloc i] is what the
    [i]-th [bmalloc(frame_size)] returns.  A failure frees and clears the
    buffers allocated so far and falls back to the adaptive strategy.  The
    size of the buffers is not recorded: a ring slot stands for the memory
    behind its pointer. *)
Fixpoint alloc_interpolation (fuel : nat) (i : Z) (bmalloc : Z -> option pixbuf)
    (t : timing_state) : timing_state :=
  match fuel with
  | O => t
  | S k =>
      let it := interpolation t in
      match bmalloc i with
      | Some b =>
          alloc_interpolation k (i + 1) bmalloc
            (set_interpolation
               (mk_interpolation (<[Z.to_nat i := Some b]> (frames it)) (timestamps it)
                  (write_index it) (read_index it) (buffer_ready it)) t)
      | None =>
          let cleared :=
            for_loop (Z.to_nat i) 0 (fun j => j <? i)
              (fun j fs => <[Z.to_nat j := None]> fs)
              (<[Z.to_nat i := None]> (frames it)) in
          set_strategy C64U_TIMING_ADAPTIVE
            (set_interpolation
               (mk_interpolation cleared (timestamps it) (write_index it)
                  (read_index it) (buffer_ready it)) t)
      end
  end.

Definition c64u_timing_init (s : c64u_timing_strategy_t) (target source : D)
    (bmalloc : Z -> option pixbuf) : timing_state :=
  let t := timing_after_memset s target source in
  if strategy_eqb s C64U_TIMING_INTERPOLATION
  then alloc_interpolation 3 0 bmalloc t
  else t.

Definition c64u_timing_on_c64_frame_received (t : timing_state) (now : Z) : timing_state :=
  set_last_c64_frame_time now (set_frames_received (u32 (frames_received t + 1)) t).

(** The frame-debt update at the end of the non-passthrough policy. *)
Definition update_frame_debt (t : timing_state) (obs_elapsed : Z) : timing_state :=
  if (10 <? frames_received t) && (obs_frame_interval_ns t <? obs_elapsed)
  then
    let c64_rate :=
      d_div (d_mul (d_of_int (frames_received t)) (d_lit 1000000000))
            (d_of_int obs_elapsed) in
    let obs_rate := target_fps t in
    set_frame_debt (d_add (frame_debt t) (d_sub (d_div c64_rate obs_rate) (d_lit 1))) t
  else t.

Definition c64u_timing_should_deliver_frame (t : timing_state) (now : Z)
    : bool * timing_state :=
  match strategy t with
  | C64U_TIMING_PASSTHROUGH => (true, t)
  | C64U_TIMING_ADAPTIVE | C64U_TIMING_INTERPOLATION | C64U_TIMING_VSYNC =>
      if frames_delivered t <? 10 then (true, t)
      else if (last_obs_frame_time t =? 0) || (frames_received t <? 5)
      then (true, set_last_obs_frame_time now t)
      else
        let obs_elapsed := u64 (now - last_obs_frame_time t) in
        let min_interval := obs_frame_interval_ns t / 2 in
        if min_interval <=? obs_elapsed then (true, t)
        else
          let expected_obs_frames := obs_elapsed / obs_frame_interval_ns t in
          let should_deliver := frames_delivered t <=? expected_obs_frames in
          (should_deliver, update_frame_debt t obs_elapsed)
  end.

Definition c64u_timing_on_obs_frame_delivered (t : timing_state) (now : Z) : timing_state :=
  let t1 := set_frames_delivered (u32 (frames_delivered t + 1)) t in
  let t2 :=
    if 0 <? last_obs_frame_time t1
    then
      let interval := u64 (now - last_obs_frame_time t1) in
      if interval <? obs_frame_interval_ns t1 / 2
      then set_frames_duplicated (u32 (frames_duplicated t1 + 1)) t1
      else t1
    else t1 in
  set_last_obs_frame_time now t2.

(** [c64u_timing_get_frame_for_obs]: the frame handed back (its contents;
    [None] for a [NULL] pointer) and the updated state.  [front], [width] and
    [height] are the fields of the source context that the function reads.
    The [memcpy] of the interpolation strategy is the copy of a frame that
    fits the ring slot; a frame that has outgrown the slots allocated at
    initialisation is outside this definition. *)
Definition c64u_timing_get_frame_for_obs (t : timing_state)
    (front : pixbuf) (width height : Z) (now : Z) : option pixbuf * timing_state :=
  match strategy t with
  | C64U_TIMING_PASSTHROUGH => (Some front, t)
  | C64U_TIMING_ADAPTIVE =>
      if d_ltb (d_lit 2) (frame_debt t)
      then (Some front,
            set_frames_dropped (u32 (frames_dropped t + 1))
              (set_frame_debt (d_sub (frame_debt t) (d_lit 1)) t))
      else if d_ltb (frame_debt t) (d_lit (-2))
      then (Some front,
            set_frames_duplicated (u32 (frames_duplicated t + 1))
              (set_frame_debt (d_add (frame_debt t) (d_lit 1)) t))
      else (Some front, t)
  | C64U_TIMING_INTERPOLATION =>
      let it := interpolation t in
      let next_write := u8 ((write_index it + 1) mod 3) in
      let it1 :=
        match frames it !! Z.to_nat next_write with
        | Some (Some dst) =>
            mk_interpolation
              (<[Z.to_nat next_write := Some (memcpy_pixels dst front (frame_size_pixels width height))]>
                 (frames it))
              (<[Z.to_nat next_write := now]> (timestamps it))
              next_write (read_index it) true
        | _ => it
        end in
      let t1 := set_interpolation it1 t in
      if buffer_ready it1
      then (mjoin (frames it1 !! Z.to_nat (write_index it1)), t1)
      else (Some front, t1)
  | C64U_TIMING_VSYNC => (Some front, t)
  end.

(** The timing part of one [c64u_render] call on a streaming source with a
    ready frame and an initialised timing engine: the frame rendered and the
    updated state. *)
Definition render_select_frame (t : timing_state) (front : pixbuf)
    (width height : Z) (render_start : Z) : pixbuf * timing_state :=
  if negb (strategy_eqb (strategy t) C64U_TIMING_PASSTHROUGH)
  then
    let '(deliver, t1) := c64u_timing_should_deliver_frame t render_start in
    if deliver
    then
      let '(frame_to_render, t2) :=
        c64u_timing_get_frame_for_obs t1 front width height render_start in
      match frame_to_render with
      | Some f => (f, c64u_timing_on_obs_frame_delivered t2 render_start)
      | None => (front, t2)
      end
    else (front, t1)
  else (front, t).

(** What can happen to a timing state between its initialisation and the
    end of the stream. *)
Inductive timing_event : Type :=
  | C64FrameReceived (now : Z)
  | RenderPoll (front : pixbuf) (width height : Z) (render_start : Z).

Definition timing_step (t : timing_state) (e : timing_event) : timing_state :=
  match e with
  | C64FrameReceived now => c64u_timing_on_c64_frame_received t now
  | RenderPoll front w h now => snd (render_select_frame t front w h now)
  end.

Definition timing_run (t : timing_state) (es : list timing_event) : timing_state :=
  foldl timing_step t es.

(** The answers of [c64u_timing_should_deliver_frame] along a run, one per
    render poll that consults it. *)
Fixpoint deliver_answers (t : timing_state) (es : list timing_event) : list bool :=
  match es with
  | [] => []
  | e :: es' =>
      match e with
      | RenderPoll _ _ _ now =>
          if negb (strategy_eqb (strategy t) C64U_TIMING_PASSTHROUGH)
          then fst (c64u_timing_should_deliver_frame t now) :: deliver_answers (timing_step t e) es'
          else deliver_answers (timing_step t e) es'
      | C64FrameReceived _ => deliver_answers (timing_step t e) es'
      end
  end.

End Timing.

(* ===================================================================== *)
(** * Protocol constants ([c64u-protocol.h]) *)
(* ===================================================================== *)

(** The constants of [c64u-protocol.h] that the sources use and whose values
    the sources do not show.  Every definition and result below takes them as
    parameters. *)
Class Protocol : Type := {
  C64U_VIDEO_PACKET_SIZE : Z;
  C64U_MAX_PACKETS_PER_FRAME : Z;
  C64U_LINES_PER_PACKET : Z;
  C64U_PAL_WIDTH : Z;
  C64U_PAL_HEIGHT : Z;
  C64U_NTSC_HEIGHT : Z;
  C64U_FRAME_TIMEOUT_MS : Z
}.

(** Modelled from the spec: [C64U_VIDEO_HEADER_SIZE] is declared in
    [c64u-protocol.h]; the wire format has a 12-byte header, and the parser
    reads header bytes 0 to 11. *)
Definition C64U_VIDEO_HEADER_SIZE : Z := 12.

(** Modelled from the spec: [C64U_PIXELS_PER_LINE] is declared in
    [c64u-protocol.h]; the pixel format is fixed at 384 pixels per line (the
    receive loop notes "Always 384"). *)
Definition C64U_PIXELS_PER_LINE : Z := 384.

(** Modelled from the spec: [C64U_BYTES_PER_LINE] is declared in
    [c64u-protocol.h]; a line is [pixels_per_line / 2] packed bytes. *)
Definition C64U_BYTES_PER_LINE : Z := 192.

(** A set of values to run the definitions on: the two heights are those
    of the design document, the capacity holds a picture of 288 rows in
    packets of four lines, and a datagram is the header and four lines. *)
Definition sample_protocol : Protocol := {|
  C64U_VIDEO_PACKET_SIZE := 780;
  C64U_MAX_PACKETS_PER_FRAME := 72;
  C64U_LINES_PER_PACKET := 4;
  C64U_PAL_WIDTH := 384;
  C64U_PAL_HEIGHT := 288;
  C64U_NTSC_HEIGHT := 240;
  C64U_FRAME_TIMEOUT_MS := 100
|}.

(* ===================================================================== *)
(** * Frame assembly state and source context ([c64u-types.h]) *)
(* ===================================================================== *)

(** The declarations of [c64u-types.h], read off the code that uses them.
    The two counters of a frame are taken as [uint16_t], the counters of the
    context as [uint32_t], the latency total as [uint64_t]. *)

(** One slot of the table: [struct frame_packet]. *)
Record frame_packet : Type := mk_frame_packet {
  line_num : Z;
  lines_per_packet : Z;
  received : bool;
  packet_data : list Z
}.

(** [struct frame_assembly]: the single live slot table. *)
Record frame_assembly : Type := mk_frame_assembly {
  frame_num : Z;
  start_time : Z;
  packets : list frame_packet;
  received_packets : Z;
  expected_packets : Z
}.

(** The fields of [struct c64u_source] that the receive path, the timing
    engine, rendering and the stop routine read or write.  A socket is [None]
    when it is [INVALID_SOCKET_VALUE]; [timing] is [None] when the pointer is
    [NULL]. *)

Record c64u_source (D : Type) : Type := mk_source {
  streaming : bool;
  thread_active : bool;
  video_thread_active : bool;
  audio_thread_active : bool;
  video_socket : option Z;
  audio_socket : option Z;
  width : Z;
  height : Z;
  frame_buffer_front : pixbuf;
  frame_buffer_back : pixbuf;
  frame_ready : bool;
  buffer_swap_pending : bool;
  detected_frame_height : Z;
  format_detected : bool;
  expected_fps : D;
  current_frame : frame_assembly;
  last_completed_frame : Z;
  frame_drops : Z;
  packet_drops : Z;
  frames_expected : Z;
  frames_captured : Z;
  frames_delivered_to_obs : Z;
  frames_completed : Z;
  buffer_swaps : Z;
  total_pipeline_latency : Z;
  last_capture_time : Z;
  timing : option (c64u_timing_state D);
  timing_initialized : bool;
  obs_target_fps_x1000 : Z
}.

Arguments mk_source {D}.
Arguments streaming {D}.
Arguments thread_active {D}.
Arguments video_thread_active {D}.
Arguments audio_thread_active {D}.
Arguments video_socket {D}.
Arguments audio_socket {D}.
Arguments width {D}.
Arguments height {D}.
Arguments frame_buffer_front {D}.
Arguments frame_buffer_back {D}.
Arguments frame_ready {D}.
Arguments buffer_swap_pending {D}.
Arguments detected_frame_height {D}.
Arguments format_detected {D}.
Arguments expected_fps {D}.
Arguments current_frame {D}.
Arguments last_completed_frame {D}.
Arguments frame_drops {D}.
Arguments packet_drops {D}.
Arguments frames_expected {D}.
Arguments frames_captured {D}.
Arguments frames_delivered_to_obs {D}.
Arguments frames_completed {D}.
Arguments buffer_swaps {D}.
Arguments total_pipeline_latency {D}.
Arguments last_capture_time {D}.
Arguments timing {D}.
Arguments timing_initialized {D}.
Arguments obs_target_fps_x1000 {D}.

Section SourceFields.
Context {D : Type}.

#[local] Abbreviation source := (c64u_source D).

Definition set_streaming (v : bool) (c : source) : source :=
  mk_source v (thread_active c) (video_thread_active c) (audio_thread_active c)
    (video_socket c) (audio_socket c) (width c) (height c) (frame_buffer_front c)
    (frame_buffer_back c) (frame_ready c) (buffer_swap_pending c) (detected_frame_height c)
    (format_detected c) (expected_fps c) (current_frame c) (last_completed_frame c)
    (frame_drops c) (packet_drops c) (frames_expected c) (frames_captured c)
    (frames_delivered_to_obs c) (frames_completed c) (buffer_swaps c)
    (total_pipeline_latency c) (last_capture_time c) (timing c) (timing_initialized c)
    (obs_target_fps_x1000 c).

Definition set_thread_active (v : bool) (c : source) : source :=
  mk_source (streaming c) v (video_thread_active c) (audio_thread_active c) (video_socket c)
    (audio_socket c) (width c) (height c) (frame_buffer_front c) (frame_buffer_back c)
    (frame_ready c) (buffer_swap_pending c) (detected_frame_height c) (format_detected c)
    (expected_fps c) (current_frame c) (last_completed_frame c) (frame_drops c)
    (packet_drops c) (frames_expected c) (frames_captured c) (frames_delivered_to_obs c)
    (frames_completed c) (buffer_swaps c) (total_pipeline_latency c) (last_capture_time c)
    (timing c) (timing_initialized c)
    (obs_target_fps_x1000 c).

Definition set_video_thread_active (v : bool) (c : source) : source :=
  mk_source (streaming c) (thread_active c) v (audio_thread_active c) (video_socket c)
    (audio_socket c) (width c) (height c) (frame_buffer_front c) (frame_buffer_back c)
    (frame_ready c) (buffer_swap_pending c) (detected_frame_height c) (format_detected c)
    (expected_fps c) (current_frame c) (last_completed_frame c) (frame_drops c)
    (packet_drops c) (frames_expected c) (frames_captured c) (frames_delivered_to_obs c)
    (frames_completed c) (buffer_swaps c) (total_pipeline_latency c) (last_capture_time c)
    (timing c) (timing_initialized c)
    (obs_target_fps_x1000 c).

Definition set_audio_thread_active (v : bool) (c : source) : source :=
  mk_source (streaming c) (thread_active c) (video_thread_active c) v (video_socket c)
    (audio_socket c) (width c) (height c) (frame_buffer_front c) (frame_buffer_back c)
    (frame_ready c) (buffer_swap_pending c) (detected_frame_height c) (format_detected c)
    (expected_fps c) (current_frame c) (last_completed_frame c) (frame_drops c)
    (packet_drops c) (frames_expected c) (frames_captured c) (frames_delivered_to_obs c)
    (frames_completed c) (buffer_swaps c) (total_pipeline_latency c) (last_capture_time c)
    (timing c) (timing_initialized c)
    (obs_target_fps_x1000 c).

Definition set_video_socket (v : option Z) (c : source) : source :=
  mk_source (streaming c) (thread_active c) (video_thread_active c) (audio_thread_active c)
    v (audio_socket c) (width c) (height c) (frame_buffer_front c) (frame_buffer_back c)
    (frame_ready c) (buffer_swap_pending c) (detected_frame_height c) (format_detected c)
    (expected_fps c) (current_frame c) (last_completed_frame c) (frame_drops c)
    (packet_drops c) (frames_expected c) (frames_captured c) (frames_delivered_to_obs c)
    (frames_completed c) (buffer_swaps c) (total_pipeline_latency c) (last_capture_time c)
    (timing c) (timing_initialized c)
    (obs_target_fps_x1000 c).

Definition set_audio_socket (v : option Z) (c : source) : source :=
  mk_source (streaming c) (thread_active c) (video_thread_active c) (audio_thread_active c)
    (video_socket c) v (width c) (height c) (frame_buffer_front c) (frame_buffer_back c)
    (frame_ready c) (buffer_swap_pending c) (detected_frame_height c) (format_detected c)
    (expected_fps c) (current_frame c) (last_completed_frame c) (frame_drops c)
    (packet_drops c) (frames_expected c) (frames_captured c) (frames_delivered_to_obs c)
    (frames_completed c) (buffer_swaps c) (total_pipeline_latency c) (last_capture_time c)
    (timing c) (timing_initialized c)
    (obs_target_fps_x1000 c).

Definition set_width (v : Z) (c : source) : source :=
  mk_source (streaming c) (thread_active c) (video_thread_active c) (audio_thread_active c)
    (video_socket c) (audio_socket c) v (height c) (frame_buffer_front c)
    (frame_buffer_back c) (frame_ready c) (buffer_swap_pending c) (detected_frame_height c)
    (format_detected c) (expected_fps c) (current_frame c) (last_completed_frame c)
    (frame_drops c) (packet_drops c) (frames_expected c) (frames_captured c)
    (frames_delivered_to_obs c) (frames_completed c) (buffer_swaps c)
    (total_pipeline_latency c) (last_capture_time c) (timing c) (timing_initialized c)
    (obs_target_fps_x1000 c).

Definition set_height (v : Z) (c : source) : source :=
  mk_source (streaming c) (thread_active c) (video_thread_active c) (audio_thread_active c)
    (video_socket c) (audio_socket c) (width c) v (frame_buffer_front c)
    (frame_buffer_back c) (frame_ready c) (buffer_swap_pending c) (detected_frame_height c)
    (format_detected c) (expected_fps c) (current_frame c) (last_completed_frame c)
    (frame_drops c) (packet_drops c) (frames_expected c) (frames_captured c)
    (frames_delivered_to_obs c) (frames_completed c) (buffer_swaps c)
    (total_pipeline_latency c) (last_capture_time c) (timing c) (timing_initialized c)
    (obs_target_fps_x1000 c).

Definition set_frame_buffer_front (v : pixbuf) (c : source) : source :=
  mk_source (streaming c) (thread_active c) (video_thread_active c) (audio_thread_active c)
    (video_socket c) (audio_socket c) (width c) (height c) v (frame_buffer_back c)
    (frame_ready c) (buffer_swap_pending c) (detected_frame_height c) (format_detected c)
    (expected_fps c) (current_frame c) (last_completed_frame c) (frame_drops c)
    (packet_drops c) (frames_expected c) (frames_captured c) (frames_delivered_to_obs c)
    (frames_completed c) (buffer_swaps c) (total_pipeline_latency c) (last_capture_time c)
    (timing c) (timing_initialized c)
    (obs_target_fps_x1000 c).

Definition set_frame_buffer_back (v : pixbuf) (c : source) : source :=
  mk_source (streaming c) (thread_active c) (video_thread_active c) (audio_thread_active c)
    (video_socket c) (audio_socket c) (width c) (height c) (frame_buffer_front c) v
    (frame_ready c) (buffer_swap_pending c) (detected_frame_height c) (format_detected c)
    (expected_fps c) (current_frame c) (last_completed_frame c) (frame_drops c)
    (packet_drops c) (frames_expected c) (frames_captured c) (frames_delivered_to_obs c)
    (frames_completed c) (buffer_swaps c) (total_pipeline_latency c) (last_capture_time c)
    (timing c) (timing_initialized c)
    (obs_target_fps_x1000 c).

Definition set_frame_ready (v : bool) (c : source) : source :=
  mk_source (streaming c) (thread_active c) (video_thread_active c) (audio_thread_active c)
    (video_socket c) (audio_socket c) (width c) (height c) (frame_buffer_front c)
    (frame_buffer_back c) v (buffer_swap_pending c) (detected_frame_height c)
    (format_detected c) (expected_fps c) (current_frame c) (last_completed_frame c)
    (frame_drops c) (packet_drops c) (frames_expected c) (frames_captured c)
    (frames_delivered_to_obs c) (frames_completed c) (buffer_swaps c)
    (total_pipeline_latency c) (last_capture_time c) (timing c) (timing_initialized c)
    (obs_target_fps_x1000 c).

Definition set_buffer_swap_pending (v : bool) (c : source) : source :=
  mk_source (streaming c) (thread_active c) (video_thread_active c) (audio_thread_active c)
    (video_socket c) (audio_socket c) (width c) (height c) (frame_buffer_front c)
    (frame_buffer_back c) (frame_ready c) v (detected_frame_height c) (format_detected c)
    (expected_fps c) (current_frame c) (last_completed_frame c) (frame_drops c)
    (packet_drops c) (frames_expected c) (frames_captured c) (frames_delivered_to_obs c)
    (frames_completed c) (buffer_swaps c) (total_pipeline_latency c) (last_capture_time c)
    (timing c) (timing_initialized c)
    (obs_target_fps_x1000 c).

Definition set_detected_frame_height (v : Z) (c : source) : source :=
  mk_source (streaming c) (thread_active c) (video_thread_active c) (audio_thread_active c)
    (video_socket c) (audio_socket c) (width c) (height c) (frame_buffer_front c)
    (frame_buffer_back c) (frame_ready c) (buffer_swap_pending c) v (format_detected c)
    (expected_fps c) (current_frame c) (last_completed_frame c) (frame_drops c)
    (packet_drops c) (frames_expected c) (frames_captured c) (frames_delivered_to_obs c)
    (frames_completed c) (buffer_swaps c) (total_pipeline_latency c) (last_capture_time c)
    (timing c) (timing_initialized c)
    (obs_target_fps_x1000 c).

Definition set_format_detected (v : bool) (c : source) : source :=
  mk_source (streaming c) (thread_active c) (video_thread_active c) (audio_thread_active c)
    (video_socket c) (audio_socket c) (width c) (height c) (frame_buffer_front c)
    (frame_buffer_back c) (frame_ready c) (buffer_swap_pending c) (detected_frame_height c)
    v (expected_fps c) (current_frame c) (last_completed_frame c) (frame_drops c)
    (packet_drops c) (frames_expected c) (frames_captured c) (frames_delivered_to_obs c)
    (frames_completed c) (buffer_swaps c) (total_pipeline_latency c) (last_capture_time c)
    (timing c) (timing_initialized c)
    (obs_target_fps_x1000 c).

Definition set_expected_fps (v : D) (c : source) : source :=
  mk_source (streaming c) (thread_active c) (video_thread_active c) (audio_thread_active c)
    (video_socket c) (audio_socket c) (width c) (height c) (frame_buffer_front c)
    (frame_buffer_back c) (frame_ready c) (buffer_swap_pending c) (detected_frame_height c)
    (format_detected c) v (current_frame c) (last_completed_frame c) (frame_drops c)
    (packet_drops c) (frames_expected c) (frames_captured c) (frames_delivered_to_obs c)
    (frames_completed c) (buffer_swaps c) (total_pipeline_latency c) (last_capture_time c)
    (timing c) (timing_initialized c)
    (obs_target_fps_x1000 c).

Definition set_current_frame (v : frame_assembly) (c : source) : source :=
  mk_source (streaming c) (thread_active c) (video_thread_active c) (audio_thread_active c)
    (video_socket c) (audio_socket c) (width c) (height c) (frame_buffer_front c)
    (frame_buffer_back c) (frame_ready c) (buffer_swap_pending c) (detected_frame_height c)
    (format_detected c) (expected_fps c) v (last_completed_frame c) (frame_drops c)
    (packet_drops c) (frames_expected c) (frames_captured c) (frames_delivered_to_obs c)
    (frames_completed c) (buffer_swaps c) (total_pipeline_latency c) (last_capture_time c)
    (timing c) (timing_initialized c)
    (obs_target_fps_x1000 c).

Definition set_last_completed_frame (v : Z) (c : source) : source :=
  mk_source (streaming c) (thread_active c) (video_thread_active c) (audio_thread_active c)
    (video_socket c) (audio_socket c) (width c) (height c) (frame_buffer_front c)
    (frame_buffer_back c) (frame_ready c) (buffer_swap_pending c) (detected_frame_height c)
    (format_detected c) (expected_fps c) (current_frame c) v (frame_drops c)
    (packet_drops c) (frames_expected c) (frames_captured c) (frames_delivered_to_obs c)
    (frames_completed c) (buffer_swaps c) (total_pipeline_latency c) (last_capture_time c)
    (timing c) (timing_initialized c)
    (obs_target_fps_x1000 c).

Definition set_frame_drops (v : Z) (c : source) : source :=
  mk_source (streaming c) (thread_active c) (video_thread_active c) (audio_thread_active c)
    (video_socket c) (audio_socket c) (width c) (height c) (frame_buffer_front c)
    (frame_buffer_back c) (frame_ready c) (buffer_swap_pending c) (detected_frame_height c)
    (format_detected c) (expected_fps c) (current_frame c) (last_completed_frame c) v
    (packet_drops c) (frames_expected c) (frames_captured c) (frames_delivered_to_obs c)
    (frames_completed c) (buffer_swaps c) (total_pipeline_latency c) (last_capture_time c)
    (timing c) (timing_initialized c)
    (obs_target_fps_x1000 c).

Definition set_packet_drops (v : Z) (c : source) : source :=
  mk_source (streaming c) (thread_active c) (video_thread_active c) (audio_thread_active c)
    (video_socket c) (audio_socket c) (width c) (height c) (frame_buffer_front c)
    (frame_buffer_back c) (frame_ready c) (buffer_swap_pending c) (detected_frame_height c)
    (format_detected c) (expected_fps c) (current_frame c) (last_completed_frame c)
    (frame_drops c) v (frames_expected c) (frames_captured c) (frames_delivered_to_obs c)
    (frames_completed c) (buffer_swaps c) (total_pipeline_latency c) (last_capture_time c)
    (timing c) (timing_initialized c)
    (obs_target_fps_x1000 c).

Definition set_frames_expected (v : Z) (c : source) : source :=
  mk_source (streaming c) (thread_active c) (video_thread_active c) (audio_thread_active c)
    (video_socket c) (audio_socket c) (width c) (height c) (frame_buffer_front c)
    (frame_buffer_back c) (frame_ready c) (buffer_swap_pending c) (detected_frame_height c)
    (format_detected c) (expected_fps c) (current_frame c) (last_completed_frame c)
    (frame_drops c) (packet_drops c) v (frames_captured c) (frames_delivered_to_obs c)
    (frames_completed c) (buffer_swaps c) (total_pipeline_latency c) (last_capture_time c)
    (timing c) (timing_initialized c)
    (obs_target_fps_x1000 c).

Definition set_frames_captured (v : Z) (c : source) : source :=
  mk_source (streaming c) (thread_active c) (video_thread_active c) (audio_thread_active c)
    (video_socket c) (audio_socket c) (width c) (height c) (frame_buffer_front c)
    (frame_buffer_back c) (frame_ready c) (buffer_swap_pending c) (detected_frame_height c)
    (format_detected c) (expected_fps c) (current_frame c) (last_completed_frame c)
    (frame_drops c) (packet_drops c) (frames_expected c) v (frames_delivered_to_obs c)
    (frames_completed c) (buffer_swaps c) (total_pipeline_latency c) (last_capture_time c)
    (timing c) (timing_initialized c)
    (obs_target_fps_x1000 c).

Definition set_frames_delivered_to_obs (v : Z) (c : source) : source :=
  mk_source (streaming c) (thread_active c) (video_thread_active c) (audio_thread_active c)
    (video_socket c) (audio_socket c) (width c) (height c) (frame_buffer_front c)
    (frame_buffer_back c) (frame_ready c) (buffer_swap_pending c) (detected_frame_height c)
    (format_detected c) (expected_fps c) (current_frame c) (last_completed_frame c)
    (frame_drops c) (packet_drops c) (frames_expected c) (frames_captured c) v
    (frames_completed c) (buffer_swaps c) (total_pipeline_latency c) (last_capture_time c)
    (timing c) (timing_initialized c)
    (obs_target_fps_x1000 c).

Definition set_frames_completed (v : Z) (c : source) : source :=
  mk_source (streaming c) (thread_active c) (video_thread_active c) (audio_thread_active c)
    (video_socket c) (audio_socket c) (width c) (height c) (frame_buffer_front c)
    (frame_buffer_back c) (frame_ready c) (buffer_swap_pending c) (detected_frame_height c)
    (format_detected c) (expected_fps c) (current_frame c) (last_completed_frame c)
    (frame_drops c) (packet_drops c) (frames_expected c) (frames_captured c)
    (frames_delivered_to_obs c) v (buffer_swaps c) (total_pipeline_latency c)
    (last_capture_time c) (timing c) (timing_initialized c)
    (obs_target_fps_x1000 c).

Definition set_buffer_swaps (v : Z) (c : source) : source :=
  mk_source (streaming c) (thread_active c) (video_thread_active c) (audio_thread_active c)
    (video_socket c) (audio_socket c) (width c) (height c) (frame_buffer_front c)
    (frame_buffer_back c) (frame_ready c) (buffer_swap_pending c) (detected_frame_height c)
    (format_detected c) (expected_fps c) (current_frame c) (last_completed_frame c)
    (frame_drops c) (packet_drops c) (frames_expected c) (frames_captured c)
    (frames_delivered_to_obs c) (frames_completed c) v (total_pipeline_latency c)
    (last_capture_time c) (timing c) (timing_initialized c)
    (obs_target_fps_x1000 c).

Definition set_total_pipeline_latency (v : Z) (c : source) : source :=
  mk_source (streaming c) (thread_active c) (video_thread_active c) (audio_thread_active c)
    (video_socket c) (audio_socket c) (width c) (height c) (frame_buffer_front c)
    (frame_buffer_back c) (frame_ready c) (buffer_swap_pending c) (detected_frame_height c)
    (format_detected c) (expected_fps c) (current_frame c) (last_completed_frame c)
    (frame_drops c) (packet_drops c) (frames_expected c) (frames_captured c)
    (frames_delivered_to_obs c) (frames_completed c) (buffer_swaps c) v
    (last_capture_time c) (timing c) (timing_initialized c)
    (obs_target_fps_x1000 c).

Definition set_last_capture_time (v : Z) (c : source) : source :=
  mk_source (streaming c) (thread_active c) (video_thread_active c) (audio_thread_active c)
    (video_socket c) (audio_socket c) (width c) (height c) (frame_buffer_front c)
    (frame_buffer_back c) (frame_ready c) (buffer_swap_pending c) (detected_frame_height c)
    (format_detected c) (expected_fps c) (current_frame c) (last_completed_frame c)
    (frame_drops c) (packet_drops c) (frames_expected c) (frames_captured c)
    (frames_delivered_to_obs c) (frames_completed c) (buffer_swaps c)
    (total_pipeline_latency c) v (timing c) (timing_initialized c)
    (obs_target_fps_x1000 c).

Definition set_timing (v : option (c64u_timing_state D)) (c : source) : source :=
  mk_source (streaming c) (thread_active c) (video_thread_active c) (audio_thread_active c)
    (video_socket c) (audio_socket c) (width c) (height c) (frame_buffer_front c)
    (frame_buffer_back c) (frame_ready c) (buffer_swap_pending c) (detected_frame_height c)
    (format_detected c) (expected_fps c) (current_frame c) (last_completed_frame c)
    (frame_drops c) (packet_drops c) (frames_expected c) (frames_captured c)
    (frames_delivered_to_obs c) (frames_completed c) (buffer_swaps c)
    (total_pipeline_latency c) (last_capture_time c) v (timing_initialized c)
    (obs_target_fps_x1000 c).

Definition set_timing_initialized (v : bool) (c : source) : source :=
  mk_source (streaming c) (thread_active c) (video_thread_active c) (audio_thread_active c)
    (video_socket c) (audio_socket c) (width c) (height c) (frame_buffer_front c)
    (frame_buffer_back c) (frame_ready c) (buffer_swap_pending c) (detected_frame_height c)
    (format_detected c) (expected_fps c) (current_frame c) (last_completed_frame c)
    (frame_drops c) (packet_drops c) (frames_expected c) (frames_captured c)
    (frames_delivered_to_obs c) (frames_completed c) (buffer_swaps c)
    (total_pipeline_latency c) (last_capture_time c) (timing c) v
    (obs_target_fps_x1000 c).

Definition set_obs_target_fps_x1000 (v : Z) (c : source) : source :=
  mk_source (streaming c) (thread_active c) (video_thread_active c) (audio_thread_active c)
    (video_socket c) (audio_socket c) (width c) (height c) (frame_buffer_front c)
    (frame_buffer_back c) (frame_ready c) (buffer_swap_pending c) (detected_frame_height c)
    (format_detected c) (expected_fps c) (current_frame c) (last_completed_frame c)
    (frame_drops c) (packet_drops c) (frames_expected c) (frames_captured c)
    (frames_delivered_to_obs c) (frames_completed c) (buffer_swaps c)
    (total_pipeline_latency c) (last_capture_time c) (timing c) (timing_initialized c) v.

End SourceFields.

(* ===================================================================== *)
(** * Colour conversion and frame assembly ([src/c64u-video.c]) *)
(* ===================================================================== *)

(** VIC colour palette (BGRA values). *)
Definition vic_colors : list Z :=
  [ 0xFF000000; 0xFFEFEFEF; 0xFF342F8D; 0xFFCDD46A;
    0xFFA43598; 0xFF42B44C; 0xFFB1292C; 0xFF5DEFEF;
    0xFF204E98; 0xFF00385B; 0xFF6D67D1; 0xFF4A4A4A;
    0xFF7B7B7B; 0xFF93EF9F; 0xFFEF6A6D; 0xFFB2B2B2 ].

Definition vic_color (c : Z) : Z := vic_colors !!! Z.to_nat c.

(** The body of the innermost loop of [assemble_frame_to_buffer]:
    [dst_line] and [src_line] are the pixel offset of the destination row and
    the byte offset of the source row. *)
Definition convert_pixel_pair (src : list Z) (src_line dst_line : Z) (x : Z)
    (buf : pixbuf) : pixbuf :=
  let pixel_pair := src !!! Z.to_nat (src_line + x) in
  let color1 := Z.land pixel_pair 0x0F in
  let color2 := Z.shiftr pixel_pair 4 in
  <[dst_line + (x * 2 + 1) := vic_color color2]>
    (<[dst_line + x * 2 := vic_color color1]> buf).

Definition convert_line (src : list Z) (src_line dst_line : Z) (buf : pixbuf) : pixbuf :=
  for_loop (Z.to_nat C64U_BYTES_PER_LINE) 0 (fun x => x <? C64U_BYTES_PER_LINE)
    (convert_pixel_pair src src_line dst_line) buf.

(** The loop over the rows of one received slot. *)
Definition convert_packet (height : Z) (p : frame_packet) (buf : pixbuf) : pixbuf :=
  for_loop (Z.to_nat (lines_per_packet p)) 0
    (fun line => (line <? lines_per_packet p) && (line_num p + line <? height))
    (fun line b =>
       convert_line (packet_data p) (line * C64U_BYTES_PER_LINE)
         ((line_num p + line) * C64U_PIXELS_PER_LINE) b)
    buf.

Section Video.
Context {D : Type} {dops : DoubleOps D} {K : Protocol}.

#[local] Abbreviation source := (c64u_source D).

Definition payload_size : Z := C64U_VIDEO_PACKET_SIZE - C64U_VIDEO_HEADER_SIZE.

(** A slot, and a slot table, after [memset(..., 0, ...)]. *)
Definition zero_frame_packet : frame_packet :=
  mk_frame_packet 0 0 false (replicate (Z.to_nat payload_size) 0).

Definition zero_frame_assembly : frame_assembly :=
  mk_frame_assembly 0 0
    (replicate (Z.to_nat C64U_MAX_PACKETS_PER_FRAME) zero_frame_packet) 0 0.

(** [init_frame_assembly]; [now] is what its [os_gettime_ns()] returns. *)
Definition init_frame_assembly (frame_num : Z) (now : Z) : frame_assembly :=
  mk_frame_assembly frame_num now (packets zero_frame_assembly) 0 0.

Definition is_frame_complete (frame : frame_assembly) : bool :=
  (0 <? received_packets frame) && (received_packets frame =? expected_packets frame).

(** [is_frame_timeout]; [now] is what its [os_gettime_ns()] returns. *)
Definition is_frame_timeout (frame : frame_assembly) (now : Z) : bool :=
  let elapsed := u64 (now - start_time frame) / 1000000 in
  C64U_FRAME_TIMEOUT_MS <? elapsed.

Definition swap_frame_buffers (context : source) : source :=
  let temp := frame_buffer_front context in
  set_buffer_swap_pending false
    (set_frame_ready true
       (set_frame_buffer_back temp
          (set_frame_buffer_front (frame_buffer_back context) context))).

(** The loop over the slot table, on the back buffer alone: its first
    [steps] iterations, and all of them. *)
Definition assemble_slots_steps (steps : nat) (height : Z) (slots : list frame_packet)
    (buf : pixbuf) : pixbuf :=
  for_loop steps 0
    (fun i => i <? C64U_MAX_PACKETS_PER_FRAME)
    (fun i b =>
       match slots !! Z.to_nat i with
       | Some packet => if received packet then convert_packet height packet b else b
       | None => b
       end)
    buf.

Definition assemble_slots (height : Z) (slots : list frame_packet) (buf : pixbuf) : pixbuf :=
  assemble_slots_steps (Z.to_nat C64U_MAX_PACKETS_PER_FRAME) height slots buf.

Definition assemble_frame_to_buffer (context : source) (frame : frame_assembly) : source :=
  set_frame_buffer_back
    (assemble_slots (height context) (packets frame) (frame_buffer_back context))
    context.

(* ===================================================================== *)
(** * The receive loop *)
(* ===================================================================== *)

(** The header fields as the loop reads them from the datagram. *)
Record video_header : Type := mk_header {
  hdr_seq_num : Z;
  hdr_frame_num : Z;
  hdr_line_num : Z;
  hdr_pixels_per_line : Z;
  hdr_lines_per_packet : Z;
  hdr_bits_per_pixel : Z;
  hdr_encoding : Z
}.

(** A [uint16_t] read at byte offset [off] (the hosts are little-endian). *)
Definition read_u16 (packet : list Z) (off : nat) : Z :=
  u8 (packet !!! off) + 256 * u8 (packet !!! Datatypes.S off).

Definition parse_header (packet : list Z) : video_header :=
  mk_header (read_u16 packet 0) (read_u16 packet 2) (read_u16 packet 4)
    (read_u16 packet 6) (u8 (packet !!! 8%nat)) (u8 (packet !!! 9%nat))
    (read_u16 packet 10).

(** The readings of the clock and the results of the lock calls of one
    iteration, in program order. *)
Record step_env : Type := mk_env {
  t_stats : Z;
  assembly_lock_ok : bool;
  t_capture : Z;
  t_timeout : Z;
  frame_lock_ok_preempt : bool;
  t_latency_preempt : Z;
  t_start : Z;
  frame_lock_ok_complete : bool;
  t_latency_complete : Z;
  t_reset : Z
}.

(** What the frame assembler does, in program order: the events of a run
    are how the properties below speak about "at most once".
    [EvAssembleSwap] is the assemble-and-swap block, [EvFrameDrop] the
    increment of [frame_drops], [EvNewFrame previous next] the call
    [init_frame_assembly(.., next)] of the new-frame branch and
    [EvFrameReset frame] the call [init_frame_assembly(.., 0)] after [frame]
    completed. *)
Inductive completion_path : Type := PreemptPath | InFramePath.

Inductive video_event : Type :=
  | EvNewFrame (previous next : Z)
  | EvAssembleSwap (path : completion_path) (frame : Z)
  | EvFrameDrop (frame : Z)
  | EvFrameReset (frame : Z).

(** The guarded block shared by both completion paths: assemble, swap,
    remember the frame number, count. *)
Definition deliver_completed_frame (path : completion_path) (context : source)
    (capture_time latency_now : Z) : source * list video_event :=
  if negb (last_completed_frame context =? frame_num (current_frame context))
  then
    let c1 := assemble_frame_to_buffer context (current_frame context) in
    let c2 := swap_frame_buffers c1 in
    let c3 := set_last_completed_frame (frame_num (current_frame c2)) c2 in
    let c4 := set_frames_completed (u32 (frames_completed c3 + 1)) c3 in
    let c5 := set_buffer_swaps (u32 (buffer_swaps c4 + 1)) c4 in
    let c6 := set_frames_delivered_to_obs (u32 (frames_delivered_to_obs c5 + 1)) c5 in
    let c7 :=
      set_total_pipeline_latency
        (u64 (total_pipeline_latency c6 + u64 (latency_now - capture_time))) c6 in
    (c7, [EvAssembleSwap path (frame_num (current_frame context))])
  else (context, []).

(** "Complete previous frame if it exists and is reasonably complete": a
    complete frame is assembled and swapped, an incomplete one that has timed
    out is counted as dropped, any other is left as it is. *)
Definition finalize_previous_frame (context : source) (env : step_env)
    : source * list video_event :=
  if 0 <? received_packets (current_frame context)
  then
    if is_frame_complete (current_frame context)
       || is_frame_timeout (current_frame context) (t_timeout env)
    then
      if is_frame_complete (current_frame context)
      then
        if frame_lock_ok_preempt env
        then deliver_completed_frame PreemptPath context (t_capture env) (t_latency_preempt env)
        else (context, [])
      else
        (set_frame_drops (u32 (frame_drops context + 1)) context,
         [EvFrameDrop (frame_num (current_frame context))])
    else (context, [])
  else (context, []).

(** The new-frame branch: count the frame, finalise the frame in progress,
    then start the table of [frame_num']. *)
Definition start_new_frame (context : source) (frame_num' : Z) (env : step_env)
    : source * list video_event :=
  let c1 :=
    if 0 <? last_capture_time context
    then set_frames_expected (u32 (frames_expected context + 1)) context
    else context in
  let c2 :=
    set_last_capture_time (t_capture env)
      (set_frames_captured (u32 (frames_captured c1 + 1)) c1) in
  let '(c3, evs) := finalize_previous_frame c2 env in
  (set_current_frame (init_frame_assembly frame_num' (t_start env)) c3,
   evs ++ [EvNewFrame (frame_num (current_frame context)) frame_num']).

(** The slot-table update: first writer wins. *)
Definition store_packet (frame : frame_assembly) (packet_index : Z)
    (line_num' lines_per_packet' : Z) (payload : list Z) : frame_assembly :=
  match packets frame !! Z.to_nat packet_index with
  | Some fp =>
      if received fp then frame
      else
        mk_frame_assembly (frame_num frame) (start_time frame)
          (<[Z.to_nat packet_index :=
               mk_frame_packet line_num' lines_per_packet' true
                 (take (Z.to_nat payload_size) payload)]> (packets frame))
          (u16 (received_packets frame + 1)) (expected_packets frame)
  | None => frame
  end.

(** Format detection from the height the last packet implies. *)
Definition detect_format (context : source) (frame_height : Z) : source :=
  if negb (format_detected context) || negb (detected_frame_height context =? frame_height)
  then
    let c1 := set_format_detected true (set_detected_frame_height frame_height context) in
    let c2 :=
      if frame_height =? C64U_PAL_HEIGHT then set_expected_fps (d_lit 50) c1
      else if frame_height =? C64U_NTSC_HEIGHT then set_expected_fps (d_lit 60) c1
      else set_expected_fps (if frame_height <=? 250 then d_lit 60 else d_lit 50) c1 in
    if negb (height c2 =? frame_height)
    then set_width C64U_PIXELS_PER_LINE (set_height frame_height c2)
    else c2
  else context.

(** The last-packet block: fix the expected packet count once, then detect
    the format. *)
Definition note_last_packet (context : source) (last_packet : bool)
    (packet_index line_num' lines_per_packet' : Z) : source :=
  if last_packet && (expected_packets (current_frame context) =? 0)
  then
    let f := current_frame context in
    let c1 :=
      set_current_frame
        (mk_frame_assembly (frame_num f) (start_time f) (packets f)
           (received_packets f) (u16 (packet_index + 1))) context in
    let frame_height := u32 (line_num' + lines_per_packet') in
    detect_format c1 frame_height
  else context.

(** The in-frame completion check. *)
Definition complete_if_ready (context : source) (env : step_env)
    : source * list video_event :=
  if is_frame_complete (current_frame context)
  then
    let '(c1, evs) :=
      if frame_lock_ok_complete env
      then deliver_completed_frame InFramePath context (t_capture env) (t_latency_complete env)
      else (context, []) in
    (set_current_frame (init_frame_assembly 0 (t_reset env)) c1,
     evs ++ [EvFrameReset (frame_num (current_frame context))])
  else (context, []).

(** The slot-table update followed by the last-packet block. *)
Definition accumulate_packet (context : source) (last_packet : bool)
    (packet_index line_num' lines_per_packet' : Z) (payload : list Z) : source :=
  let c1 :=
    set_current_frame
      (store_packet (current_frame context) packet_index line_num' lines_per_packet' payload)
      context in
  note_last_packet c1 last_packet packet_index line_num' lines_per_packet'.

(** Adding a packet to the current frame, under the packet-index bound.
    The divisor is [C64U_LINES_PER_PACKET], validation having passed. *)
Definition add_packet (context : source) (last_packet : bool)
    (line_num' lines_per_packet' : Z) (payload : list Z) (env : step_env)
    : source * list video_event :=
  let packet_index := u16 (line_num' / lines_per_packet') in
  if packet_index <? C64U_MAX_PACKETS_PER_FRAME
  then
    complete_if_ready
      (accumulate_packet context last_packet packet_index line_num' lines_per_packet' payload)
      env
  else (context, []).

(** The section of the loop that runs with the assembly lock held, for a
    packet that passed validation. *)
Definition process_packet (context : source) (h : video_header) (payload : list Z)
    (env : step_env) : source * list video_event :=
  let last_packet := negb (Z.land (hdr_line_num h) 0x8000 =? 0) in
  let line_num' := Z.land (hdr_line_num h) 0x7FFF in
  let '(c1, evs1) :=
    if negb (frame_num (current_frame context) =? hdr_frame_num h)
    then start_new_frame context (hdr_frame_num h) env
    else (context, []) in
  let '(c2, evs2) := add_packet c1 last_packet line_num' (hdr_lines_per_packet h) payload env in
  (c2, evs1 ++ evs2).

Definition valid_packet_format (h : video_header) : bool :=
  (hdr_lines_per_packet h =? C64U_LINES_PER_PACKET)
  && (hdr_pixels_per_line h =? C64U_PIXELS_PER_LINE)
  && (hdr_bits_per_pixel h =? 4).

End Video.

(* ===================================================================== *)
(** * One iteration of [video_thread_func] *)
(* ===================================================================== *)

(** The function-local [static] variables of the receive loop. *)
Record video_statics : Type := mk_statics {
  packet_count : Z;
  last_video_log : Z;
  video_bytes_period : Z;
  video_packets_period : Z;
  last_video_seq : Z;
  video_drops : Z;
  video_frames : Z;
  first_video : bool
}.

Definition initial_statics : video_statics := mk_statics 0 0 0 0 0 0 0 true.

(** What a [recv] call meets: no datagram and a would-block error, another
    error, or a datagram with the given bytes. *)
Inductive recv_result : Type :=
  | RecvWouldBlock
  | RecvError
  | RecvData (datagram : list Z).

Inductive loop_outcome (S : Type) : Type :=
  | LoopContinue (s : S)
  | LoopBreak (s : S).

Arguments LoopContinue {S}.
Arguments LoopBreak {S}.

Section ReceiveLoop.
Context {D : Type} {dops : DoubleOps D} {K : Protocol}.

#[local] Abbreviation source := (c64u_source D).

(** The statistics block between header parsing and validation; the log
    lines leave no trace in the state. *)
Definition update_video_statistics (st : video_statics) (context : source)
    (h : video_header) (received_bytes now : Z) : video_statics * source :=
  let bytes := u32 (video_bytes_period st + u32 received_bytes) in
  let pkts := u32 (video_packets_period st + 1) in
  let last_log := if last_video_log st =? 0 then now else last_video_log st in
  let drops :=
    if negb (first_video st) && negb (hdr_seq_num h =? u16 (last_video_seq st + 1))
    then u32 (video_drops st + 1) else video_drops st in
  let time_diff := u64 (now - last_log) in
  if 5000000000 <=? time_diff
  then
    (mk_statics (packet_count st) now 0 0 (hdr_seq_num h) drops 0 false,
     set_total_pipeline_latency 0
       (set_buffer_swaps 0
          (set_frames_completed 0
             (set_frames_delivered_to_obs 0
                (set_frames_captured 0 (set_frames_expected 0 context))))))
  else
    (mk_statics (packet_count st) last_log bytes pkts (hdr_seq_num h) drops
       (video_frames st) false,
     context).

(** The number of frames the in-frame path completed, for [video_frames]. *)
Definition is_in_frame_completion (e : video_event) : bool :=
  match e with EvAssembleSwap InFramePath _ => true | _ => false end.

Definition in_frame_completions (evs : list video_event) : Z :=
  Z.of_nat (length (List.filter is_in_frame_completion evs)).

(** [recv] into [packet], a buffer of [C64U_VIDEO_PACKET_SIZE] bytes: the
    buffer takes the first bytes of the datagram, the rest of a longer
    datagram is discarded, and the count returned is the number of bytes
    stored.  (Where [recv] reports a longer datagram as an error instead, the
    call is a [RecvError].) *)
Definition recv_into_buffer (datagram : list Z) : list Z :=
  take (Z.to_nat C64U_VIDEO_PACKET_SIZE) datagram.

(** The loop body, from [recv] to the release of the assembly lock. *)
Definition video_thread_iteration (st : video_statics) (context : source)
    (r : recv_result) (env : step_env)
    : loop_outcome (video_statics * source) * list video_event :=
  match r with
  | RecvWouldBlock => (LoopContinue (st, context), [])
  | RecvError => (LoopBreak (st, context), [])
  | RecvData datagram =>
      let packet := recv_into_buffer datagram in
      let received_bytes := Z.of_nat (length packet) in
      if negb (received_bytes =? C64U_VIDEO_PACKET_SIZE)
      then (LoopContinue (st, context), [])
      else
        let st0 :=
          mk_statics (packet_count st + 1) (last_video_log st) (video_bytes_period st)
            (video_packets_period st) (last_video_seq st) (video_drops st)
            (video_frames st) (first_video st) in
        let h := parse_header packet in
        let '(st1, c1) := update_video_statistics st0 context h received_bytes (t_stats env) in
        if negb (valid_packet_format h)
        then (LoopContinue (st1, c1), [])
        else if assembly_lock_ok env
        then
          let '(c2, evs) :=
            process_packet c1 h (drop (Z.to_nat C64U_VIDEO_HEADER_SIZE) packet) env in
          let st2 :=
            mk_statics (packet_count st1) (last_video_log st1) (video_bytes_period st1)
              (video_packets_period st1) (last_video_seq st1) (video_drops st1)
              (u32 (video_frames st1 + in_frame_completions evs)) (first_video st1) in
          (LoopContinue (st2, c2), evs)
        else (LoopContinue (st1, c1), [])
  end.

(* ===================================================================== *)
(** * Creation, start and stop ([src/c64u-source.c]) *)
(* ===================================================================== *)

(** The context [c64u_create] builds before it starts the stream:
    [bzalloc] zeroes every field, [front_mem] and [back_mem] are what the two
    [bmalloc] calls return. *)
Definition created_context (front_mem back_mem : pixbuf) : source :=
  let frame_size := frame_size_pixels C64U_PAL_WIDTH C64U_PAL_HEIGHT in
  mk_source false false false false None None
    C64U_PAL_WIDTH C64U_PAL_HEIGHT
    (memset_zero front_mem frame_size) (memset_zero back_mem frame_size) false false
    0 false (d_lit 50.125)
    zero_frame_assembly 0
    0 0 0 0 0 0 0 0 0
    None false 50000.

(** [c64u_start_streaming] when both sockets and both threads are created;
    [vs] and [as'] are the socket handles. *)
Definition c64u_start_streaming (context : source) (vs as' : Z) : source :=
  if streaming context then context
  else
    set_audio_thread_active true
      (set_video_thread_active true
         (set_streaming true
            (set_thread_active true
               (set_audio_socket (Some as') (set_video_socket (Some vs) context))))).

Inductive mutex_id : Type := FrameMutex | AssemblyMutex.

Inductive stop_event : Type :=
  | Locked (m : mutex_id)
  | Unlocked (m : mutex_id)
  | ZeroedFront (pixels : Z)
  | ZeroedBack (pixels : Z)
  | AssemblyCleared.

(** [c64u_stop_streaming]; the two booleans say whether
    [pthread_mutex_lock] returned 0 for the frame and the assembly mutex.
    Both buffer pointers are non-null from creation on, and the two stop
    commands sent to the device leave no trace in the context. *)
Definition c64u_stop_streaming (context : source) (frame_lock_ok assembly_lock_ok' : bool)
    : source * list stop_event :=
  if negb (streaming context) then (context, [])
  else
    let c1 := set_thread_active false (set_streaming false context) in
    let c2 := set_audio_socket None (set_video_socket None c1) in
    let c3 := set_audio_thread_active false (set_video_thread_active false c2) in
    let '(c4, evs1) :=
      if frame_lock_ok
      then
        let c := set_buffer_swap_pending false (set_frame_ready false c3) in
        let frame_size := frame_size_pixels (width c) (height c) in
        (set_frame_buffer_back (memset_zero (frame_buffer_back c) frame_size)
           (set_frame_buffer_front (memset_zero (frame_buffer_front c) frame_size) c),
         [Locked FrameMutex; ZeroedFront frame_size; ZeroedBack frame_size;
          Unlocked FrameMutex])
      else (c3, []) in
    let '(c5, evs2) :=
      if assembly_lock_ok'
      then
        (set_frames_completed 0
           (set_frames_delivered_to_obs 0
              (set_frames_captured 0
                 (set_frames_expected 0
                    (set_packet_drops 0
                       (set_frame_drops 0
                          (set_last_completed_frame 0
                             (set_current_frame zero_frame_assembly c4))))))),
         [Locked AssemblyMutex; AssemblyCleared; Unlocked AssemblyMutex])
      else (c4, []) in
    (c5, evs1 ++ evs2).

End ReceiveLoop.

(* ===================================================================== *)
(** * The render-side use of the timing engine ([c64u_render]) *)
(* ===================================================================== *)

(** What one render call takes from its environment: the strategy setting,
    the frame rate OBS reports (after [c64u_detect_obs_fps]), whether the
    [bzalloc] of the timing state succeeds, the results of the interpolation
    [bmalloc]s and the clock. *)
Record render_env (D : Type) : Type := mk_render_env {
  settings_strategy : c64u_timing_strategy_t;
  obs_fps : D;
  timing_alloc_ok : bool;
  timing_bmalloc : Z -> option pixbuf;
  render_start : Z
}.

Arguments mk_render_env {D}.
Arguments settings_strategy {D}.
Arguments obs_fps {D}.
Arguments timing_alloc_ok {D}.
Arguments timing_bmalloc {D}.
Arguments render_start {D}.

Section Render.
Context {D : Type} {dops : DoubleOps D} {K : Protocol}.

#[local] Abbreviation source := (c64u_source D).

Definition c64u_init_timing_system (context : source) (renv : render_env D) : source :=
  if timing_initialized context || negb (format_detected context) then context
  else
    let c1 :=
      set_obs_target_fps_x1000 (d_to_u64 (d_mul (obs_fps renv) (d_lit 1000))) context in
    if timing_alloc_ok renv
    then
      set_timing_initialized true
        (set_timing
           (Some (c64u_timing_init (settings_strategy renv) (obs_fps renv)
                    (expected_fps c1) (timing_bmalloc renv)))
           c1)
    else set_timing None c1.

(** The frame [c64u_render] turns into a texture ([None]: the coloured
    placeholder is drawn instead) and the context it leaves. *)
Definition c64u_render (context : source) (renv : render_env D) : option pixbuf * source :=
  let c1 :=
    if format_detected context && negb (timing_initialized context)
    then c64u_init_timing_system context renv
    else context in
  if streaming c1 && frame_ready c1
  then
    match timing c1 with
    | Some t =>
        if timing_initialized c1
        then
          let '(frame_to_render, t') :=
            render_select_frame t (frame_buffer_front c1) (width c1) (height c1)
              (render_start renv) in
          (Some frame_to_render, set_timing (Some t') c1)
        else (Some (frame_buffer_front c1), c1)
    | None => (Some (frame_buffer_front c1), c1)
    end
  else (None, c1).

End Render.

(* ===================================================================== *)
(** * Runs of the receive loop and what is observed of them *)
(* ===================================================================== *)

Section Runs.
Context {D : Type} {dops : DoubleOps D} {K : Protocol}.

#[local] Abbreviation source := (c64u_source D).

(** The loop of [video_thread_func] over the results of successive [recv]
    calls; it ends at the first socket error. *)
Fixpoint thread_run (st : video_statics) (context : source)
    (inputs : list (recv_result * step_env))
    : video_statics * source * list video_event :=
  match inputs with
  | [] => (st, context, [])
  | (r, env) :: rest =>
      match video_thread_iteration st context r env with
      | (LoopContinue (st1, c1), evs1) =>
          let '(st2, c2, evs2) := thread_run st1 c1 rest in
          (st2, c2, evs1 ++ evs2)
      | (LoopBreak (st1, c1), evs1) => (st1, c1, evs1)
      end
  end.

End Runs.

(** The frame numbers assembled and swapped, and those counted as dropped,
    in the order of a run. *)
Definition assembled_frames (evs : list video_event) : list Z :=
  omap (fun e => match e with EvAssembleSwap _ n => Some n | _ => None end) evs.

Definition dropped_frames (evs : list video_event) : list Z :=
  omap (fun e => match e with EvFrameDrop n => Some n | _ => None end) evs.

Definition count_frame (n : Z) (l : list Z) : nat :=
  length (List.filter (Z.eqb n) l).

(** The guard on assembly, read on a trace: starting from the value [last]
    of [last_completed_frame], every assemble-and-swap is for a frame number
    other than the one assembled just before it.  The result is the last
    frame number assembled, [None] if the guard is violated. *)
Fixpoint assemble_guard (last : Z) (evs : list video_event) : option Z :=
  match evs with
  | [] => Some last
  | EvAssembleSwap _ n :: rest => if n =? last then None else assemble_guard n rest
  | _ :: rest => assemble_guard last rest
  end.

(** The drop discipline, read on a trace.  [table] is the frame number the
    live table was last initialised for and [pending] a drop that has not yet
    been followed by the re-initialisation of the table.  A drop concerns the
    live table and is followed at once by its re-initialisation for another
    frame number; every other event needs no drop pending. *)
Definition drop_step (s : Z * option Z) (e : video_event) : option (Z * option Z) :=
  let '(table, pending) := s in
  match e, pending with
  | EvFrameDrop n, None => if n =? table then Some (table, Some n) else None
  | EvFrameDrop _, Some _ => None
  | EvNewFrame _ m, Some n => if m =? n then None else Some (m, None)
  | EvNewFrame _ m, None => Some (m, None)
  | EvFrameReset _, None => Some (0, None)
  | EvFrameReset _, Some _ => None
  | EvAssembleSwap _ n, None => if n =? table then Some s else None
  | EvAssembleSwap _ _, Some _ => None
  end.

Fixpoint drop_discipline (s : Z * option Z) (evs : list video_event)
    : option (Z * option Z) :=
  match evs with
  | [] => Some s
  | e :: rest =>
      match drop_step s e with
      | Some s' => drop_discipline s' rest
      | None => None
      end
  end.

(** The slot table and its counter agree: the table has its full capacity
    and [received_packets] counts the occupied slots. *)
Definition occupied (slots : list frame_packet) : nat :=
  length (List.filter received slots).

Definition frame_wf {K : Protocol} (f : frame_assembly) : Prop :=
  length (packets f) = Z.to_nat C64U_MAX_PACKETS_PER_FRAME
  /\ received_packets f = Z.of_nat (occupied (packets f)).

(** Row [row] of the picture is one of the rows slot [p] converts. *)
Definition covers (p : frame_packet) (row : Z) : Prop :=
  line_num p <= row < line_num p + lines_per_packet p.

(** The same as a test; no received slot after index [i] covers [row]; no
    received slot the loop visits covers [row]. *)
Definition coversb (p : frame_packet) (row : Z) : bool :=
  (line_num p <=? row) && (row <? line_num p + lines_per_packet p).

Definition later_slots_clear (slots : list frame_packet) (i : nat) (row : Z) : bool :=
  forallb (fun q => negb (received q && coversb q row)) (drop (S i) slots).

Definition no_slot_covers {K : Protocol} (slots : list frame_packet) (row : Z) : bool :=
  forallb (fun q => negb (received q && coversb q row))
    (take (Z.to_nat C64U_MAX_PACKETS_PER_FRAME) slots).

(** Once a format is detected, the height frame assembly clips at is the
    detected frame height. *)
Definition height_is_detected {D : Type} (c : c64u_source D) : Prop :=
  format_detected c = true -> height c = detected_frame_height c.

(** No two neighbours of a list are equal. *)
Fixpoint adjacent_distinct (l : list Z) : bool :=
  match l with
  | a :: (b :: _) as rest => negb (a =? b) && adjacent_distinct rest
  | _ => true
  end.

(** The value of [frame_drops] after the drops of a trace, from [d]. *)
Definition count_drops (d : Z) (evs : list video_event) : Z :=
  foldl (fun d' _ => u32 (d' + 1)) d (dropped_frames evs).

(** A stretch of the receive loop from [c] to [c'] with events [evs] keeps
    the assembly guard and the drop discipline, and accounts for
    [frame_drops]. *)
Definition trace_ok {D : Type} (c c' : c64u_source D) (evs : list video_event) : Prop :=
  assemble_guard (last_completed_frame c) evs = Some (last_completed_frame c')
  /\ drop_discipline (frame_num (current_frame c), None) evs
     = Some (frame_num (current_frame c'), None)
  /\ frame_drops c' = count_drops (frame_drops c) evs.

(** One source frame and one render poll per tick, the ticks one target
    interval apart: source and target rates are equal and the clock advances
    by exactly the target interval. *)
Fixpoint steady_run (front : pixbuf) (width height : Z) (now interval : Z) (ticks : nat)
    : list timing_event :=
  match ticks with
  | O => []
  | S k =>
      C64FrameReceived now :: RenderPoll front width height now
        :: steady_run front width height (u64 (now + interval)) interval k
  end.

(* ===================================================================== *)
(** * Sample inputs *)
(* ===================================================================== *)

Definition encode_u16 (v : Z) : list Z := [v mod 256; v / 256].

(** The datagram with the given header fields and payload. *)
Definition encode_packet (h : video_header) (payload : list Z) : list Z :=
  encode_u16 (hdr_seq_num h) ++ encode_u16 (hdr_frame_num h)
  ++ encode_u16 (hdr_line_num h) ++ encode_u16 (hdr_pixels_per_line h)
  ++ [hdr_lines_per_packet h; hdr_bits_per_pixel h]
  ++ encode_u16 (hdr_encoding h) ++ payload.

(** A well-formed packet of the sample protocol: 384 pixels per line, four
    lines, four bits per pixel, every payload byte [fill]. *)
Definition sample_header (seq frame line : Z) (last : bool) : video_header :=
  mk_header seq frame (line + (if last then 0x8000 else 0)) 384 4 4 0.

Definition sample_payload (fill : Z) : list Z := replicate 768 fill.

Definition sample_packet (seq frame line : Z) (last : bool) (fill : Z) : recv_result :=
  RecvData (encode_packet (sample_header seq frame line last) (sample_payload fill)).

(** Every clock reading of the iteration is [t]; every lock is acquired. *)
Definition env_at (t : Z) : step_env := mk_env t true t t true t t true t t.

Definition ms (n : Z) : Z := n * 1000000.

(** A started source of the sample protocol, with doubles as rationals. *)
Definition sample_source : c64u_source Q :=
  c64u_start_streaming
    (created_context (K := sample_protocol) zero_pixbuf zero_pixbuf) 3 4.

(** A source that holds one packet of the frame in progress (frame number
    0): line 0, last-packet flag set, every payload byte [0x21]. *)
Definition one_packet_source : c64u_source Q :=
  accumulate_packet (K := sample_protocol) sample_source true 0 0 4 (sample_payload 0x21).

(** Three frames of one packet each (line 0 with the last-packet flag),
    numbered 1, 2 and 1 again. *)
Definition repeated_frame_run : list (recv_result * step_env) :=
  [ (sample_packet 0 1 0 true 0x21, env_at (ms 0));
    (sample_packet 1 2 0 true 0x21, env_at (ms 20));
    (sample_packet 2 1 0 true 0x21, env_at (ms 40)) ].

(** A packet of frame 5, one of frame 6 after 150 ms, a late packet of
    frame 5 one millisecond later, and one of frame 6 at 300 ms; no frame
    is ever completed. *)
Definition late_packet_run : list (recv_result * step_env) :=
  [ (sample_packet 0 5 0 false 0x21, env_at (ms 0));
    (sample_packet 1 6 0 false 0x21, env_at (ms 150));
    (sample_packet 2 5 4 false 0x21, env_at (ms 151));
    (sample_packet 3 6 4 false 0x21, env_at (ms 300)) ].

Definition run_sample (inputs : list (recv_result * step_env))
    : video_statics * c64u_source Q * list video_event :=
  thread_run (K := sample_protocol) initial_statics sample_source inputs.

(** A frame of two packets (eight rows), then a frame of one packet (four
    rows): the picture shrinks while the stream runs. *)
Definition shrinking_run : list (recv_result * step_env) :=
  [ (sample_packet 0 1 0 false 0x21, env_at (ms 0));
    (sample_packet 1 1 4 true 0x21, env_at (ms 1));
    (sample_packet 2 2 0 true 0x21, env_at (ms 20)) ].

Definition adaptive_render_at (t : Z) : render_env Q :=
  mk_render_env C64U_TIMING_ADAPTIVE 50%Q true (fun _ => None) t.

(** The sample source after [shrinking_run] and two render calls one
    nanosecond apart under the adaptive strategy. *)
Definition rendered_source : c64u_source Q :=
  let c0 := snd (fst (run_sample shrinking_run)) in
  let c1 := snd (c64u_render c0 (adaptive_render_at 1000)) in
  snd (c64u_render c1 (adaptive_render_at 1001)).

(* ===================================================================== *)
(** * Starting a stream, with its failures ([c64u_start_streaming]) *)
(* ===================================================================== *)

(** What [c64u_start_streaming] takes from its environment: the handles
    [create_udp_socket] returns ([None] for [INVALID_SOCKET_VALUE]), whether
    each [pthread_create] returns 0, and what the video thread did to the
    context between its creation and the [pthread_join] that follows a failed
    creation of the audio thread. *)
Record start_env (D : Type) : Type := mk_start_env {
  video_socket_created : option Z;
  audio_socket_created : option Z;
  video_thread_created : bool;
  audio_thread_created : bool;
  video_thread_ran : c64u_source D -> c64u_source D
}.

Arguments mk_start_env {D}.
Arguments video_socket_created {D}.
Arguments audio_socket_created {D}.
Arguments video_thread_created {D}.
Arguments audio_thread_created {D}.
Arguments video_thread_ran {D}.

Definition c64u_start_streaming_io {D : Type} (context : c64u_source D) (senv : start_env D)
    : c64u_source D :=
  if streaming context then context
  else
    let c1 :=
      set_audio_socket (audio_socket_created senv)
        (set_video_socket (video_socket_created senv) context) in
    match video_socket c1, audio_socket c1 with
    | Some _, Some _ =>
        let c2 :=
          set_audio_thread_active false
            (set_video_thread_active false
               (set_streaming true (set_thread_active true c1))) in
        if negb (video_thread_created senv)
        then
          set_audio_socket None
            (set_video_socket None (set_thread_active false (set_streaming false c2)))
        else
          let c3 := set_video_thread_active true c2 in
          if negb (audio_thread_created senv)
          then
            let c4 := set_thread_active false (set_streaming false c3) in
            let c5 :=
              if video_thread_active c4
              then set_video_thread_active false (video_thread_ran senv c4)
              else c4 in
            set_audio_socket None (set_video_socket None c5)
          else set_audio_thread_active true c3
    | _, _ => set_audio_socket None (set_video_socket None c1)
    end.

(** The flags and sockets of the stream. *)
Definition stream_fields {D : Type} (c : c64u_source D)
    : bool * bool * bool * bool * option Z * option Z :=
  (streaming c, thread_active c, video_thread_active c, audio_thread_active c,
   video_socket c, audio_socket c).

(* ===================================================================== *)
(** * Further observations *)
(* ===================================================================== *)



(** The frame numbers assembled by the new-frame branch. *)
Definition preempt_assemblies (evs : list video_event) : list Z :=
  omap (fun e => match e with EvAssembleSwap PreemptPath n => Some n | _ => None end) evs.

(** Under the interpolation strategy all three ring buffers are allocated. *)
Definition ring_allocated {D : Type} (t : c64u_timing_state D) : bool :=
  match strategy t with
  | C64U_TIMING_INTERPOLATION =>
      match frames (interpolation t) with
      | [Some _; Some _; Some _] => true
      | _ => false
      end
  | _ => true
  end.

Definition count_true (l : list bool) : Z :=
  Z.of_nat (length (List.filter (fun b : bool => b) l)).

(** The display state of a source: what [c64u_render] shows and what frame
    assembly has built so far. *)
Definition same_picture_state {D : Type} (c c' : c64u_source D) : Prop :=
  current_frame c' = current_frame c
  /\ last_completed_frame c' = last_completed_frame c
  /\ frame_buffer_front c' = frame_buffer_front c
  /\ frame_buffer_back c' = frame_buffer_back c
  /\ frame_ready c' = frame_ready c
  /\ height c' = height c /\ width c' = width c
  /\ format_detected c' = format_detected c
  /\ detected_frame_height c' = detected_frame_height c
  /\ frame_drops c' = frame_drops c.

(** A full-size datagram of the sample protocol whose header announces
    eight bits per pixel. *)
Definition malformed_sample_packet : list Z :=
  encode_packet (mk_header 7 3 0 384 4 8 0) (sample_payload 0x21).

(** What a stretch of the receive loop with events [evs] does to the two
    pixel buffers and [frame_ready]: without an assemble-and-swap nothing,
    with one a frame is ready. *)
Definition swap_only {D : Type} (c c' : c64u_source D) (evs : list video_event) : Prop :=
  match assembled_frames evs with
  | [] =>
      frame_ready c' = frame_ready c
      /\ frame_buffer_front c' = frame_buffer_front c
      /\ frame_buffer_back c' = frame_buffer_back c
  | _ :: _ => frame_ready c' = true
  end.

(** A start in which both sockets and the video thread are created, the
    video thread receives [repeated_frame_run], and the creation of the audio
    thread fails. *)
Definition failed_audio_start : start_env Q :=
  mk_start_env (Some 3) (Some 4) true false
    (fun c => snd (fst (thread_run (K := sample_protocol) initial_statics c repeated_frame_run))).

(** A render call after the strategy setting was changed to passthrough
    and OBS to 60 Hz. *)
Definition passthrough_render_at (t : Z) : render_env Q :=
  mk_render_env C64U_TIMING_PASSTHROUGH 60%Q true (fun _ => None) t.

(** The sample source after the only packet of frame 1 (line 0, last-packet
    flag set) has been stored, before the completion check. *)
Definition complete_frame_source : c64u_source Q :=
  accumulate_packet (K := sample_protocol)
    (fst (start_new_frame (K := sample_protocol) sample_source 1 (env_at 0)))
    true 0 0 4 (sample_payload 0x21).

(** The three diagnostic counters that are stepped together on every
    assemble-and-swap. *)
Definition counters_agree {D : Type} (c : c64u_source D) : Prop :=
  frames_delivered_to_obs c = frames_completed c /\ buffer_swaps c = frames_completed c.

(** The source frames notified to the timing engine in a run. *)
Definition is_source_frame (e : timing_event) : bool :=
  match e with C64FrameReceived _ => true | RenderPoll _ _ _ _ => false end.

Definition source_frames (es : list timing_event) : Z :=
  Z.of_nat (length (List.filter is_source_frame es)).

(** Four source frames, then twelve render polls one nanosecond apart. *)
Definition rapid_polls : list timing_event :=
  replicate 4 (C64FrameReceived 500)
  ++ map (fun k : nat => RenderPoll zero_pixbuf 384 4 (1000 + Z.of_nat k)) (seq 0 12).


(* ===================================================================== *)
(** * Properties of the timing engine *)
(* ===================================================================== *)

Lemma wrap_range (w x : Z) : 0 <= w -> 0 <= wrap w x < 2 ^ w.
Proof. intros Hw. unfold wrap. apply Z.mod_pos_bound. apply Z.pow_pos_nonneg; lia. Qed.

Lemma wrap_small (w x : Z) : 0 <= x < 2 ^ w -> wrap w x = x.
Proof. intros H. unfold wrap. apply Z.mod_small. exact H. Qed.

Lemma wrap_le (w x : Z) : 0 <= w -> 0 <= x -> wrap w x <= x.
Proof.
  intros Hw Hx. unfold wrap. apply Z.mod_le; [exact Hx|].
  apply Z.pow_pos_nonneg; lia.
Qed.

Lemma u64_nonneg (x : Z) : 0 <= u64 x.
Proof. apply (wrap_range 64 x). lia. Qed.

Section TimingProperties.
Context {D : Type} {dops : DoubleOps D}.

#[local] Abbreviation timing_state := (c64u_timing_state D).

(** The frame-debt update is never reached with its guard true: the policy
    gets there only when less than half an interval has elapsed. *)
Lemma update_frame_debt_unreached (t : timing_state) (now : Z) :
  let obs_elapsed := u64 (now - last_obs_frame_time t) in
  (obs_frame_interval_ns t / 2 <=? obs_elapsed) = false ->
  update_frame_debt t obs_elapsed = t.
Proof.
  intros e Hhalf. unfold update_frame_debt.
  assert (He : 0 <= e) by apply u64_nonneg.
  apply Z.leb_gt in Hhalf.
  assert (Hlt : (obs_frame_interval_ns t <? e) = false).
  { apply Z.ltb_ge.
    assert (0 < obs_frame_interval_ns t / 2) by lia.
    assert (0 < obs_frame_interval_ns t).
    { destruct (Z_lt_le_dec 0 (obs_frame_interval_ns t)) as [|Hn]; [assumption|].
      assert (obs_frame_interval_ns t / 2 <= 0) by (apply Z.div_le_upper_bound; lia).
      lia. }
    assert (obs_frame_interval_ns t / 2 <= obs_frame_interval_ns t)
      by (apply Z.div_le_upper_bound; lia).
    lia. }
  rewrite Hlt, andb_false_r. reflexivity.
Qed.

(** The policy changes nothing but [last_obs_frame_time]. *)
Lemma should_deliver_state (t : timing_state) (now : Z) :
  snd (c64u_timing_should_deliver_frame t now) = t
  \/ snd (c64u_timing_should_deliver_frame t now) = set_last_obs_frame_time now t.
Proof.
  unfold c64u_timing_should_deliver_frame.
  destruct (strategy t); [left; reflexivity | | |];
    (destruct (frames_delivered t <? 10); [left; reflexivity|];
     destruct ((last_obs_frame_time t =? 0) || (frames_received t <? 5));
       [right; reflexivity|];
     cbv zeta;
     destruct (obs_frame_interval_ns t / 2 <=? u64 (now - last_obs_frame_time t)) eqn:Hh;
       [left; reflexivity|];
     left; cbn [snd]; apply update_frame_debt_unreached; exact Hh).
Qed.

Lemma should_deliver_frame_debt (t : timing_state) (now : Z) :
  frame_debt (snd (c64u_timing_should_deliver_frame t now)) = frame_debt t.
Proof. destruct (should_deliver_state t now) as [-> | ->]; reflexivity. Qed.

Lemma should_deliver_frames_delivered (t : timing_state) (now : Z) :
  frames_delivered (snd (c64u_timing_should_deliver_frame t now)) = frames_delivered t.
Proof. destruct (should_deliver_state t now) as [-> | ->]; reflexivity. Qed.

(** Below the thresholds the adaptive strategy leaves the debt alone; at a
    threshold it steps the debt by one towards zero. *)
Lemma get_frame_frame_debt (t : timing_state) (front : pixbuf) (w h now : Z) :
  frame_debt (snd (c64u_timing_get_frame_for_obs t front w h now)) =
    match strategy t with
    | C64U_TIMING_ADAPTIVE =>
        if d_ltb (d_lit 2) (frame_debt t) then d_sub (frame_debt t) (d_lit 1)
        else if d_ltb (frame_debt t) (d_lit (-2)) then d_add (frame_debt t) (d_lit 1)
        else frame_debt t
    | _ => frame_debt t
    end.
Proof.
  unfold c64u_timing_get_frame_for_obs.
  destruct (strategy t); try reflexivity.
  - destruct (d_ltb (d_lit 2) (frame_debt t)); [reflexivity|].
    destruct (d_ltb (frame_debt t) (d_lit (-2))); reflexivity.
  - cbv zeta. repeat case_match; reflexivity.
Qed.

Lemma get_frame_frame_debt_zero (t : timing_state) (front : pixbuf) (w h now : Z) :
  frame_debt t = d_zero ->
  frame_debt (snd (c64u_timing_get_frame_for_obs t front w h now)) = d_zero.
Proof.
  intros Hz. rewrite get_frame_frame_debt, Hz.
  rewrite d_zero_not_above_two, d_zero_not_below_minus_two.
  destruct (strategy t); reflexivity.
Qed.

Lemma get_frame_frames_delivered (t : timing_state) (front : pixbuf) (w h now : Z) :
  frames_delivered (snd (c64u_timing_get_frame_for_obs t front w h now)) = frames_delivered t.
Proof.
  unfold c64u_timing_get_frame_for_obs.
  destruct (strategy t); cbv zeta; repeat case_match; reflexivity.
Qed.

Lemma on_delivered_frame_debt (t : timing_state) (now : Z) :
  frame_debt (c64u_timing_on_obs_frame_delivered t now) = frame_debt t.
Proof.
  unfold c64u_timing_on_obs_frame_delivered. cbv zeta.
  repeat case_match; reflexivity.
Qed.

Lemma on_delivered_frames_delivered (t : timing_state) (now : Z) :
  frames_delivered (c64u_timing_on_obs_frame_delivered t now) = u32 (frames_delivered t + 1).
Proof.
  unfold c64u_timing_on_obs_frame_delivered. cbv zeta.
  repeat case_match; reflexivity.
Qed.

(** No event moves a debt of zero. *)
Lemma timing_step_frame_debt_zero (t : timing_state) (e : timing_event) :
  frame_debt t = d_zero -> frame_debt (timing_step t e) = d_zero.
Proof.
  intros Hz. destruct e as [now | front w h now]; [exact Hz|].
  unfold timing_step, render_select_frame.
  destruct (negb (strategy_eqb (strategy t) C64U_TIMING_PASSTHROUGH)); [|exact Hz].
  pose proof (should_deliver_frame_debt t now) as Hs.
  destruct (c64u_timing_should_deliver_frame t now) as [deliver t1]. cbn [snd] in Hs.
  destruct deliver; cbn [snd]; [|congruence].
  assert (Hz1 : frame_debt t1 = d_zero) by congruence.
  pose proof (get_frame_frame_debt_zero t1 front w h now Hz1) as Hg.
  destruct (c64u_timing_get_frame_for_obs t1 front w h now) as [f t2]. cbn [snd] in Hg.
  destruct f; cbn [snd]; [|exact Hg].
  rewrite on_delivered_frame_debt. exact Hg.
Qed.

Lemma timing_run_frame_debt_zero (es : list timing_event) (t : timing_state) :
  frame_debt t = d_zero -> frame_debt (timing_run t es) = d_zero.
Proof.
  revert t. induction es as [|e es IH]; intros t Hz; [exact Hz|].
  cbn. apply IH. apply timing_step_frame_debt_zero. exact Hz.
Qed.

Lemma timing_init_frame_debt (s : c64u_timing_strategy_t) (target source : D)
    (bmalloc : Z -> option pixbuf) :
  frame_debt (c64u_timing_init s target source bmalloc) = d_zero.
Proof.
  unfold c64u_timing_init.
  destruct (strategy_eqb s C64U_TIMING_INTERPOLATION); [|reflexivity].
  cbn. repeat case_match; reflexivity.
Qed.

Lemma timing_init_frames_delivered (s : c64u_timing_strategy_t) (target source : D)
    (bmalloc : Z -> option pixbuf) :
  frames_delivered (c64u_timing_init s target source bmalloc) = 0.
Proof.
  unfold c64u_timing_init.
  destruct (strategy_eqb s C64U_TIMING_INTERPOLATION); [|reflexivity].
  cbn. repeat case_match; reflexivity.
Qed.

(** A step delivers at most one frame, and only on a poll that consulted
    the policy. *)
Lemma timing_step_frames_delivered (t : timing_state) (e : timing_event) :
  0 <= frames_delivered t ->
  0 <= frames_delivered (timing_step t e) <= frames_delivered t + 1.
Proof.
  intros H0. destruct e as [now | front w h now]; [cbn; lia|].
  unfold timing_step, render_select_frame.
  destruct (negb (strategy_eqb (strategy t) C64U_TIMING_PASSTHROUGH)); [|cbn; lia].
  pose proof (should_deliver_frames_delivered t now) as Hs.
  destruct (c64u_timing_should_deliver_frame t now) as [deliver t1]. cbn [snd] in Hs.
  destruct deliver; cbn [snd]; [|lia].
  pose proof (get_frame_frames_delivered t1 front w h now) as Hg.
  destruct (c64u_timing_get_frame_for_obs t1 front w h now) as [f t2]. cbn [snd] in Hg.
  destruct f; cbn [snd]; [|lia].
  rewrite on_delivered_frames_delivered, Hg, Hs.
  pose proof (wrap_range 32 (frames_delivered t + 1)).
  pose proof (wrap_le 32 (frames_delivered t + 1)).
  unfold u32. lia.
Qed.

Lemma deliver_answers_first (es : list timing_event) (t : timing_state) (k : nat) :
  0 <= frames_delivered t ->
  frames_delivered t + Z.of_nat k <= 10 ->
  Forall (fun b => b = true) (take k (deliver_answers t es)).
Proof.
  revert t k. induction es as [|e es IH]; intros t k H0 Hk; [cbn; rewrite take_nil; constructor|].
  pose proof (timing_step_frames_delivered t e H0) as Hstep.
  destruct e as [now | front w h now].
  - cbn [deliver_answers]. apply IH; [lia|].
    cbn in *. lia.
  - cbn [deliver_answers].
    destruct (negb (strategy_eqb (strategy t) C64U_TIMING_PASSTHROUGH)) eqn:Hp.
    + destruct k as [|k]; [constructor|].
      cbn [take]. constructor.
      * unfold c64u_timing_should_deliver_frame.
        assert (Hlt : (frames_delivered t <? 10) = true) by (apply Z.ltb_lt; lia).
        rewrite Hlt. destruct (strategy t); reflexivity.
      * apply IH; lia.
    + apply IH; [lia|].
      unfold timing_step, render_select_frame in *. rewrite Hp in *. cbn in *. lia.
Qed.

(** C7.  For every non-passthrough strategy the answer of
    [c64u_timing_should_deliver_frame] is true while fewer than 10 frames have
    been delivered, true when no delivery timestamp exists or fewer than 5
    source frames have been received, and otherwise true exactly when the
    time elapsed since the last delivery is at least half the target interval
    or the frames delivered so far are at most the target intervals in that
    elapsed time.  In every run of a freshly initialised engine, the first 10
    answers are true whatever the clock says. *)
Theorem should_deliver_policy :
  (forall (t : timing_state) (now : Z),
      strategy t <> C64U_TIMING_PASSTHROUGH ->
      let elapsed := u64 (now - last_obs_frame_time t) in
      fst (c64u_timing_should_deliver_frame t now) =
        (frames_delivered t <? 10)
        || ((last_obs_frame_time t =? 0) || (frames_received t <? 5))
        || ((obs_frame_interval_ns t / 2 <=? elapsed)
            || (frames_delivered t <=? elapsed / obs_frame_interval_ns t)))
  /\ (forall (s : c64u_timing_strategy_t) (target source : D)
             (bmalloc : Z -> option pixbuf) (es : list timing_event),
        Forall (fun b => b = true)
          (take 10 (deliver_answers (c64u_timing_init s target source bmalloc) es))).
Proof.
  split.
  - intros t now Hs elapsed. unfold c64u_timing_should_deliver_frame.
    destruct (strategy t); [congruence | | |];
      (destruct (frames_delivered t <? 10); [reflexivity|];
       destruct ((last_obs_frame_time t =? 0) || (frames_received t <? 5));
         [reflexivity|];
       cbv zeta; fold elapsed;
       destruct (obs_frame_interval_ns t / 2 <=? elapsed); reflexivity).
  - intros s target source bmalloc es.
    apply deliver_answers_first; rewrite timing_init_frames_delivered; lia.
Qed.

(** C8.  Under the adaptive strategy with equal source and target rate, in
    the run that receives one source frame and polls once per tick, the
    ticks exactly one target interval apart, [frame_debt] is zero after
    every number of ticks: it neither grows nor drifts.  (The increment in
    the policy sits behind a test for less than half an interval elapsed, so
    its own guard, more than a whole interval elapsed, never holds there, and
    the steps of 1.0 at the thresholds are never needed.) *)
Theorem adaptive_frame_debt_stays_zero
    (fps : D) (bmalloc : Z -> option pixbuf) (front : pixbuf) (width height : Z)
    (now : Z) (ticks : nat) :
  let t0 := c64u_timing_init C64U_TIMING_ADAPTIVE fps fps bmalloc in
  frame_debt
    (timing_run t0 (steady_run front width height now (obs_frame_interval_ns t0) ticks))
  = d_zero.
Proof.
  intros t0. apply timing_run_frame_debt_zero. apply timing_init_frame_debt.
Qed.

End TimingProperties.

(* ===================================================================== *)
(** * Properties of loops *)
(* ===================================================================== *)

Section LoopProperties.
Context {S : Type}.
Variables (cond : Z -> bool) (body : Z -> S -> S).

(** What every iteration preserves, the loop preserves. *)
Lemma for_loop_preserves (P : S -> Prop) (fuel : nat) :
  forall (i : Z) (s : S),
    (forall j s', i <= j < i + Z.of_nat fuel -> cond j = true -> P s' -> P (body j s')) ->
    P s -> P (for_loop fuel i cond body s).
Proof.
  induction fuel as [|fuel IH]; intros i s Hbody Hs; [exact Hs|].
  cbn [for_loop]. destruct (cond i) eqn:Hc; [|exact Hs].
  apply IH.
  - intros j s' Hj. apply Hbody. lia.
  - apply Hbody; [lia | exact Hc | exact Hs].
Qed.

(** What iteration [k] establishes and the later ones preserve holds at
    the end, if the loop gets as far as [k]. *)
Lemma for_loop_establishes (Q : S -> Prop) (k : Z) (fuel : nat) :
  forall (i : Z) (s : S),
    i <= k < i + Z.of_nat fuel ->
    (forall j, i <= j <= k -> cond j = true) ->
    (forall s', Q (body k s')) ->
    (forall j s', k < j < i + Z.of_nat fuel -> cond j = true -> Q s' -> Q (body j s')) ->
    Q (for_loop fuel i cond body s).
Proof.
  induction fuel as [|fuel IH]; intros i s Hk Hcond Hat Hafter; [lia|].
  cbn [for_loop]. rewrite (Hcond i) by lia.
  destruct (Z.eq_dec i k) as [-> | Hne].
  - apply for_loop_preserves.
    + intros j s' Hj. apply Hafter. lia.
    + apply Hat.
  - apply IH; [lia | | exact Hat |].
    + intros j Hj. apply Hcond. lia.
    + intros j s' Hj. apply Hafter. lia.
Qed.

End LoopProperties.

(* ===================================================================== *)
(** * Properties of colour conversion *)
(* ===================================================================== *)

(** A pixel offset names one row and one column. *)
Lemma pixel_offset_inj (row col row' col' : Z) :
  0 <= col < C64U_PIXELS_PER_LINE -> 0 <= col' < C64U_PIXELS_PER_LINE ->
  row * C64U_PIXELS_PER_LINE + col = row' * C64U_PIXELS_PER_LINE + col' ->
  row = row' /\ col = col'.
Proof. unfold C64U_PIXELS_PER_LINE. lia. Qed.

Lemma convert_pixel_pair_at (src : list Z) (src_line dst_line x : Z) (buf : pixbuf) :
  let pixel_pair := src !!! Z.to_nat (src_line + x) in
  let buf' := convert_pixel_pair src src_line dst_line x buf in
  buf' (dst_line + x * 2) = vic_color (Z.land pixel_pair 0x0F)
  /\ buf' (dst_line + (x * 2 + 1)) = vic_color (Z.shiftr pixel_pair 4).
Proof.
  cbv zeta. unfold convert_pixel_pair, insert, fn_insert. cbv zeta.
  split; repeat case_decide; solve [reflexivity | lia].
Qed.

Lemma convert_pixel_pair_other (src : list Z) (src_line dst_line x : Z) (buf : pixbuf) (o : Z) :
  o <> dst_line + x * 2 -> o <> dst_line + (x * 2 + 1) ->
  convert_pixel_pair src src_line dst_line x buf o = buf o.
Proof.
  intros H1 H2. unfold convert_pixel_pair, insert, fn_insert. cbv zeta.
  repeat case_decide; solve [reflexivity | congruence].
Qed.

(** A converted line leaves everything outside its 384 pixels alone. *)
Lemma convert_line_other (src : list Z) (src_line dst_line : Z) (buf : pixbuf) (o : Z) :
  o < dst_line \/ dst_line + C64U_PIXELS_PER_LINE <= o ->
  convert_line src src_line dst_line buf o = buf o.
Proof.
  intros Ho. unfold convert_line.
  apply (for_loop_preserves _ _ (fun b : pixbuf => b o = buf o)); [|reflexivity].
  intros x b Hx Hc Hb. apply Z.ltb_lt in Hc.
  rewrite convert_pixel_pair_other; [exact Hb | |];
    unfold C64U_PIXELS_PER_LINE, C64U_BYTES_PER_LINE in *; lia.
Qed.

(** Byte [x] of a converted line gives pixels [2x] and [2x+1]. *)
Lemma convert_line_at (src : list Z) (src_line dst_line : Z) (buf : pixbuf) (x : Z) :
  0 <= x < C64U_BYTES_PER_LINE ->
  let pixel_pair := src !!! Z.to_nat (src_line + x) in
  let buf' := convert_line src src_line dst_line buf in
  buf' (dst_line + x * 2) = vic_color (Z.land pixel_pair 0x0F)
  /\ buf' (dst_line + (x * 2 + 1)) = vic_color (Z.shiftr pixel_pair 4).
Proof.
  intros Hx. cbv zeta. unfold convert_line.
  apply (for_loop_establishes _ _
           (fun b : pixbuf =>
              b (dst_line + x * 2) = vic_color (Z.land (src !!! Z.to_nat (src_line + x)) 0x0F)
              /\ b (dst_line + (x * 2 + 1))
                 = vic_color (Z.shiftr (src !!! Z.to_nat (src_line + x)) 4)) x).
  - unfold C64U_BYTES_PER_LINE in *. lia.
  - intros j Hj. apply Z.ltb_lt. lia.
  - intros b. apply convert_pixel_pair_at.
  - intros j b Hj _ [H1 H2].
    rewrite !convert_pixel_pair_other by lia. split; assumption.
Qed.

(** A converted slot leaves alone every row it does not cover and every row
    at or beyond the frame height. *)
Lemma convert_packet_other (height : Z) (p : frame_packet) (buf : pixbuf) (row col : Z) :
  0 <= col < C64U_PIXELS_PER_LINE ->
  height <= row \/ ~ covers p row ->
  convert_packet height p buf (row * C64U_PIXELS_PER_LINE + col)
  = buf (row * C64U_PIXELS_PER_LINE + col).
Proof.
  intros Hcol Hrow. unfold convert_packet.
  apply (for_loop_preserves _ _
           (fun b : pixbuf => b (row * C64U_PIXELS_PER_LINE + col)
                              = buf (row * C64U_PIXELS_PER_LINE + col)));
    [|reflexivity].
  intros line b Hline Hc Hb.
  apply andb_true_iff in Hc as [Hl Hh]. apply Z.ltb_lt in Hl, Hh.
  rewrite convert_line_other; [exact Hb|].
  assert (row <> line_num p + line).
  { intros ->. destruct Hrow as [Hr | Hr]; [lia|]. apply Hr. unfold covers. lia. }
  unfold C64U_PIXELS_PER_LINE in *. lia.
Qed.

(** Byte [x] of row [line] of a converted slot gives pixels [2x] and [2x+1]
    of row [line_num + line], when that row is below the frame height. *)
Lemma convert_packet_at (height : Z) (p : frame_packet) (buf : pixbuf) (line x : Z) :
  0 <= line < lines_per_packet p ->
  line_num p + line < height ->
  0 <= x < C64U_BYTES_PER_LINE ->
  let pixel_pair := packet_data p !!! Z.to_nat (line * C64U_BYTES_PER_LINE + x) in
  let dst_line := (line_num p + line) * C64U_PIXELS_PER_LINE in
  let buf' := convert_packet height p buf in
  buf' (dst_line + x * 2) = vic_color (Z.land pixel_pair 0x0F)
  /\ buf' (dst_line + (x * 2 + 1)) = vic_color (Z.shiftr pixel_pair 4).
Proof.
  intros Hline Hh Hx. cbv zeta. unfold convert_packet.
  apply (for_loop_establishes _ _
           (fun b : pixbuf =>
              b ((line_num p + line) * C64U_PIXELS_PER_LINE + x * 2)
              = vic_color (Z.land (packet_data p !!! Z.to_nat (line * C64U_BYTES_PER_LINE + x)) 0x0F)
              /\ b ((line_num p + line) * C64U_PIXELS_PER_LINE + (x * 2 + 1))
                 = vic_color (Z.shiftr (packet_data p !!! Z.to_nat (line * C64U_BYTES_PER_LINE + x)) 4))
           line).
  - lia.
  - intros j Hj. apply andb_true_iff. split; apply Z.ltb_lt; lia.
  - intros b. apply convert_line_at. exact Hx.
  - intros j b Hj _ [H1 H2].
    rewrite !convert_line_other
      by (unfold C64U_PIXELS_PER_LINE, C64U_BYTES_PER_LINE in *; lia).
    split; assumption.
Qed.

Section AssemblyProperties.
Context {K : Protocol}.

(** The loop over the table leaves alone every row at or beyond the frame
    height and every row no visited, received slot covers. *)
Lemma assemble_slots_other (height : Z) (slots : list frame_packet) (buf : pixbuf)
    (row col : Z) :
  0 <= col < C64U_PIXELS_PER_LINE ->
  height <= row
  \/ (forall (j : nat) (q : frame_packet),
        Z.of_nat j < C64U_MAX_PACKETS_PER_FRAME ->
        slots !! j = Some q -> received q = true -> ~ covers q row) ->
  assemble_slots height slots buf (row * C64U_PIXELS_PER_LINE + col)
  = buf (row * C64U_PIXELS_PER_LINE + col).
Proof.
  intros Hcol Hrow. unfold assemble_slots, assemble_slots_steps.
  apply (for_loop_preserves _ _
           (fun b : pixbuf => b (row * C64U_PIXELS_PER_LINE + col)
                              = buf (row * C64U_PIXELS_PER_LINE + col)));
    [|reflexivity].
  intros i b Hi Hc Hb. apply Z.ltb_lt in Hc. cbv beta.
  destruct (slots !! Z.to_nat i) as [q|] eqn:Hq; [|exact Hb].
  destruct (received q) eqn:Hr; [|exact Hb].
  rewrite convert_packet_other; [exact Hb | exact Hcol |].
  destruct Hrow as [Hrow | Hrow]; [left; exact Hrow|].
  right. apply (Hrow (Z.to_nat i) q); [lia | exact Hq | exact Hr].
Qed.

(** After the iteration for slot [i], byte [x] of row [line] of that slot
    has given pixels [2x] and [2x+1] of row [line_num + line]. *)
Lemma assemble_slots_steps_at (height : Z) (slots : list frame_packet) (buf : pixbuf)
    (i : nat) (p : frame_packet) (line x : Z) :
  Z.of_nat i < C64U_MAX_PACKETS_PER_FRAME ->
  slots !! i = Some p ->
  received p = true ->
  0 <= line < lines_per_packet p ->
  line_num p + line < height ->
  0 <= x < C64U_BYTES_PER_LINE ->
  let pixel_pair := packet_data p !!! Z.to_nat (line * C64U_BYTES_PER_LINE + x) in
  let dst_line := (line_num p + line) * C64U_PIXELS_PER_LINE in
  let buf' := assemble_slots_steps (S i) height slots buf in
  buf' (dst_line + x * 2) = vic_color (Z.land pixel_pair 0x0F)
  /\ buf' (dst_line + (x * 2 + 1)) = vic_color (Z.shiftr pixel_pair 4).
Proof.
  intros Hi Hp Hr Hline Hh Hx. cbv zeta. unfold assemble_slots_steps.
  apply (for_loop_establishes _ _
           (fun b : pixbuf =>
              b ((line_num p + line) * C64U_PIXELS_PER_LINE + x * 2)
              = vic_color (Z.land (packet_data p !!! Z.to_nat (line * C64U_BYTES_PER_LINE + x)) 0x0F)
              /\ b ((line_num p + line) * C64U_PIXELS_PER_LINE + (x * 2 + 1))
                 = vic_color (Z.shiftr (packet_data p !!! Z.to_nat (line * C64U_BYTES_PER_LINE + x)) 4))
           (Z.of_nat i)).
  - lia.
  - intros j Hj. apply Z.ltb_lt. lia.
  - intros b. rewrite Nat2Z.id, Hp, Hr. apply convert_packet_at; assumption.
  - intros j b Hj. lia.
Qed.

(** At the end of the loop the two pixels are still there, unless a
    received slot of higher index covers the row. *)
Lemma assemble_slots_at (height : Z) (slots : list frame_packet) (buf : pixbuf)
    (i : nat) (p : frame_packet) (line x : Z) :
  Z.of_nat i < C64U_MAX_PACKETS_PER_FRAME ->
  slots !! i = Some p ->
  received p = true ->
  0 <= line < lines_per_packet p ->
  line_num p + line < height ->
  0 <= x < C64U_BYTES_PER_LINE ->
  (forall (j : nat) (q : frame_packet),
      (i < j)%nat -> slots !! j = Some q -> received q = true ->
      ~ covers q (line_num p + line)) ->
  let pixel_pair := packet_data p !!! Z.to_nat (line * C64U_BYTES_PER_LINE + x) in
  let dst_line := (line_num p + line) * C64U_PIXELS_PER_LINE in
  let buf' := assemble_slots height slots buf in
  buf' (dst_line + x * 2) = vic_color (Z.land pixel_pair 0x0F)
  /\ buf' (dst_line + (x * 2 + 1)) = vic_color (Z.shiftr pixel_pair 4).
Proof.
  intros Hi Hp Hr Hline Hh Hx Hlater. cbv zeta. unfold assemble_slots, assemble_slots_steps.
  apply (for_loop_establishes _ _
           (fun b : pixbuf =>
              b ((line_num p + line) * C64U_PIXELS_PER_LINE + x * 2)
              = vic_color (Z.land (packet_data p !!! Z.to_nat (line * C64U_BYTES_PER_LINE + x)) 0x0F)
              /\ b ((line_num p + line) * C64U_PIXELS_PER_LINE + (x * 2 + 1))
                 = vic_color (Z.shiftr (packet_data p !!! Z.to_nat (line * C64U_BYTES_PER_LINE + x)) 4))
           (Z.of_nat i)).
  - lia.
  - intros j Hj. apply Z.ltb_lt. lia.
  - intros b. rewrite Nat2Z.id, Hp, Hr. apply convert_packet_at; assumption.
  - intros j b Hj _ [H1 H2].
    destruct (slots !! Z.to_nat j) as [q|] eqn:Hq; [|split; assumption].
    destruct (received q) eqn:Hrq; [|split; assumption].
    assert (Hnc : ~ covers q (line_num p + line)).
    { apply (Hlater (Z.to_nat j) q); [lia | exact Hq | exact Hrq]. }
    rewrite !convert_packet_other
      by (try (right; exact Hnc); unfold C64U_PIXELS_PER_LINE, C64U_BYTES_PER_LINE in *; lia).
    split; assumption.
Qed.

End AssemblyProperties.

Lemma coversb_covers (p : frame_packet) (row : Z) : coversb p row = true <-> covers p row.
Proof. unfold coversb, covers. rewrite andb_true_iff, Z.leb_le, Z.ltb_lt. reflexivity. Qed.

Lemma later_slots_clear_spec (slots : list frame_packet) (i : nat) (row : Z) :
  later_slots_clear slots i row = true ->
  forall (j : nat) (q : frame_packet),
    (i < j)%nat -> slots !! j = Some q -> received q = true -> ~ covers q row.
Proof.
  unfold later_slots_clear. rewrite forallb_forall.
  intros Hall j q Hj Hq Hr Hc.
  assert (Hin : In q (drop (S i) slots)).
  { apply list_elem_of_In, list_elem_of_lookup. exists (j - S i)%nat.
    rewrite lookup_drop. replace (S i + (j - S i))%nat with j by lia. exact Hq. }
  specialize (Hall q Hin). apply coversb_covers in Hc.
  rewrite Hr, Hc in Hall. discriminate.
Qed.

Lemma no_slot_covers_spec {K : Protocol} (slots : list frame_packet) (row : Z) :
  no_slot_covers slots row = true ->
  forall (j : nat) (q : frame_packet),
    Z.of_nat j < C64U_MAX_PACKETS_PER_FRAME ->
    slots !! j = Some q -> received q = true -> ~ covers q row.
Proof.
  unfold no_slot_covers. rewrite forallb_forall.
  intros Hall j q Hj Hq Hr Hc.
  assert (Hin : In q (take (Z.to_nat C64U_MAX_PACKETS_PER_FRAME) slots)).
  { apply list_elem_of_In, list_elem_of_lookup. exists j.
    rewrite lookup_take_lt by lia. exact Hq. }
  specialize (Hall q Hin). apply coversb_covers in Hc.
  rewrite Hr, Hc in Hall. discriminate.
Qed.

Section ColourConversion.
Context {D : Type} {K : Protocol}.

(** C3.  Let slot [i] of the frame hold a received packet [p], and take
    the payload byte at horizontal byte offset [x] of row [line] of [p], with
    row [line_num p + line] below the frame height.  Converting that byte
    writes two pixels and no other.  Once frame assembly has converted slot
    [i], row [line_num p + line] of the back buffer holds the palette value
    of the byte's low nibble at column [2x] and that of its high nibble at
    column [2x + 1]; they are still there when assembly ends, unless a
    received slot of higher index covers the same row.  Rows at or beyond the
    frame height, and rows no received slot covers, are as before assembly;
    the front buffer is not touched. *)
Theorem assemble_frame_pixels
    (context : c64u_source D) (frame : frame_assembly)
    (i : nat) (p : frame_packet) (line x : Z) :
  Z.of_nat i < C64U_MAX_PACKETS_PER_FRAME ->
  packets frame !! i = Some p ->
  received p = true ->
  0 <= line < lines_per_packet p ->
  line_num p + line < height context ->
  0 <= x < C64U_BYTES_PER_LINE ->
  let pixel_pair := packet_data p !!! Z.to_nat (line * C64U_BYTES_PER_LINE + x) in
  let dst_line := (line_num p + line) * C64U_PIXELS_PER_LINE in
  let after_slot :=
    assemble_slots_steps (S i) (height context) (packets frame) (frame_buffer_back context) in
  let context' := assemble_frame_to_buffer context frame in
  (forall (buf : pixbuf) (o : Z),
      o <> dst_line + x * 2 -> o <> dst_line + (x * 2 + 1) ->
      convert_pixel_pair (packet_data p) (line * C64U_BYTES_PER_LINE) dst_line x buf o = buf o)
  /\ (after_slot (dst_line + x * 2) = vic_color (Z.land pixel_pair 0x0F)
      /\ after_slot (dst_line + (x * 2 + 1)) = vic_color (Z.shiftr pixel_pair 4))
  /\ (later_slots_clear (packets frame) i (line_num p + line) = true ->
      frame_buffer_back context' (dst_line + x * 2) = vic_color (Z.land pixel_pair 0x0F)
      /\ frame_buffer_back context' (dst_line + (x * 2 + 1))
         = vic_color (Z.shiftr pixel_pair 4))
  /\ (forall row col : Z,
        0 <= col < C64U_PIXELS_PER_LINE ->
        height context <= row \/ no_slot_covers (packets frame) row = true ->
        frame_buffer_back context' (row * C64U_PIXELS_PER_LINE + col)
        = frame_buffer_back context (row * C64U_PIXELS_PER_LINE + col))
  /\ frame_buffer_front context' = frame_buffer_front context.
Proof.
  intros Hi Hp Hr Hline Hh Hx. cbv zeta.
  split; [intros buf o; apply convert_pixel_pair_other|].
  split; [apply assemble_slots_steps_at; assumption|].
  split; [|split; [|reflexivity]].
  - intros Hclear.
    apply (assemble_slots_at (height context) (packets frame) (frame_buffer_back context)
             i p line x Hi Hp Hr Hline Hh Hx (later_slots_clear_spec _ _ _ Hclear)).
  - intros row col Hcol Hrow. cbn.
    apply assemble_slots_other; [exact Hcol|].
    destruct Hrow as [Hrow | Hrow]; [left; exact Hrow|].
    right. apply no_slot_covers_spec. exact Hrow.
Qed.

End ColourConversion.

(* ===================================================================== *)
(** * Properties of the slot table *)
(* ===================================================================== *)

(** The line number left by the mask [& 0x7FFF] and the packet index
    derived from it fit in fifteen bits. *)
Lemma line_num_range (w : Z) : 0 <= Z.land w 0x7FFF <= 32767.
Proof.
  assert (H : Z.land w 0x7FFF = w mod 32768) by (apply (Z.land_ones w 15); lia).
  rewrite H. pose proof (Z.mod_pos_bound w 32768 eq_refl). lia.
Qed.

Lemma packet_index_range (line lpp : Z) :
  0 <= line <= 32767 -> 0 <= lpp ->
  0 <= u16 (line / lpp) <= 32767 /\ u16 (line / lpp) = line / lpp.
Proof.
  intros Hl Hp.
  assert (Hq : 0 <= line / lpp <= 32767).
  { destruct (Z.eq_dec lpp 0) as [-> | Hnz].
    - rewrite Z.div_0_r. lia.
    - split; [apply Z.div_pos; lia|].
      apply Z.le_trans with line; [|lia].
      apply Z.div_le_upper_bound; [lia|]. nia. }
  assert (Hw : u16 (line / lpp) = line / lpp) by (apply wrap_small; lia).
  rewrite Hw. split; [exact Hq | reflexivity].
Qed.

Lemma occupied_le (slots : list frame_packet) : (occupied slots <= length slots)%nat.
Proof. unfold occupied. apply List.filter_length_le. Qed.

(** Filling a free slot adds one to the count of occupied slots; a free
    slot means the table is not full. *)
Lemma occupied_insert_free (slots : list frame_packet) (i : nat) (fp new : frame_packet) :
  slots !! i = Some fp -> received fp = false -> received new = true ->
  occupied (<[i := new]> slots) = S (occupied slots).
Proof.
  unfold occupied.
  revert i. induction slots as [|q slots IH]; intros i Hfp Hfree Hnew; [discriminate|].
  destruct i as [|i].
  - injection Hfp as ->.
    change (<[0%nat := new]> (fp :: slots)) with (new :: slots).
    cbn [List.filter]. rewrite Hfree, Hnew. reflexivity.
  - change (<[S i := new]> (q :: slots)) with (q :: <[i := new]> slots).
    change ((q :: slots) !! S i) with (slots !! i) in Hfp.
    cbn [List.filter]. destruct (received q); cbn [length]; rewrite (IH i); auto.
Qed.

Lemma occupied_free_lt (slots : list frame_packet) (i : nat) (fp : frame_packet) :
  slots !! i = Some fp -> received fp = false -> (occupied slots < length slots)%nat.
Proof.
  unfold occupied.
  revert i. induction slots as [|q slots IH]; intros i Hfp Hfree; [discriminate|].
  destruct i as [|i].
  - injection Hfp as ->. cbn [List.filter length]. rewrite Hfree.
    pose proof (occupied_le slots). unfold occupied in *. lia.
  - change ((q :: slots) !! S i) with (slots !! i) in Hfp.
    specialize (IH i Hfp Hfree). cbn [List.filter].
    destruct (received q); cbn [length]; lia.
Qed.

Section SlotTable.
Context {D : Type} {dops : DoubleOps D} {K : Protocol}.

#[local] Abbreviation source := (c64u_source D).

Lemma detect_format_current_frame (c : source) (h : Z) :
  current_frame (detect_format c h) = current_frame c.
Proof. unfold detect_format. repeat case_match; reflexivity. Qed.

Lemma detect_format_last_completed (c : source) (h : Z) :
  last_completed_frame (detect_format c h) = last_completed_frame c.
Proof. unfold detect_format. repeat case_match; reflexivity. Qed.

Lemma detect_format_frame_drops (c : source) (h : Z) :
  frame_drops (detect_format c h) = frame_drops c.
Proof. unfold detect_format. repeat case_match; reflexivity. Qed.

Lemma store_packet_frame (f : frame_assembly) (idx line lpp : Z) (payload : list Z) :
  frame_num (store_packet f idx line lpp payload) = frame_num f
  /\ start_time (store_packet f idx line lpp payload) = start_time f
  /\ expected_packets (store_packet f idx line lpp payload) = expected_packets f.
Proof. unfold store_packet. repeat case_match; auto. Qed.

(** The last-packet block leaves the slots and their count alone. *)
Lemma note_last_packet_slots (c : source) (last : bool) (idx line lpp : Z) :
  let f' := current_frame (note_last_packet c last idx line lpp) in
  packets f' = packets (current_frame c)
  /\ received_packets f' = received_packets (current_frame c)
  /\ frame_num f' = frame_num (current_frame c)
  /\ start_time f' = start_time (current_frame c).
Proof.
  cbv zeta. unfold note_last_packet.
  destruct (last && (expected_packets (current_frame c) =? 0)); [|auto].
  rewrite detect_format_current_frame. cbn. auto.
Qed.

Lemma note_last_packet_expected (c : source) (last : bool) (idx line lpp : Z) :
  expected_packets (current_frame (note_last_packet c last idx line lpp))
  = if last && (expected_packets (current_frame c) =? 0)
    then u16 (idx + 1) else expected_packets (current_frame c).
Proof.
  unfold note_last_packet.
  destruct (last && (expected_packets (current_frame c) =? 0)); [|reflexivity].
  rewrite detect_format_current_frame. reflexivity.
Qed.

Lemma zero_frame_assembly_wf :
  0 <= C64U_MAX_PACKETS_PER_FRAME -> frame_wf zero_frame_assembly.
Proof.
  intros _.
  assert (H : forall n, occupied (replicate n zero_frame_packet) = 0%nat)
    by (induction n; [reflexivity | assumption]).
  unfold frame_wf, zero_frame_assembly. cbn [packets received_packets].
  rewrite length_replicate, H. split; reflexivity.
Qed.

(** C1.  A frame is judged complete exactly when [received_packets] is
    positive and equals [expected_packets], so a frame whose
    [expected_packets] is still 0 is never complete.  For the packet of any
    datagram that is added to the table, [expected_packets] afterwards is the
    packet's index plus one (a positive number) if the packet carries the
    last-packet flag and [expected_packets] was still 0, and is unchanged
    otherwise: it is set once, from the first such packet. *)
Theorem frame_complete_iff_counts :
  (forall f : frame_assembly,
      is_frame_complete f = true
      <-> 0 < received_packets f /\ received_packets f = expected_packets f)
  /\ (forall f : frame_assembly, expected_packets f = 0 -> is_frame_complete f = false)
  /\ (forall (context : source) (packet : list Z),
        let h := parse_header packet in
        let payload := drop (Z.to_nat C64U_VIDEO_HEADER_SIZE) packet in
        let last_packet := negb (Z.land (hdr_line_num h) 0x8000 =? 0) in
        let line_num' := Z.land (hdr_line_num h) 0x7FFF in
        let packet_index := u16 (line_num' / hdr_lines_per_packet h) in
        let e := expected_packets (current_frame context) in
        let e' :=
          expected_packets
            (current_frame
               (accumulate_packet context last_packet packet_index line_num'
                  (hdr_lines_per_packet h) payload)) in
        0 < packet_index + 1
        /\ e' = if last_packet && (e =? 0) then packet_index + 1 else e).
Proof.
  split; [|split].
  - intros f. unfold is_frame_complete.
    rewrite andb_true_iff, Z.ltb_lt, Z.eqb_eq. reflexivity.
  - intros f He. unfold is_frame_complete. rewrite He.
    destruct (0 <? received_packets f) eqn:Hr; [|reflexivity].
    apply Z.ltb_lt in Hr. cbn. apply Z.eqb_neq. lia.
  - intros context packet. cbv zeta.
    set (h := parse_header packet).
    pose proof (line_num_range (hdr_line_num h)) as Hl.
    assert (Hlpp : 0 <= hdr_lines_per_packet h).
    { subst h. cbn. apply (wrap_range 8). lia. }
    destruct (packet_index_range _ _ Hl Hlpp) as [Hi _].
    split; [lia|].
    unfold accumulate_packet. rewrite note_last_packet_expected.
    unfold set_current_frame. cbn [current_frame].
    destruct (store_packet_frame (current_frame context)
                (u16 (Z.land (hdr_line_num h) 32767 / hdr_lines_per_packet h))
                (Z.land (hdr_line_num h) 32767) (hdr_lines_per_packet h)
                (drop (Z.to_nat C64U_VIDEO_HEADER_SIZE) packet)) as (_ & _ & ->).
    destruct (negb (Z.land (hdr_line_num h) 32768 =? 0)
              && (expected_packets (current_frame context) =? 0)); [|reflexivity].
    apply wrap_small. lia.
Qed.

(** The table the in-frame completion check leaves. *)
Lemma complete_if_ready_table (c : source) (env : step_env) :
  current_frame (fst (complete_if_ready c env))
  = if is_frame_complete (current_frame c)
    then init_frame_assembly 0 (t_reset env) else current_frame c.
Proof.
  unfold complete_if_ready.
  destruct (is_frame_complete (current_frame c)); [|reflexivity].
  destruct (frame_lock_ok_complete env); [|reflexivity].
  destruct (deliver_completed_frame InFramePath c (t_capture env) (t_latency_complete env));
    reflexivity.
Qed.

(** A packet of the frame in progress skips the new-frame branch. *)
Lemma process_packet_same_frame (c : source) (h : video_header) (payload : list Z)
    (env : step_env) :
  hdr_frame_num h = frame_num (current_frame c) ->
  process_packet c h payload env
  = add_packet c (negb (Z.land (hdr_line_num h) 0x8000 =? 0))
      (Z.land (hdr_line_num h) 0x7FFF) (hdr_lines_per_packet h) payload env.
Proof.
  intros Hfn. unfold process_packet. cbv zeta. rewrite Hfn, Z.eqb_refl. cbn [negb].
  destruct (add_packet c _ _ _ payload env); reflexivity.
Qed.

(** C4.  On a table whose counter agrees with its slots, for a packet of
    the current frame with index [line_number / lines_per_packet]: if the
    index is at or beyond the capacity nothing at all changes; if it is in
    bounds and the slot is occupied, every slot and [received_packets] are
    unchanged (first writer wins); if it is in bounds and the slot is free,
    that one slot is written, every other slot is unchanged and
    [received_packets] grows by 1.  This is what the arrival of a packet does:
    for a packet whose header carries the frame number in progress, the
    section of the loop under the assembly lock changes nothing when the index
    is out of bounds, and otherwise leaves the table just described, with
    frame number and start time as before and [expected_packets] set by the
    last-packet block, unless that table is complete, in which case it is
    reset by the completion check of the same iteration. *)
Theorem slot_update_first_writer_wins
    (context : source) (last_packet : bool) (line_num' lines_per_packet' : Z)
    (payload : list Z) (env : step_env) :
  frame_wf (current_frame context) ->
  C64U_MAX_PACKETS_PER_FRAME <= 65535 ->
  let packet_index := u16 (line_num' / lines_per_packet') in
  let f := current_frame context in
  let f' :=
    current_frame
      (accumulate_packet context last_packet packet_index line_num' lines_per_packet' payload) in
  let slot :=
    mk_frame_packet line_num' lines_per_packet' true (take (Z.to_nat payload_size) payload) in
  (C64U_MAX_PACKETS_PER_FRAME <= packet_index ->
   add_packet context last_packet line_num' lines_per_packet' payload env = (context, []))
  /\ (packet_index < C64U_MAX_PACKETS_PER_FRAME ->
      exists fp : frame_packet,
        packets f !! Z.to_nat packet_index = Some fp
        /\ if received fp
           then packets f' = packets f /\ received_packets f' = received_packets f
           else packets f' = <[Z.to_nat packet_index := slot]> (packets f)
                /\ packets f' !! Z.to_nat packet_index = Some slot
                /\ (forall j : nat, j <> Z.to_nat packet_index ->
                                    packets f' !! j = packets f !! j)
                /\ received_packets f' = received_packets f + 1)
  /\ (forall h : video_header,
        hdr_frame_num h = frame_num f ->
        negb (Z.land (hdr_line_num h) 0x8000 =? 0) = last_packet ->
        Z.land (hdr_line_num h) 0x7FFF = line_num' ->
        hdr_lines_per_packet h = lines_per_packet' ->
        let r := process_packet context h payload env in
        (C64U_MAX_PACKETS_PER_FRAME <= packet_index -> r = (context, []))
        /\ (packet_index < C64U_MAX_PACKETS_PER_FRAME ->
            frame_num f' = frame_num f
            /\ start_time f' = start_time f
            /\ expected_packets f'
               = (if last_packet && (expected_packets f =? 0)
                  then packet_index + 1 else expected_packets f)
            /\ current_frame (fst r)
               = if is_frame_complete f'
                 then init_frame_assembly 0 (t_reset env) else f')).
Proof.
  intros [Hlen Hcount] Hmax. cbv zeta.
  set (idx := u16 (line_num' / lines_per_packet')).
  assert (Hidx : 0 <= idx) by (apply (wrap_range 16); lia).
  assert (Hout : C64U_MAX_PACKETS_PER_FRAME <= idx ->
                 add_packet context last_packet line_num' lines_per_packet' payload env
                 = (context, [])).
  { intros Hge. unfold add_packet. fold idx.
    assert (Hlt : (idx <? C64U_MAX_PACKETS_PER_FRAME) = false) by (apply Z.ltb_ge; lia).
    rewrite Hlt. reflexivity. }
  split; [exact Hout|]. split; cycle 1.
  - intros h Hfn Hlast Hline Hlpp.
    rewrite (process_packet_same_frame context h payload env Hfn), Hlast, Hline, Hlpp.
    split; [exact Hout|]. intros Hlt.
    unfold accumulate_packet.
    destruct (note_last_packet_slots
                (set_current_frame
                   (store_packet (current_frame context) idx line_num' lines_per_packet' payload)
                   context)
                last_packet idx line_num' lines_per_packet') as (_ & _ & Hn & Hs).
    rewrite Hn, Hs, note_last_packet_expected. cbn [current_frame set_current_frame].
    destruct (store_packet_frame (current_frame context) idx line_num' lines_per_packet'
                payload) as (-> & -> & ->).
    split; [reflexivity|]. split; [reflexivity|]. split.
    + destruct (last_packet && (expected_packets (current_frame context) =? 0));
        [|reflexivity].
      apply wrap_small. lia.
    + unfold add_packet. fold idx.
      assert (Hlt' : (idx <? C64U_MAX_PACKETS_PER_FRAME) = true) by (apply Z.ltb_lt; lia).
      rewrite Hlt'. rewrite complete_if_ready_table. reflexivity.
  - intros Hlt.
    assert (Hin : (Z.to_nat idx < length (packets (current_frame context)))%nat) by lia.
    destruct (lookup_lt_is_Some_2 _ _ Hin) as [fp Hfp].
    exists fp. split; [exact Hfp|].
    unfold accumulate_packet.
    destruct (note_last_packet_slots
                (set_current_frame
                   (store_packet (current_frame context) idx line_num' lines_per_packet' payload)
                   context)
                last_packet idx line_num' lines_per_packet') as (-> & -> & _).
    cbn. unfold store_packet. rewrite Hfp.
    destruct (received fp) eqn:Hr; [split; reflexivity|].
    cbn. split; [reflexivity|]. split; [apply list_lookup_insert_eq; exact Hin|].
    split; [intros j Hj; apply list_lookup_insert_ne; congruence|].
    pose proof (occupied_free_lt _ _ _ Hfp Hr) as Hfree.
    apply wrap_small. rewrite Hcount. lia.
Qed.

(** The agreement of counter and slots is kept by the slot-table update. *)
Lemma store_packet_wf (f : frame_assembly) (idx line lpp : Z) (payload : list Z) :
  frame_wf f -> C64U_MAX_PACKETS_PER_FRAME <= 65535 ->
  frame_wf (store_packet f idx line lpp payload).
Proof.
  intros [Hlen Hcount] Hmax. unfold store_packet.
  destruct (packets f !! Z.to_nat idx) as [fp|] eqn:Hfp; [|split; assumption].
  destruct (received fp) eqn:Hr; [split; assumption|].
  unfold frame_wf. cbn [packets received_packets]. rewrite length_insert.
  split; [exact Hlen|].
  rewrite (occupied_insert_free _ _ fp) by (reflexivity || assumption).
  pose proof (occupied_free_lt _ _ _ Hfp Hr) as Hfree.
  unfold u16. rewrite wrap_small; [rewrite Hcount; lia|]. rewrite Hcount. lia.
Qed.



End SlotTable.

(* ===================================================================== *)
(** * Properties of runs of the receive loop *)
(* ===================================================================== *)

Lemma assemble_guard_app (e1 e2 : list video_event) (l l1 : Z) :
  assemble_guard l e1 = Some l1 ->
  assemble_guard l (e1 ++ e2) = assemble_guard l1 e2.
Proof.
  revert l. induction e1 as [|e e1 IH]; intros l H; cbn in *.
  - injection H as ->. reflexivity.
  - destruct e as [a b | path n | n | n]; try (apply IH; exact H).
    destruct (n =? l); [discriminate | apply IH; exact H].
Qed.

Lemma drop_discipline_app (e1 e2 : list video_event) (s s1 : Z * option Z) :
  drop_discipline s e1 = Some s1 ->
  drop_discipline s (e1 ++ e2) = drop_discipline s1 e2.
Proof.
  revert s. induction e1 as [|e e1 IH]; intros s H; cbn in *.
  - injection H as ->. reflexivity.
  - destruct (drop_step s e) as [s'|]; [apply IH; exact H | discriminate].
Qed.

Lemma dropped_frames_app (e1 e2 : list video_event) :
  dropped_frames (e1 ++ e2) = dropped_frames e1 ++ dropped_frames e2.
Proof. unfold dropped_frames. apply omap_app. Qed.

Lemma count_drops_app (e1 e2 : list video_event) (d : Z) :
  count_drops d (e1 ++ e2) = count_drops (count_drops d e1) e2.
Proof. unfold count_drops. rewrite dropped_frames_app. apply foldl_app. Qed.

(** The guard keeps neighbours apart. *)
Lemma assemble_guard_adjacent (evs : list video_event) (l l' : Z) :
  assemble_guard l evs = Some l' ->
  adjacent_distinct (l :: assembled_frames evs) = true.
Proof.
  revert l. induction evs as [|e evs IH]; intros l H; [reflexivity|].
  destruct e as [a b | path n | n | n]; try (apply (IH l); exact H).
  cbn in H. destruct (n =? l) eqn:Hn; [discriminate|].
  change (assembled_frames (EvAssembleSwap path n :: evs)) with (n :: assembled_frames evs).
  cbn [adjacent_distinct]. rewrite Z.eqb_sym, Hn. cbn. apply (IH n). exact H.
Qed.

Section RunProperties.
Context {D : Type} {dops : DoubleOps D} {K : Protocol}.

#[local] Abbreviation source := (c64u_source D).

Lemma trace_ok_trans (c c1 c2 : source) (e1 e2 : list video_event) :
  trace_ok c c1 e1 -> trace_ok c1 c2 e2 -> trace_ok c c2 (e1 ++ e2).
Proof.
  intros (Ha1 & Hd1 & Hc1) (Ha2 & Hd2 & Hc2). unfold trace_ok.
  rewrite (assemble_guard_app _ _ _ _ Ha1), (drop_discipline_app _ _ _ _ Hd1).
  rewrite count_drops_app, <- Hc1. auto.
Qed.

(** Steps that touch neither [last_completed_frame], nor the frame number
    of the table, nor [frame_drops]. *)
Lemma trace_ok_same (c c' : source) :
  last_completed_frame c' = last_completed_frame c ->
  frame_num (current_frame c') = frame_num (current_frame c) ->
  frame_drops c' = frame_drops c ->
  trace_ok c c' [].
Proof. intros H1 H2 H3. unfold trace_ok. cbn. rewrite H1, H2, H3. auto. Qed.

(** The guarded block: skipped for the frame number completed last, else
    run once and remembered. *)
Lemma deliver_completed_frame_cases (path : completion_path) (c : source) (cap lat : Z) :
  let r := deliver_completed_frame path c cap lat in
  if last_completed_frame c =? frame_num (current_frame c)
  then r = (c, [])
  else snd r = [EvAssembleSwap path (frame_num (current_frame c))]
       /\ last_completed_frame (fst r) = frame_num (current_frame c)
       /\ current_frame (fst r) = current_frame c
       /\ frame_drops (fst r) = frame_drops c.
Proof.
  cbv zeta. unfold deliver_completed_frame.
  destruct (last_completed_frame c =? frame_num (current_frame c)); cbn; auto.
Qed.

Lemma deliver_completed_frame_trace (path : completion_path) (c : source) (cap lat : Z) :
  trace_ok c (fst (deliver_completed_frame path c cap lat))
    (snd (deliver_completed_frame path c cap lat))
  /\ current_frame (fst (deliver_completed_frame path c cap lat)) = current_frame c
  /\ dropped_frames (snd (deliver_completed_frame path c cap lat)) = [].
Proof.
  pose proof (deliver_completed_frame_cases path c cap lat) as H. cbv zeta in H.
  destruct (last_completed_frame c =? frame_num (current_frame c)) eqn:Hg.
  - rewrite H. cbn. split; [apply trace_ok_same; reflexivity | auto].
  - destruct H as (Hev & Hl & Hf & Hd). rewrite Hev.
    split; [|split; [exact Hf | reflexivity]].
    unfold trace_ok. cbn. rewrite Z.eqb_sym, Hg, Hl, Hf, Hd, Z.eqb_refl. auto.
Qed.

(** Finalising the frame in progress either keeps the guard and drops
    nothing, or counts exactly one drop, of the frame in the table. *)
Lemma finalize_previous_frame_cases (c : source) (env : step_env) :
  let r := finalize_previous_frame c env in
  (trace_ok c (fst r) (snd r) /\ current_frame (fst r) = current_frame c
   /\ dropped_frames (snd r) = [])
  \/ r = (set_frame_drops (u32 (frame_drops c + 1)) c,
          [EvFrameDrop (frame_num (current_frame c))]).
Proof.
  cbv zeta. unfold finalize_previous_frame.
  assert (Hsame : trace_ok c c [] /\ current_frame c = current_frame c
                  /\ dropped_frames (@nil video_event) = [])
    by (split; [apply trace_ok_same; reflexivity | auto]).
  destruct (0 <? received_packets (current_frame c)); [|left; exact Hsame].
  destruct (is_frame_complete (current_frame c)
            || is_frame_timeout (current_frame c) (t_timeout env)); [|left; exact Hsame].
  destruct (is_frame_complete (current_frame c)); [|right; reflexivity].
  destruct (frame_lock_ok_preempt env); [|left; exact Hsame].
  left. apply deliver_completed_frame_trace.
Qed.


Lemma start_new_frame_table (c : source) (fn : Z) (env : step_env) :
  current_frame (fst (start_new_frame c fn env)) = init_frame_assembly fn (t_start env).
Proof.
  unfold start_new_frame. cbv zeta.
  destruct (finalize_previous_frame _ env) as [c3 evs]. reflexivity.
Qed.

Lemma start_new_frame_trace (c : source) (fn : Z) (env : step_env) :
  frame_num (current_frame c) <> fn ->
  trace_ok c (fst (start_new_frame c fn env)) (snd (start_new_frame c fn env)).
Proof.
  intros Hne. unfold start_new_frame. cbv zeta.
  set (c2 := set_last_capture_time _ _).
  assert (Hobs : last_completed_frame c2 = last_completed_frame c
                 /\ current_frame c2 = current_frame c
                 /\ frame_drops c2 = frame_drops c).
  { subst c2. destruct (0 <? last_capture_time c); cbn; auto. }
  destruct Hobs as (Hl & Hf & Hd).
  assert (Hpre : trace_ok c c2 []) by (apply trace_ok_same; congruence).
  clearbody c2.
  pose proof (finalize_previous_frame_cases c2 env) as Hfin. cbv zeta in Hfin.
  destruct (finalize_previous_frame c2 env) as [c3 evs]. cbn [fst snd] in *.
  apply (trace_ok_trans c c2 _ [] _ Hpre).
  destruct Hfin as [(Hok & Hcur & _) | Hdrop].
  - apply (trace_ok_trans c2 c3 _ evs _ Hok).
    unfold trace_ok. cbn. auto.
  - injection Hdrop as -> ->.
    assert (Hfn : (fn =? frame_num (current_frame c2)) = false)
      by (apply Z.eqb_neq; congruence).
    unfold trace_ok. cbn. rewrite Z.eqb_refl. cbn. rewrite Hfn. auto.
Qed.

Lemma complete_if_ready_trace (c : source) (env : step_env) :
  trace_ok c (fst (complete_if_ready c env)) (snd (complete_if_ready c env)).
Proof.
  unfold complete_if_ready.
  destruct (is_frame_complete (current_frame c)); [|apply trace_ok_same; reflexivity].
  destruct (frame_lock_ok_complete env).
  - pose proof (deliver_completed_frame_trace InFramePath c (t_capture env)
                  (t_latency_complete env)) as (Hok & Hcur & _).
    destruct (deliver_completed_frame InFramePath c (t_capture env) (t_latency_complete env))
      as [c1 evs]. cbn [fst snd] in *.
    apply (trace_ok_trans c c1 _ evs _ Hok).
    unfold trace_ok. cbn. auto.
  - cbn. unfold trace_ok. cbn. auto.
Qed.

Lemma accumulate_packet_obs (c : source) (last : bool) (idx line lpp : Z) (payload : list Z) :
  let c' := accumulate_packet c last idx line lpp payload in
  last_completed_frame c' = last_completed_frame c
  /\ frame_num (current_frame c') = frame_num (current_frame c)
  /\ start_time (current_frame c') = start_time (current_frame c)
  /\ frame_drops c' = frame_drops c.
Proof.
  cbv zeta. unfold accumulate_packet.
  destruct (note_last_packet_slots
              (set_current_frame (store_packet (current_frame c) idx line lpp payload) c)
              last idx line lpp) as (_ & _ & Hn & Hs).
  rewrite Hn, Hs. cbn [current_frame set_current_frame].
  destruct (store_packet_frame (current_frame c) idx line lpp payload) as (-> & -> & _).
  unfold note_last_packet.
  destruct (last && _);
    rewrite ?detect_format_last_completed, ?detect_format_frame_drops; auto.
Qed.

Lemma add_packet_trace (c : source) (last : bool) (line lpp : Z) (payload : list Z)
    (env : step_env) :
  trace_ok c (fst (add_packet c last line lpp payload env))
    (snd (add_packet c last line lpp payload env)).
Proof.
  unfold add_packet. cbv zeta.
  destruct (u16 (line / lpp) <? C64U_MAX_PACKETS_PER_FRAME);
    [|apply trace_ok_same; reflexivity].
  destruct (accumulate_packet_obs c last (u16 (line / lpp)) line lpp payload)
    as (Hl & Hf & _ & Hd).
  apply (trace_ok_trans c _ _ [] _ (trace_ok_same c _ Hl Hf Hd)).
  apply complete_if_ready_trace.
Qed.

Lemma process_packet_trace (c : source) (h : video_header) (payload : list Z)
    (env : step_env) :
  trace_ok c (fst (process_packet c h payload env)) (snd (process_packet c h payload env)).
Proof.
  unfold process_packet. cbv zeta.
  destruct (negb (frame_num (current_frame c) =? hdr_frame_num h)) eqn:Hnew.
  - apply negb_true_iff, Z.eqb_neq in Hnew.
    pose proof (start_new_frame_trace c (hdr_frame_num h) env Hnew) as H1.
    destruct (start_new_frame c (hdr_frame_num h) env) as [c1 evs1]. cbn [fst snd] in H1.
    pose proof (add_packet_trace c1 (negb (Z.land (hdr_line_num h) 32768 =? 0))
                  (Z.land (hdr_line_num h) 32767) (hdr_lines_per_packet h) payload env) as H2.
    destruct (add_packet c1 _ _ _ payload env) as [c2 evs2]. cbn [fst snd] in *.
    apply (trace_ok_trans _ _ _ _ _ H1 H2).
  - pose proof (add_packet_trace c (negb (Z.land (hdr_line_num h) 32768 =? 0))
                  (Z.land (hdr_line_num h) 32767) (hdr_lines_per_packet h) payload env) as H2.
    destruct (add_packet c _ _ _ payload env) as [c2 evs2]. cbn [fst snd] in *.
    exact H2.
Qed.

Lemma update_video_statistics_obs (st : video_statics) (c : source) (h : video_header)
    (n now : Z) :
  let c' := snd (update_video_statistics st c h n now) in
  last_completed_frame c' = last_completed_frame c
  /\ current_frame c' = current_frame c
  /\ frame_drops c' = frame_drops c.
Proof.
  cbv zeta. unfold update_video_statistics. cbv zeta.
  destruct (5000000000 <=? _); cbn; auto.
Qed.

(** One iteration keeps the guard and the drop discipline, whether the
    loop goes on or ends. *)
Lemma video_thread_iteration_trace (st : video_statics) (c : source) (r : recv_result)
    (env : step_env) :
  let out := video_thread_iteration st c r env in
  match fst out with
  | LoopContinue (_, c') | LoopBreak (_, c') => trace_ok c c' (snd out)
  end.
Proof.
  cbv zeta. unfold video_thread_iteration.
  destruct r as [ | | datagram]; cbn [fst snd]; try (apply trace_ok_same; reflexivity).
  set (packet := recv_into_buffer datagram). clearbody packet.
  destruct (negb (Z.of_nat (length packet) =? C64U_VIDEO_PACKET_SIZE));
    cbn [fst snd]; [apply trace_ok_same; reflexivity|].
  cbv zeta.
  pose proof (update_video_statistics_obs
                (mk_statics (packet_count st + 1) (last_video_log st) (video_bytes_period st)
                   (video_packets_period st) (last_video_seq st) (video_drops st)
                   (video_frames st) (first_video st))
                c (parse_header packet) (Z.of_nat (length packet)) (t_stats env))
    as (Hl & Hf & Hd).
  destruct (update_video_statistics _ c (parse_header packet) _ (t_stats env)) as [st1 c1].
  cbn [snd] in Hl, Hf, Hd.
  assert (Hpre : trace_ok c c1 []) by (apply trace_ok_same; congruence).
  destruct (negb (valid_packet_format (parse_header packet))); cbn [fst snd]; [exact Hpre|].
  destruct (assembly_lock_ok env); cbn [fst snd]; [|exact Hpre].
  pose proof (process_packet_trace c1 (parse_header packet)
                (drop (Z.to_nat C64U_VIDEO_HEADER_SIZE) packet) env) as Hp.
  destruct (process_packet c1 (parse_header packet) _ env) as [c2 evs]. cbn [fst snd] in *.
  apply (trace_ok_trans c c1 c2 [] evs Hpre Hp).
Qed.

Lemma thread_run_trace (inputs : list (recv_result * step_env)) :
  forall (st : video_statics) (c : source),
    trace_ok c (snd (fst (thread_run st c inputs))) (snd (thread_run st c inputs)).
Proof.
  induction inputs as [|[r env] inputs IH]; intros st c.
  - cbn. apply trace_ok_same; reflexivity.
  - cbn [thread_run].
    pose proof (video_thread_iteration_trace st c r env) as Hit. cbv zeta in Hit.
    destruct (video_thread_iteration st c r env) as [[[st1 c1] | [st1 c1]] evs1];
      cbn [fst snd] in Hit.
    + specialize (IH st1 c1).
      destruct (thread_run st1 c1 inputs) as [[st2 c2] evs2]. cbn [fst snd] in *.
      apply (trace_ok_trans _ _ _ _ _ Hit IH).
    + cbn. exact Hit.
Qed.

(** C2, as the code has it.  In every run of the receive loop the
    assemble-and-swap action is never performed twice in a row for the same
    frame number: starting from [last_completed_frame], each frame number
    assembled differs from the one assembled just before it, and
    [last_completed_frame] ends as the last frame number assembled.  On both
    paths the guarded block is skipped when [last_completed_frame] equals the
    current frame number, and otherwise runs and sets [last_completed_frame]
    to that frame number. *)
Theorem assemble_guarded_by_last_completed :
  (forall (st : video_statics) (context : source) (inputs : list (recv_result * step_env)),
      let r := thread_run st context inputs in
      assemble_guard (last_completed_frame context) (snd r)
      = Some (last_completed_frame (snd (fst r)))
      /\ adjacent_distinct (last_completed_frame context :: assembled_frames (snd r)) = true)
  /\ (forall (path : completion_path) (context : source) (capture_time latency_now : Z),
        let r := deliver_completed_frame path context capture_time latency_now in
        if last_completed_frame context =? frame_num (current_frame context)
        then r = (context, [])
        else snd r = [EvAssembleSwap path (frame_num (current_frame context))]
             /\ last_completed_frame (fst r) = frame_num (current_frame context)).
Proof.
  split.
  - intros st context inputs r.
    destruct (thread_run_trace inputs st context) as (Hg & _ & _).
    split; [exact Hg|]. apply (assemble_guard_adjacent _ _ _ Hg).
  - intros path context cap lat.
    pose proof (deliver_completed_frame_cases path context cap lat) as H. cbv zeta in *.
    destruct (last_completed_frame context =? frame_num (current_frame context));
      [exact H | destruct H as (H1 & H2 & _); auto].
Qed.


End RunProperties.

(* ===================================================================== *)
(** * What stays true along a run *)
(* ===================================================================== *)

Section WellFormedRuns.
Context {D : Type} {dops : DoubleOps D} {K : Protocol}.

#[local] Abbreviation source := (c64u_source D).

Lemma init_frame_assembly_wf (fn now : Z) :
  0 <= C64U_MAX_PACKETS_PER_FRAME -> frame_wf (init_frame_assembly fn now).
Proof. intros H. exact (zero_frame_assembly_wf H). Qed.

Lemma accumulate_packet_wf (c : source) (last : bool) (idx line lpp : Z) (payload : list Z) :
  C64U_MAX_PACKETS_PER_FRAME <= 65535 ->
  frame_wf (current_frame c) ->
  frame_wf (current_frame (accumulate_packet c last idx line lpp payload)).
Proof.
  intros Hmax Hwf. unfold accumulate_packet.
  destruct (note_last_packet_slots
              (set_current_frame (store_packet (current_frame c) idx line lpp payload) c)
              last idx line lpp) as (Hp & Hr & _).
  pose proof (store_packet_wf (current_frame c) idx line lpp payload Hwf Hmax) as [Hlen Hcnt].
  unfold frame_wf. rewrite Hp, Hr. cbn [current_frame set_current_frame].
  split; assumption.
Qed.

Lemma complete_if_ready_wf (c : source) (env : step_env) :
  0 <= C64U_MAX_PACKETS_PER_FRAME ->
  frame_wf (current_frame c) ->
  frame_wf (current_frame (fst (complete_if_ready c env))).
Proof.
  intros Hmax Hwf. unfold complete_if_ready.
  destruct (is_frame_complete (current_frame c)); [|exact Hwf].
  destruct (frame_lock_ok_complete env);
    [destruct (deliver_completed_frame InFramePath c (t_capture env) (t_latency_complete env))|];
    apply (init_frame_assembly_wf 0 (t_reset env) Hmax).
Qed.

Lemma process_packet_wf (c : source) (h : video_header) (payload : list Z) (env : step_env) :
  0 <= C64U_MAX_PACKETS_PER_FRAME <= 65535 ->
  frame_wf (current_frame c) ->
  frame_wf (current_frame (fst (process_packet c h payload env))).
Proof.
  intros Hmax Hwf. unfold process_packet. cbv zeta.
  assert (Hadd : forall c1 : source,
             frame_wf (current_frame c1) ->
             frame_wf (current_frame
                         (fst (add_packet c1 (negb (Z.land (hdr_line_num h) 32768 =? 0))
                                 (Z.land (hdr_line_num h) 32767) (hdr_lines_per_packet h)
                                 payload env)))).
  { intros c1 H1. unfold add_packet. cbv zeta.
    destruct (_ <? C64U_MAX_PACKETS_PER_FRAME); [|exact H1].
    apply complete_if_ready_wf; [lia|].
    apply accumulate_packet_wf; [lia | exact H1]. }
  destruct (negb (frame_num (current_frame c) =? hdr_frame_num h)).
  - pose proof (start_new_frame_table c (hdr_frame_num h) env) as Hnew.
    destruct (start_new_frame c (hdr_frame_num h) env) as [c1 evs1]. cbn [fst] in Hnew.
    specialize (Hadd c1). rewrite Hnew in Hadd.
    specialize (Hadd (init_frame_assembly_wf _ _ ltac:(lia))).
    destruct (add_packet c1 _ _ _ payload env) as [c2 evs2]. exact Hadd.
  - specialize (Hadd c Hwf).
    destruct (add_packet c _ _ _ payload env) as [c2 evs2]. exact Hadd.
Qed.

Lemma detect_format_height (c : source) (h : Z) :
  height_is_detected c -> height_is_detected (detect_format c h).
Proof.
  unfold height_is_detected, detect_format. intros Hinv.
  destruct (negb (format_detected c) || negb (detected_frame_height c =? h)) eqn:Hg;
    [|exact Hinv].
  intros _.
  repeat match goal with
         | |- context [if ?b then _ else _] => destruct b eqn:?
         end; cbn;
    repeat match goal with
           | H : negb (_ =? _) = false |- _ => apply negb_false_iff, Z.eqb_eq in H; cbn in H
           end; congruence.
Qed.

Lemma deliver_completed_frame_format (path : completion_path) (c : source) (cap lat : Z) :
  let c' := fst (deliver_completed_frame path c cap lat) in
  format_detected c' = format_detected c
  /\ height c' = height c
  /\ detected_frame_height c' = detected_frame_height c.
Proof.
  cbv zeta. unfold deliver_completed_frame.
  destruct (negb (last_completed_frame c =? frame_num (current_frame c))); cbn; auto.
Qed.

Lemma process_packet_height (c : source) (h : video_header) (payload : list Z)
    (env : step_env) :
  height_is_detected c -> height_is_detected (fst (process_packet c h payload env)).
Proof.
  assert (Hsame : forall c1 c2 : source,
             format_detected c2 = format_detected c1 ->
             height c2 = height c1 ->
             detected_frame_height c2 = detected_frame_height c1 ->
             height_is_detected c1 -> height_is_detected c2).
  { unfold height_is_detected. intros c1 c2 H1 H2 H3 Hinv. rewrite H1, H2, H3. exact Hinv. }
  assert (Hnew : forall c1 : source,
             height_is_detected c1 ->
             height_is_detected (fst (start_new_frame c1 (hdr_frame_num h) env))).
  { intros c1 H1. unfold start_new_frame. cbv zeta.
    set (c2 := set_last_capture_time _ _).
    assert (H2 : height_is_detected c2).
    { subst c2. destruct (0 <? last_capture_time c1); exact H1. }
    clearbody c2.
    assert (H3 : height_is_detected (fst (finalize_previous_frame c2 env))).
    { unfold finalize_previous_frame.
      repeat match goal with
             | |- context [if ?b then _ else _] => destruct b
             end; try exact H2.
      destruct (deliver_completed_frame_format PreemptPath c2 (t_capture env)
                  (t_latency_preempt env)) as (Ha & Hb & Hc).
      apply (Hsame c2 _ Ha Hb Hc H2). }
    destruct (finalize_previous_frame c2 env) as [c3 evs]. exact H3. }
  assert (Hadd : forall c1 : source,
             height_is_detected c1 ->
             height_is_detected
               (fst (add_packet c1 (negb (Z.land (hdr_line_num h) 32768 =? 0))
                       (Z.land (hdr_line_num h) 32767) (hdr_lines_per_packet h)
                       payload env))).
  { intros c1 H1. unfold add_packet. cbv zeta.
    destruct (_ <? C64U_MAX_PACKETS_PER_FRAME); [|exact H1].
    set (c2 := accumulate_packet c1 _ _ _ _ payload).
    assert (H2 : height_is_detected c2).
    { subst c2. unfold accumulate_packet, note_last_packet.
      destruct (_ && _); [|exact H1]. cbv zeta. apply detect_format_height. exact H1. }
    clearbody c2. unfold complete_if_ready.
    destruct (is_frame_complete (current_frame c2)); [|exact H2].
    destruct (frame_lock_ok_complete env); [|exact H2].
    destruct (deliver_completed_frame_format InFramePath c2 (t_capture env)
                (t_latency_complete env)) as (Ha & Hb & Hc).
    destruct (deliver_completed_frame InFramePath c2 (t_capture env) (t_latency_complete env))
      as [c3 evs]. cbn [fst] in *.
    apply (Hsame c2 _ Ha Hb Hc H2). }
  intros Hinv. unfold process_packet. cbv zeta.
  destruct (negb (frame_num (current_frame c) =? hdr_frame_num h)).
  - specialize (Hnew c Hinv).
    destruct (start_new_frame c (hdr_frame_num h) env) as [c1 evs1]. cbn [fst] in Hnew.
    specialize (Hadd c1 Hnew).
    destruct (add_packet c1 _ _ _ payload env) as [c2 evs2]. exact Hadd.
  - specialize (Hadd c Hinv).
    destruct (add_packet c _ _ _ payload env) as [c2 evs2]. exact Hadd.
Qed.

(** From a well-formed table, and so from the table of a created or
    stopped source, every run of the receive loop reaches well-formed tables
    only. *)
Lemma thread_run_wf (inputs : list (recv_result * step_env)) :
  0 <= C64U_MAX_PACKETS_PER_FRAME <= 65535 ->
  forall (st : video_statics) (c : source),
    frame_wf (current_frame c) ->
    frame_wf (current_frame (snd (fst (thread_run st c inputs)))).
Proof.
  intros Hmax. induction inputs as [|[r env] inputs IH]; intros st c Hwf; [exact Hwf|].
  cbn [thread_run].
  assert (Hit : match fst (video_thread_iteration st c r env) with
                | LoopContinue (_, c') | LoopBreak (_, c') => frame_wf (current_frame c')
                end).
  { unfold video_thread_iteration.
    destruct r as [ | | datagram]; cbn [fst]; try exact Hwf.
    set (packet := recv_into_buffer datagram). clearbody packet.
    destruct (negb (Z.of_nat (length packet) =? C64U_VIDEO_PACKET_SIZE));
      cbn [fst]; [exact Hwf|].
    cbv zeta.
    pose proof (update_video_statistics_obs
                  (mk_statics (packet_count st + 1) (last_video_log st)
                     (video_bytes_period st) (video_packets_period st) (last_video_seq st)
                     (video_drops st) (video_frames st) (first_video st))
                  c (parse_header packet) (Z.of_nat (length packet)) (t_stats env))
      as (_ & Hf & _).
    destruct (update_video_statistics _ c (parse_header packet) _ (t_stats env)) as [st1 c1].
    cbn [snd] in Hf.
    assert (Hwf1 : frame_wf (current_frame c1)) by (rewrite Hf; exact Hwf).
    destruct (negb (valid_packet_format (parse_header packet))); cbn [fst]; [exact Hwf1|].
    destruct (assembly_lock_ok env); cbn [fst]; [|exact Hwf1].
    pose proof (process_packet_wf c1 (parse_header packet)
                  (drop (Z.to_nat C64U_VIDEO_HEADER_SIZE) packet) env Hmax Hwf1) as Hp.
    destruct (process_packet c1 (parse_header packet) _ env) as [c2 evs]. exact Hp. }
  destruct (video_thread_iteration st c r env) as [[[st1 c1] | [st1 c1]] evs1];
    cbn [fst] in Hit.
  - specialize (IH st1 c1 Hit).
    destruct (thread_run st1 c1 inputs) as [[st2 c2] evs2]. exact IH.
  - exact Hit.
Qed.

Lemma thread_run_height (inputs : list (recv_result * step_env)) :
  forall (st : video_statics) (c : source),
    height_is_detected c ->
    height_is_detected (snd (fst (thread_run st c inputs))).
Proof.
  induction inputs as [|[r env] inputs IH]; intros st c Hinv; [exact Hinv|].
  cbn [thread_run].
  assert (Hit : match fst (video_thread_iteration st c r env) with
                | LoopContinue (_, c') | LoopBreak (_, c') => height_is_detected c'
                end).
  { unfold video_thread_iteration.
    destruct r as [ | | datagram]; cbn [fst]; try exact Hinv.
    set (packet := recv_into_buffer datagram). clearbody packet.
    destruct (negb (Z.of_nat (length packet) =? C64U_VIDEO_PACKET_SIZE));
      cbn [fst]; [exact Hinv|].
    cbv zeta.
    assert (Hst : forall st0 : video_statics,
               height_is_detected
                 (snd (update_video_statistics st0 c (parse_header packet)
                         (Z.of_nat (length packet)) (t_stats env)))).
    { intros st0. unfold update_video_statistics. cbv zeta.
      destruct (5000000000 <=? _); exact Hinv. }
    specialize (Hst (mk_statics (packet_count st + 1) (last_video_log st)
                       (video_bytes_period st) (video_packets_period st) (last_video_seq st)
                       (video_drops st) (video_frames st) (first_video st))).
    destruct (update_video_statistics _ c (parse_header packet) _ (t_stats env)) as [st1 c1].
    cbn [snd] in Hst.
    destruct (negb (valid_packet_format (parse_header packet))); cbn [fst]; [exact Hst|].
    destruct (assembly_lock_ok env); cbn [fst]; [|exact Hst].
    pose proof (process_packet_height c1 (parse_header packet)
                  (drop (Z.to_nat C64U_VIDEO_HEADER_SIZE) packet) env Hst) as Hp.
    destruct (process_packet c1 (parse_header packet) _ env) as [c2 evs]. exact Hp. }
  destruct (video_thread_iteration st c r env) as [[[st1 c1] | [st1 c1]] evs1];
    cbn [fst] in Hit.
  - specialize (IH st1 c1 Hit).
    destruct (thread_run st1 c1 inputs) as [[st2 c2] evs2]. exact IH.
  - exact Hit.
Qed.

Lemma created_context_wf (front_mem back_mem : pixbuf) :
  0 <= C64U_MAX_PACKETS_PER_FRAME ->
  frame_wf (current_frame (created_context front_mem back_mem)).
Proof. intros H. exact (zero_frame_assembly_wf H). Qed.

End WellFormedRuns.

(* ===================================================================== *)
(** * Reset after completion, and stop *)
(* ===================================================================== *)

Section Reset.
Context {D : Type} {dops : DoubleOps D} {K : Protocol}.

#[local] Abbreviation source := (c64u_source D).

(** A packet stored in a table that was just initialised. *)
Lemma accumulate_packet_fresh_table (c : source) (n t : Z) (last : bool)
    (idx line lpp : Z) (payload : list Z) :
  current_frame c = init_frame_assembly n t ->
  0 <= idx < C64U_MAX_PACKETS_PER_FRAME ->
  current_frame (accumulate_packet c last idx line lpp payload)
  = mk_frame_assembly n t
      (<[Z.to_nat idx :=
           mk_frame_packet line lpp true (take (Z.to_nat payload_size) payload)]>
         (replicate (Z.to_nat C64U_MAX_PACKETS_PER_FRAME) zero_frame_packet))
      1 (if last then u16 (idx + 1) else 0).
Proof.
  intros Hcur Hidx. unfold accumulate_packet, note_last_packet.
  cbn [current_frame set_current_frame]. rewrite Hcur.
  unfold store_packet, init_frame_assembly, zero_frame_assembly. cbn [packets].
  rewrite lookup_replicate_2 by lia.
  cbn [received zero_frame_packet frame_num start_time received_packets expected_packets].
  change (0 =? 0) with true. rewrite andb_true_r.
  destruct last; [|reflexivity].
  cbv zeta. rewrite detect_format_current_frame. reflexivity.
Qed.

(** C10.  When the in-frame check finds the frame complete, the table is
    re-initialised for frame number 0 with the reset instant as start time.
    The next packet then takes the new-frame branch exactly when its frame
    number is not 0, and that branch has nothing to finalise: its first event
    is the start of the new table.  A packet of frame number 0 is added to
    the reset table directly, and the table keeps the reset instant as its
    start time: with an index within the capacity, the table after the packet
    is the reset table with this one packet in its slot, [received_packets] 1
    and the reset instant as start time (unless that packet alone completes
    the frame, which resets the table again); with an index beyond the
    capacity nothing changes.  Nothing is finalised on the way: no new frame
    is started, no frame is dropped and the new-frame branch assembles
    nothing. *)
Theorem reset_after_completion (context : source) (env : step_env) :
  is_frame_complete (current_frame context) = true ->
  let context' := fst (complete_if_ready context env) in
  current_frame context' = init_frame_assembly 0 (t_reset env)
  /\ frame_num (current_frame context') = 0
  /\ start_time (current_frame context') = t_reset env
  /\ (forall (h : video_header) (payload : list Z) (env' : step_env),
        let last_packet := negb (Z.land (hdr_line_num h) 0x8000 =? 0) in
        let line_num' := Z.land (hdr_line_num h) 0x7FFF in
        let packet_index := u16 (line_num' / hdr_lines_per_packet h) in
        if hdr_frame_num h =? 0
        then
          process_packet context' h payload env'
          = add_packet context' last_packet line_num' (hdr_lines_per_packet h) payload env'
          /\ start_time
               (current_frame
                  (accumulate_packet context' last_packet packet_index line_num'
                     (hdr_lines_per_packet h) payload))
             = t_reset env
          /\ (C64U_MAX_PACKETS_PER_FRAME <= packet_index ->
              process_packet context' h payload env' = (context', []))
          /\ (packet_index < C64U_MAX_PACKETS_PER_FRAME ->
              let stored :=
                mk_frame_assembly 0 (t_reset env)
                  (<[Z.to_nat packet_index :=
                       mk_frame_packet line_num' (hdr_lines_per_packet h) true
                         (take (Z.to_nat payload_size) payload)]>
                     (replicate (Z.to_nat C64U_MAX_PACKETS_PER_FRAME) zero_frame_packet))
                  1 (if last_packet then u16 (packet_index + 1) else 0) in
              current_frame (fst (process_packet context' h payload env'))
              = if is_frame_complete stored
                then init_frame_assembly 0 (t_reset env') else stored)
          /\ Forall (fun e : video_event =>
                       match e with
                       | EvAssembleSwap InFramePath _ | EvFrameReset _ => True
                       | _ => False
                       end)
               (snd (process_packet context' h payload env'))
        else
          exists rest : list video_event,
            snd (process_packet context' h payload env')
            = EvNewFrame 0 (hdr_frame_num h) :: rest).
Proof.
  intros Hc. cbv zeta.
  assert (Hcur : current_frame (fst (complete_if_ready context env))
                 = init_frame_assembly 0 (t_reset env)).
  { unfold complete_if_ready. rewrite Hc.
    destruct (frame_lock_ok_complete env); [|reflexivity].
    destruct (deliver_completed_frame InFramePath context (t_capture env)
                (t_latency_complete env)); reflexivity. }
  set (c' := fst (complete_if_ready context env)) in *. clearbody c'.
  split; [exact Hcur|]. split; [rewrite Hcur; reflexivity|].
  split; [rewrite Hcur; reflexivity|].
  intros h payload env'.
  destruct (hdr_frame_num h =? 0) eqn:Hfn.
  - apply Z.eqb_eq in Hfn.
    assert (Hpp : process_packet c' h payload env'
                  = add_packet c' (negb (Z.land (hdr_line_num h) 32768 =? 0))
                      (Z.land (hdr_line_num h) 32767) (hdr_lines_per_packet h) payload env').
    { unfold process_packet. cbv zeta. rewrite Hcur, Hfn. cbn [frame_num init_frame_assembly].
      cbn [Z.eqb negb].
      destruct (add_packet c' _ _ _ payload env'); reflexivity. }
    set (idx := u16 (Z.land (hdr_line_num h) 32767 / hdr_lines_per_packet h)).
    assert (Hidx : 0 <= idx) by (apply (wrap_range 16); lia).
    split; [exact Hpp|]. split.
    { destruct (accumulate_packet_obs c' (negb (Z.land (hdr_line_num h) 32768 =? 0))
                  idx (Z.land (hdr_line_num h) 32767) (hdr_lines_per_packet h) payload)
        as (_ & _ & Hs & _).
      rewrite Hs, Hcur. reflexivity. }
    split.
    { intros Hge. rewrite Hpp. unfold add_packet. fold idx.
      assert (Hlt : (idx <? C64U_MAX_PACKETS_PER_FRAME) = false) by (apply Z.ltb_ge; lia).
      rewrite Hlt. reflexivity. }
    split.
    { intros Hlt. rewrite Hpp. unfold add_packet. fold idx.
      assert (Hlt' : (idx <? C64U_MAX_PACKETS_PER_FRAME) = true) by (apply Z.ltb_lt; lia).
      rewrite Hlt', complete_if_ready_table.
      rewrite (accumulate_packet_fresh_table c' 0 (t_reset env) _ idx _ _ payload Hcur)
        by lia.
      reflexivity. }
    rewrite Hpp. unfold add_packet. fold idx.
    destruct (idx <? C64U_MAX_PACKETS_PER_FRAME); [|constructor].
    set (c2 := accumulate_packet c' _ idx _ _ payload). clearbody c2.
    unfold complete_if_ready.
    destruct (is_frame_complete (current_frame c2)); [|constructor].
    destruct (frame_lock_ok_complete env'); [|repeat constructor].
    unfold deliver_completed_frame.
    destruct (negb (last_completed_frame c2 =? frame_num (current_frame c2)));
      cbn [snd app]; repeat constructor.
  - unfold process_packet. cbv zeta. rewrite Hcur. cbn [frame_num init_frame_assembly].
    rewrite Z.eqb_sym, Hfn. cbn [negb].
    assert (Hstart : snd (start_new_frame c' (hdr_frame_num h) env')
                     = [EvNewFrame 0 (hdr_frame_num h)]).
    { unfold start_new_frame. cbv zeta.
      assert (Hfin : forall c2 : source,
                 current_frame c2 = current_frame c' ->
                 finalize_previous_frame c2 env' = (c2, [])).
      { intros c2 H2. unfold finalize_previous_frame. rewrite H2, Hcur. reflexivity. }
      rewrite Hfin; [rewrite Hcur; reflexivity|].
      destruct (0 <? last_capture_time c'); reflexivity. }
    destruct (start_new_frame c' (hdr_frame_num h) env') as [c1 evs1]. cbn [snd] in Hstart.
    destruct (add_packet c1 _ _ _ payload env') as [c2 evs2].
    exists evs2. cbn [snd]. rewrite Hstart. reflexivity.
Qed.

(** C9, as the code has it.  After [c64u_stop_streaming] returns on a
    streaming source, with both mutexes acquired: the delivered, completed,
    expected, captured and dropped counters of the context read zero; both
    pixel buffers are zero over the [width * height] pixels of the current
    frame size, and were zeroed between the acquisition and the release of
    the frame mutex; [frame_ready] is cleared, the frame-assembly state and
    [last_completed_frame] are reset under the assembly mutex.  The timing
    engine, with its delivered, dropped and duplicated counters, is not
    touched. *)
Theorem stop_streaming_resets (context : source) :
  streaming context = true ->
  let r := c64u_stop_streaming context true true in
  let context' := fst r in
  let frame_size := frame_size_pixels (width context) (height context) in
  (frames_delivered_to_obs context' = 0 /\ frames_completed context' = 0
   /\ frames_expected context' = 0 /\ frames_captured context' = 0
   /\ frame_drops context' = 0 /\ packet_drops context' = 0)
  /\ (forall i : Z, 0 <= i < frame_size ->
                    frame_buffer_front context' i = 0 /\ frame_buffer_back context' i = 0)
  /\ snd r = [Locked FrameMutex; ZeroedFront frame_size; ZeroedBack frame_size;
              Unlocked FrameMutex;
              Locked AssemblyMutex; AssemblyCleared; Unlocked AssemblyMutex]
  /\ (frame_ready context' = false /\ buffer_swap_pending context' = false
      /\ current_frame context' = zero_frame_assembly
      /\ last_completed_frame context' = 0
      /\ streaming context' = false)
  /\ timing context' = timing context.
Proof.
  intros Hs. cbv zeta. unfold c64u_stop_streaming. rewrite Hs. cbn.
  split; [auto 10|]. split; [|auto 10].
  intros i Hi. unfold memset_zero.
  assert (Hin : (0 <=? i) && (i <? frame_size_pixels (width context) (height context)) = true).
  { apply andb_true_iff. split; [apply Z.leb_le | apply Z.ltb_lt]; lia. }
  rewrite Hin. auto.
Qed.

End Reset.

(* ===================================================================== *)
(** * The properties on sample inputs *)
(* ===================================================================== *)

(** The sample source with one packet of [0x21] bytes in slot 0: byte 5 of
    row 1 gives white (colour 1) at column 10 and red (colour 2) at column 11
    of row 1. *)
Lemma assemble_frame_pixels_witness :
  let context' :=
    assemble_frame_to_buffer (K := sample_protocol) one_packet_source
      (current_frame one_packet_source) in
  frame_buffer_back context' (1 * 384 + 5 * 2) = 0xFFEFEFEF
  /\ frame_buffer_back context' (1 * 384 + (5 * 2 + 1)) = 0xFF342F8D.
Proof.
  cbv zeta.
  assert (Hi : Z.of_nat 0 < C64U_MAX_PACKETS_PER_FRAME (Protocol := sample_protocol))
    by (vm_compute; reflexivity).
  assert (Hp : packets (current_frame one_packet_source) !! 0%nat
               = Some (mk_frame_packet 0 4 true (sample_payload 0x21)))
    by (vm_compute; reflexivity).
  assert (Hline : 0 <= 1 < 4) by lia.
  assert (Hh : 0 + 1 < height one_packet_source) by (vm_compute; reflexivity).
  assert (Hx : 0 <= 5 < C64U_BYTES_PER_LINE) by (unfold C64U_BYTES_PER_LINE; lia).
  assert (Hclear : later_slots_clear (packets (current_frame one_packet_source)) 0 (0 + 1) = true)
    by (vm_compute; reflexivity).
  pose proof (assemble_frame_pixels (K := sample_protocol) one_packet_source
                (current_frame one_packet_source) 0
                (mk_frame_packet 0 4 true (sample_payload 0x21)) 1 5
                Hi Hp eq_refl Hline Hh Hx) as H.
  cbv zeta in H. destruct H as (_ & _ & H & _).
  destruct (H Hclear) as [H1 H2].
  split; [exact H1 | exact H2].
Defined.

(** A free slot of the fresh table of the sample source takes the packet of
    line 8 (index 2); the counter goes from 0 to 1, and this is the table
    after the arrival of the packet with that header. *)
Lemma slot_update_first_writer_wins_witness :
  let f' :=
    current_frame
      (accumulate_packet (K := sample_protocol) sample_source false 2 8 4 (sample_payload 7)) in
  let f'' :=
    current_frame
      (fst (process_packet (K := sample_protocol) sample_source (sample_header 0 0 8 false)
              (sample_payload 7) (env_at 0))) in
  packets f' !! 2%nat = Some (mk_frame_packet 8 4 true (sample_payload 7))
  /\ received_packets f' = 0 + 1
  /\ f'' = f'.
Proof.
  cbv zeta.
  assert (Hwf : frame_wf (K := sample_protocol) (current_frame sample_source))
    by (split; vm_compute; reflexivity).
  assert (Hmax : C64U_MAX_PACKETS_PER_FRAME (Protocol := sample_protocol) <= 65535)
    by (cbn; lia).
  assert (Hnc : is_frame_complete
                  (current_frame
                     (accumulate_packet (K := sample_protocol) sample_source false 2 8 4
                        (sample_payload 7))) = false)
    by (vm_compute; reflexivity).
  destruct (slot_update_first_writer_wins (K := sample_protocol) sample_source false 8 4
              (sample_payload 7) (env_at 0) Hwf Hmax) as (_ & Hin & Hpkt).
  destruct Hin as (fp & Hfp & Hcase); [vm_compute; reflexivity|].
  assert (Hfree : received fp = false).
  { assert (Hz : Some fp = Some (zero_frame_packet (K := sample_protocol)))
      by (rewrite <- Hfp; vm_compute; reflexivity).
    injection Hz as ->. reflexivity. }
  rewrite Hfree in Hcase. destruct Hcase as (_ & Hslot & _ & Hcount).
  split; [exact Hslot|]. split; [exact Hcount|].
  destruct (Hpkt (sample_header 0 0 8 false) eq_refl eq_refl eq_refl eq_refl) as [_ Htab].
  destruct Htab as (_ & _ & _ & Htab); [vm_compute; reflexivity|].
  cbv zeta in Htab. rewrite Htab.
  change (u16 (8 / 4)) with 2. rewrite Hnc. reflexivity.
Defined.


(** The one-packet frame of [one_packet_source] is complete; the check
    resets the table to frame number 0 with the reset instant 7 as start.  A
    packet of frame number 0 arriving at instant 9 is stored in that table,
    which keeps 7 as its start time. *)
Lemma reset_after_completion_witness :
  let context' :=
    fst (complete_if_ready (K := sample_protocol) one_packet_source (env_at 7)) in
  let f :=
    current_frame
      (fst (process_packet (K := sample_protocol) context' (sample_header 1 0 8 false)
              (sample_payload 0x21) (env_at 9))) in
  frame_num (current_frame context') = 0 /\ start_time (current_frame context') = 7
  /\ frame_num f = 0 /\ start_time f = 7 /\ received_packets f = 1
  /\ packets f !! 2%nat = Some (mk_frame_packet 8 4 true (sample_payload 0x21)).
Proof.
  cbv zeta.
  assert (Hc : is_frame_complete (current_frame one_packet_source) = true)
    by (vm_compute; reflexivity).
  destruct (reset_after_completion (K := sample_protocol) one_packet_source (env_at 7) Hc)
    as (_ & Hn & Hs & Hnext).
  split; [exact Hn|]. split; [exact Hs|].
  specialize (Hnext (sample_header 1 0 8 false) (sample_payload 0x21) (env_at 9)).
  cbv zeta in Hnext.
  change (hdr_frame_num (sample_header 1 0 8 false) =? 0) with true in Hnext.
  destruct Hnext as (_ & _ & _ & Htab & _).
  lapply Htab; [clear Htab; intros Htab | vm_compute; reflexivity].
  rewrite Htab. vm_compute. repeat split; reflexivity.
Defined.

(** Stopping [rendered_source]: the context counters and the first pixel
    of the front buffer read zero. *)
Lemma stop_streaming_resets_witness :
  let context' := fst (c64u_stop_streaming (K := sample_protocol) rendered_source true true) in
  frames_delivered_to_obs context' = 0 /\ frame_buffer_front context' 0 = 0.
Proof.
  cbv zeta.
  assert (Hs : streaming rendered_source = true) by (vm_compute; reflexivity).
  assert (Hi : 0 <= 0 < frame_size_pixels (width rendered_source) (height rendered_source))
    by (vm_compute; split; [discriminate | reflexivity]).
  pose proof (stop_streaming_resets (K := sample_protocol) rendered_source Hs) as H.
  cbv zeta in H. destruct H as ((Hd & _) & Hbuf & _).
  destruct (Hbuf 0 Hi) as [Hf _].
  split; [exact Hd | exact Hf].
Defined.

(** Against C2 as stated: frame number 1 is assembled and swapped twice in
    the run of frames 1, 2, 1. *)
Lemma frame_number_assembled_twice :
  assembled_frames (snd (run_sample repeated_frame_run)) = [1; 2; 1]
  /\ count_frame 1 (assembled_frames (snd (run_sample repeated_frame_run))) = 2%nat.
Proof. vm_compute. split; reflexivity. Qed.


(** Against C9 as stated: after stopping [rendered_source] the timing
    engine still reports two delivered frames and one duplicate, and the back
    buffer still holds a pixel of the earlier, taller picture in row 4. *)
Lemma stop_keeps_timing_counters :
  let context' := fst (c64u_stop_streaming (K := sample_protocol) rendered_source true true) in
  streaming rendered_source = true
  /\ frames_delivered <$> timing context' = Some 2
  /\ frames_duplicated <$> timing context' = Some 1
  /\ frame_buffer_back context' (4 * 384) = 0xFFEFEFEF.
Proof. vm_compute. repeat split; reflexivity. Qed.

(* ===================================================================== *)
(** * Further properties of the receive path *)
(* ===================================================================== *)

Lemma land_bit15 (w : Z) : Z.land w 0x8000 = if Z.testbit w 15 then 0x8000 else 0.
Proof.
  apply Z.bits_inj'. intros n Hn. rewrite Z.land_spec.
  change 0x8000 with (2 ^ 15). rewrite Z.pow2_bits_eqb by lia.
  destruct (Z.eqb_spec 15 n) as [<- | Hne].
  - rewrite andb_true_r. destruct (Z.testbit w 15).
    + rewrite Z.pow2_bits_true by lia. reflexivity.
    + rewrite Z.bits_0. reflexivity.
  - rewrite andb_false_r. destruct (Z.testbit w 15).
    + rewrite Z.pow2_bits_eqb by lia. symmetry. apply Z.eqb_neq. exact Hne.
    + rewrite Z.bits_0. reflexivity.
Qed.

Section ReceivePathProperties.
Context {D : Type} {dops : DoubleOps D} {K : Protocol}.

#[local] Abbreviation source := (c64u_source D).

(** X1.  With a clock that has not wrapped, a frame has timed out exactly
    when a whole millisecond more than [C64U_FRAME_TIMEOUT_MS] has elapsed
    since its start: the elapsed time is truncated to milliseconds and
    compared strictly. *)
Theorem frame_timeout_threshold (frame : frame_assembly) (now : Z) :
  start_time frame <= now ->
  now - start_time frame < 2 ^ 64 ->
  (is_frame_timeout frame now = true
   <-> (C64U_FRAME_TIMEOUT_MS + 1) * 1000000 <= now - start_time frame).
Proof.
  intros Hle Hlt. unfold is_frame_timeout. cbv zeta.
  unfold u64. rewrite wrap_small by lia.
  set (e := now - start_time frame) in *.
  rewrite Z.ltb_lt.
  pose proof (Z.mul_div_le e 1000000 ltac:(lia)) as Hm.
  split.
  - intros H. nia.
  - intros H.
    assert (C64U_FRAME_TIMEOUT_MS + 1 <= e / 1000000)
      by (apply Z.div_le_lower_bound; lia).
    lia.
Qed.

Lemma recv_into_buffer_full (packet : list Z) :
  Z.of_nat (length packet) = C64U_VIDEO_PACKET_SIZE -> recv_into_buffer packet = packet.
Proof. intros H. unfold recv_into_buffer. apply take_ge. lia. Qed.

Lemma update_video_statistics_picture (st : video_statics) (c : source) (h : video_header)
    (n now : Z) :
  same_picture_state c (snd (update_video_statistics st c h n now)).
Proof.
  unfold update_video_statistics, same_picture_state. cbv zeta.
  destruct (5000000000 <=? _); cbn; auto 12.
Qed.

(** The table after a packet that starts a new frame. *)
Lemma process_packet_new_frame_table (c : source) (h : video_header) (payload : list Z)
    (env : step_env) :
  frame_num (current_frame c) <> hdr_frame_num h ->
  0 <= hdr_lines_per_packet h ->
  Z.land (hdr_line_num h) 0x7FFF / hdr_lines_per_packet h < C64U_MAX_PACKETS_PER_FRAME ->
  let line := Z.land (hdr_line_num h) 0x7FFF in
  let idx := line / hdr_lines_per_packet h in
  let stored :=
    mk_frame_assembly (hdr_frame_num h) (t_start env)
      (<[Z.to_nat idx :=
           mk_frame_packet line (hdr_lines_per_packet h) true
             (take (Z.to_nat payload_size) payload)]>
         (replicate (Z.to_nat C64U_MAX_PACKETS_PER_FRAME) zero_frame_packet))
      1 (if negb (Z.land (hdr_line_num h) 0x8000 =? 0) then u16 (idx + 1) else 0) in
  current_frame (fst (process_packet c h payload env))
  = if is_frame_complete stored then init_frame_assembly 0 (t_reset env) else stored.
Proof.
  intros Hne Hlpp Hidx. cbv zeta.
  pose proof (line_num_range (hdr_line_num h)) as Hl.
  destruct (packet_index_range _ _ Hl Hlpp) as [Hi Hu].
  unfold process_packet. cbv zeta.
  assert (Hnew : negb (frame_num (current_frame c) =? hdr_frame_num h) = true)
    by (apply negb_true_iff, Z.eqb_neq; exact Hne).
  rewrite Hnew.
  pose proof (start_new_frame_table c (hdr_frame_num h) env) as Htab.
  destruct (start_new_frame c (hdr_frame_num h) env) as [c1 evs1]. cbn [fst] in Htab.
  assert (Hadd : current_frame
                   (fst (add_packet c1 (negb (Z.land (hdr_line_num h) 32768 =? 0))
                           (Z.land (hdr_line_num h) 32767) (hdr_lines_per_packet h)
                           payload env))
                 = current_frame
                     (fst (complete_if_ready
                             (accumulate_packet c1 (negb (Z.land (hdr_line_num h) 32768 =? 0))
                                (Z.land (hdr_line_num h) 32767 / hdr_lines_per_packet h)
                                (Z.land (hdr_line_num h) 32767) (hdr_lines_per_packet h)
                                payload) env))).
  { unfold add_packet. cbv zeta. rewrite Hu.
    assert (Hlt : (Z.land (hdr_line_num h) 32767 / hdr_lines_per_packet h
                   <? C64U_MAX_PACKETS_PER_FRAME) = true) by (apply Z.ltb_lt; exact Hidx).
    rewrite Hlt. reflexivity. }
  destruct (add_packet c1 _ _ _ payload env) as [c2 evs2]. cbn [fst] in *.
  rewrite Hadd, complete_if_ready_table.
  rewrite (accumulate_packet_fresh_table c1 (hdr_frame_num h) (t_start env) _ _ _ _ payload
             Htab) by lia.
  reflexivity.
Qed.

(** X2.  What the header bytes of a datagram do to the table.  For a
    datagram of packet size whose bytes 8, 6-7 and 9 pass validation and whose
    little-endian word at bytes 2-3 differs from the frame number in
    progress, with the assembly lock taken: the loop goes on with
    [last_video_seq] the word at bytes 0-1 and a table for the frame number
    at bytes 2-3, started at that moment, whose one occupied slot holds the
    low 15 bits of the word at bytes 4-5 as line number, byte 8 as lines per
    packet and the bytes from offset 12 on as data, at the index given by line
    number and byte 8; [expected_packets] is that index plus one exactly when
    bit 15 of the word at bytes 4-5 is set, and 0 otherwise.  If that makes
    the table complete it has been reset by the completion check. *)
Theorem wire_header_reaches_slot
    (st : video_statics) (context : source) (packet : list Z) (env : step_env) :
  Forall (fun b : Z => 0 <= b < 256) packet ->
  Z.of_nat (length packet) = C64U_VIDEO_PACKET_SIZE ->
  assembly_lock_ok env = true ->
  let le16 (k : nat) := packet !!! k + 256 * packet !!! Datatypes.S k in
  let lines := packet !!! 8%nat in
  lines = C64U_LINES_PER_PACKET ->
  le16 6%nat = C64U_PIXELS_PER_LINE ->
  packet !!! 9%nat = 4 ->
  le16 2%nat <> frame_num (current_frame context) ->
  let line := le16 4%nat mod 32768 in
  let index := line / lines in
  index < C64U_MAX_PACKETS_PER_FRAME ->
  let stored :=
    mk_frame_assembly (le16 2%nat) (t_start env)
      (<[Z.to_nat index := mk_frame_packet line lines true (drop 12 packet)]>
         (replicate (Z.to_nat C64U_MAX_PACKETS_PER_FRAME) zero_frame_packet))
      1 (if 32768 <=? le16 4%nat then index + 1 else 0) in
  exists (st' : video_statics) (context' : source) (evs : list video_event),
    video_thread_iteration st context (RecvData packet) env
    = (LoopContinue (st', context'), evs)
    /\ last_video_seq st' = le16 0%nat
    /\ current_frame context'
       = if is_frame_complete stored then init_frame_assembly 0 (t_reset env) else stored.
Proof.
  intros Hbytes Hlen Hlock. cbv zeta. intros Hlines Hpix Hbits Hframe Hindex.
  assert (Hb : forall k : nat, 0 <= packet !!! k < 256).
  { intros k. rewrite list_lookup_total_alt.
    destruct (packet !! k) as [x|] eqn:Hk; cbn; [|lia].
    exact (proj1 (Forall_lookup _ _) Hbytes k x Hk). }
  assert (Hu8 : forall k : nat, u8 (packet !!! k) = packet !!! k).
  { intros k. apply wrap_small. change (2 ^ 8) with 256. apply Hb. }
  assert (Hh : parse_header packet
               = mk_header (packet !!! 0%nat + 256 * packet !!! 1%nat)
                   (packet !!! 2%nat + 256 * packet !!! 3%nat)
                   (packet !!! 4%nat + 256 * packet !!! 5%nat)
                   (packet !!! 6%nat + 256 * packet !!! 7%nat)
                   (packet !!! 8%nat) (packet !!! 9%nat)
                   (packet !!! 10%nat + 256 * packet !!! 11%nat)).
  { unfold parse_header, read_u16. rewrite !Hu8. reflexivity. }
  set (w := packet !!! 4%nat + 256 * packet !!! 5%nat) in *.
  assert (Hw : 0 <= w < 65536).
  { subst w. pose proof (Hb 4%nat). pose proof (Hb 5%nat). lia. }
  assert (Hlow : Z.land w 0x7FFF = w mod 32768) by (apply (Z.land_ones w 15); lia).
  assert (Hflag : negb (Z.land w 0x8000 =? 0) = (32768 <=? w)).
  { rewrite land_bit15.
    assert (Hbit : Z.testbit w 15 = Z.odd (w / 32768)).
    { rewrite Z.testbit_odd, Z.shiftr_div_pow2 by lia. reflexivity. }
    rewrite Hbit.
    pose proof (Z.div_mod w 32768 ltac:(lia)) as Hdm.
    pose proof (Z.mod_pos_bound w 32768 ltac:(lia)) as Hmod.
    assert (Hq : w / 32768 = 0 \/ w / 32768 = 1) by nia.
    destruct Hq as [Hq | Hq]; rewrite Hq in *; cbn [Z.odd Z.eqb negb];
      symmetry; [apply Z.leb_gt | apply Z.leb_le]; lia. }
  assert (Hmod : 0 <= w mod 32768 <= 32767)
    by (pose proof (Z.mod_pos_bound w 32768 ltac:(lia)); lia).
  destruct (packet_index_range (w mod 32768) (packet !!! 8%nat) Hmod
              (proj1 (Hb 8%nat))) as [Hi _].
  assert (Hpay : take (Z.to_nat payload_size) (drop (Z.to_nat C64U_VIDEO_HEADER_SIZE) packet)
                 = drop 12 packet).
  { change (Z.to_nat C64U_VIDEO_HEADER_SIZE) with 12%nat.
    apply take_ge. rewrite length_drop. unfold payload_size, C64U_VIDEO_HEADER_SIZE. lia. }
  unfold video_thread_iteration.
  rewrite (recv_into_buffer_full packet Hlen).
  cbv zeta. rewrite Hlen, Z.eqb_refl. cbn [negb].
  set (st0 := mk_statics (packet_count st + 1) _ _ _ _ _ _ _).
  pose proof (update_video_statistics_picture st0 context (parse_header packet)
                C64U_VIDEO_PACKET_SIZE (t_stats env)) as (Hcur & _).
  assert (Hseq : last_video_seq
                   (fst (update_video_statistics st0 context (parse_header packet)
                           C64U_VIDEO_PACKET_SIZE (t_stats env)))
                 = hdr_seq_num (parse_header packet)).
  { unfold update_video_statistics. cbv zeta. destruct (5000000000 <=? _); reflexivity. }
  destruct (update_video_statistics st0 context (parse_header packet)
              C64U_VIDEO_PACKET_SIZE (t_stats env)) as [st1 c1].
  cbn [fst snd] in Hcur, Hseq.
  assert (Hvalid : valid_packet_format (parse_header packet) = true).
  { unfold valid_packet_format. rewrite Hh.
    cbn [hdr_lines_per_packet hdr_pixels_per_line hdr_bits_per_pixel].
    rewrite Hlines, Hpix, Hbits, !Z.eqb_refl. reflexivity. }
  rewrite Hvalid, Hlock. cbn [negb].
  pose proof (process_packet_new_frame_table c1 (parse_header packet)
                (drop (Z.to_nat C64U_VIDEO_HEADER_SIZE) packet) env) as Hp.
  rewrite Hh in Hp, Hseq.
  cbn [hdr_frame_num hdr_line_num hdr_lines_per_packet hdr_seq_num] in Hp, Hseq.
  fold w in Hp. rewrite Hcur, Hlow, Hflag, Hpay in Hp.
  specialize (Hp ltac:(congruence) (proj1 (Hb 8%nat)) Hindex). cbv zeta in Hp.
  assert (Hu : u16 (w mod 32768 / packet !!! 8%nat + 1) = w mod 32768 / packet !!! 8%nat + 1).
  { apply wrap_small. change (2 ^ 16) with 65536.
    unfold u16 in Hi. pose proof (wrap_le 16 (w mod 32768 / packet !!! 8%nat)).
    assert (0 <= w mod 32768 / packet !!! 8%nat <= 32767).
    { destruct (packet_index_range (w mod 32768) (packet !!! 8%nat) Hmod
                  (proj1 (Hb 8%nat))) as [Hr He]. rewrite He in Hr. exact Hr. }
    lia. }
  rewrite Hu in Hp.
  rewrite <- Hh in Hp.
  destruct (process_packet c1 (parse_header packet)
              (drop (Z.to_nat C64U_VIDEO_HEADER_SIZE) packet) env) as [c2 evs].
  cbn [fst] in Hp.
  eexists _, c2, evs. split; [reflexivity|]. split; [exact Hseq | exact Hp].
Qed.



(** X4.  The loop ends at the first socket error that is not a
    would-block: nothing received after it has any effect, and the error
    itself changes neither statistics nor context. *)
Theorem socket_error_ends_run
    (pre post : list (recv_result * step_env)) (env : step_env)
    (st : video_statics) (context : source) :
  thread_run st context (pre ++ (RecvError, env) :: post) = thread_run st context pre.
Proof.
  revert st context. induction pre as [|[r e] pre IH]; intros st context.
  - reflexivity.
  - cbn [app thread_run].
    destruct (video_thread_iteration st context r e) as [[[st1 c1] | [st1 c1]] evs1];
      [rewrite IH|]; reflexivity.
Qed.

(** X5.  A datagram of the right size whose header fails validation is
    counted in the statistics and then dropped: the loop goes on, nothing is
    assembled or dropped, and the slot table, both buffers, the detected
    format, [last_completed_frame] and [frame_drops] are as before. *)
Theorem malformed_packet_keeps_picture
    (st : video_statics) (context : source) (packet : list Z) (env : step_env) :
  Z.of_nat (length packet) = C64U_VIDEO_PACKET_SIZE ->
  valid_packet_format (parse_header packet) = false ->
  exists (st' : video_statics) (context' : source),
    video_thread_iteration st context (RecvData packet) env
    = (LoopContinue (st', context'), [])
    /\ same_picture_state context context'
    /\ packet_count st' = packet_count st + 1
    /\ last_video_seq st' = hdr_seq_num (parse_header packet).
Proof.
  intros Hlen Hbad. unfold video_thread_iteration.
  rewrite (recv_into_buffer_full packet Hlen).
  cbv zeta. rewrite Hlen, Z.eqb_refl. cbn [negb].
  set (st0 := mk_statics (packet_count st + 1) _ _ _ _ _ _ _).
  pose proof (update_video_statistics_picture st0 context (parse_header packet)
                (C64U_VIDEO_PACKET_SIZE) (t_stats env)) as Hpic.
  assert (Hst : packet_count
                  (fst (update_video_statistics st0 context (parse_header packet)
                          C64U_VIDEO_PACKET_SIZE (t_stats env)))
                = packet_count st + 1
                /\ last_video_seq
                     (fst (update_video_statistics st0 context (parse_header packet)
                             C64U_VIDEO_PACKET_SIZE (t_stats env)))
                   = hdr_seq_num (parse_header packet)).
  { unfold update_video_statistics. cbv zeta.
    destruct (5000000000 <=? _); cbn; auto. }
  destruct (update_video_statistics st0 context (parse_header packet)
              C64U_VIDEO_PACKET_SIZE (t_stats env)) as [st1 c1].
  cbn [fst snd] in *. rewrite Hbad. cbn [negb].
  exists st1, c1. destruct Hst. auto.
Qed.

(** The table between two iterations is never complete: completion is
    noticed, and the table reset, in the iteration that completes it. *)
Lemma add_packet_incomplete (c : source) (last : bool) (line lpp : Z) (payload : list Z)
    (env : step_env) :
  is_frame_complete (current_frame c) = false ->
  is_frame_complete (current_frame (fst (add_packet c last line lpp payload env))) = false
  /\ preempt_assemblies (snd (add_packet c last line lpp payload env)) = [].
Proof.
  intros Hinc. unfold add_packet. cbv zeta.
  destruct (_ <? C64U_MAX_PACKETS_PER_FRAME); [|split; [exact Hinc | reflexivity]].
  set (c2 := accumulate_packet c last _ line lpp payload). clearbody c2.
  unfold complete_if_ready.
  destruct (is_frame_complete (current_frame c2)) eqn:Hc; [|split; [exact Hc | reflexivity]].
  destruct (frame_lock_ok_complete env).
  - pose proof (deliver_completed_frame_cases InFramePath c2 (t_capture env)
                  (t_latency_complete env)) as Hd. cbv zeta in Hd.
    destruct (deliver_completed_frame InFramePath c2 (t_capture env) (t_latency_complete env))
      as [c3 evs]. cbn [fst snd] in *. split; [reflexivity|].
    destruct (last_completed_frame c2 =? frame_num (current_frame c2)).
    + injection Hd as _ ->. reflexivity.
    + destruct Hd as (-> & _). reflexivity.
  - split; reflexivity.
Qed.

Lemma process_packet_incomplete (c : source) (h : video_header) (payload : list Z)
    (env : step_env) :
  is_frame_complete (current_frame c) = false ->
  is_frame_complete (current_frame (fst (process_packet c h payload env))) = false
  /\ preempt_assemblies (snd (process_packet c h payload env)) = [].
Proof.
  intros Hinc. unfold process_packet. cbv zeta.
  destruct (negb (frame_num (current_frame c) =? hdr_frame_num h)).
  - assert (Hnew : is_frame_complete
                     (current_frame (fst (start_new_frame c (hdr_frame_num h) env))) = false
                   /\ preempt_assemblies (snd (start_new_frame c (hdr_frame_num h) env)) = []).
    { split; [rewrite start_new_frame_table; reflexivity|].
      unfold start_new_frame. cbv zeta.
      set (c2 := set_last_capture_time _ _).
      assert (Hc2 : current_frame c2 = current_frame c)
        by (subst c2; destruct (0 <? last_capture_time c); reflexivity).
      clearbody c2.
      assert (Hfin : preempt_assemblies (snd (finalize_previous_frame c2 env)) = []).
      { unfold finalize_previous_frame. rewrite Hc2, Hinc. cbn [orb].
        repeat match goal with
               | |- context [if ?b then _ else _] => destruct b
               end; reflexivity. }
      destruct (finalize_previous_frame c2 env) as [c3 evs]. cbn [snd] in *.
      unfold preempt_assemblies in *. rewrite omap_app, Hfin. reflexivity. }
    destruct (start_new_frame c (hdr_frame_num h) env) as [c1 evs1]. cbn [fst snd] in Hnew.
    destruct Hnew as [Hinc1 Hev1].
    pose proof (add_packet_incomplete c1 (negb (Z.land (hdr_line_num h) 32768 =? 0))
                  (Z.land (hdr_line_num h) 32767) (hdr_lines_per_packet h) payload env Hinc1)
      as [Hinc2 Hev2].
    destruct (add_packet c1 _ _ _ payload env) as [c2 evs2]. cbn [fst snd] in *.
    split; [exact Hinc2|].
    unfold preempt_assemblies in *. rewrite omap_app, Hev1, Hev2. reflexivity.
  - pose proof (add_packet_incomplete c (negb (Z.land (hdr_line_num h) 32768 =? 0))
                  (Z.land (hdr_line_num h) 32767) (hdr_lines_per_packet h) payload env Hinc)
      as [Hinc2 Hev2].
    destruct (add_packet c _ _ _ payload env) as [c2 evs2]. cbn [fst snd] in *.
    split; [exact Hinc2 | exact Hev2].
Qed.

(** X6.  From a source whose table is not complete, as after creation or
    stop, no run ever assembles a frame in the new-frame branch: the table is
    never left complete between two iterations, so every assemble-and-swap
    happens in the iteration that receives the completing packet. *)
Theorem preempt_path_never_assembles (inputs : list (recv_result * step_env)) :
  forall (st : video_statics) (context : source),
    is_frame_complete (current_frame context) = false ->
    preempt_assemblies (snd (thread_run st context inputs)) = []
    /\ is_frame_complete (current_frame (snd (fst (thread_run st context inputs)))) = false.
Proof.
  induction inputs as [|[r env] inputs IH]; intros st c Hinc; [split; [reflexivity | exact Hinc]|].
  cbn [thread_run].
  assert (Hit : match fst (video_thread_iteration st c r env) with
                | LoopContinue (_, c') | LoopBreak (_, c') =>
                    is_frame_complete (current_frame c') = false
                end
                /\ preempt_assemblies (snd (video_thread_iteration st c r env)) = []).
  { unfold video_thread_iteration.
    destruct r as [ | | datagram]; cbn [fst snd]; try (split; [exact Hinc | reflexivity]).
    set (packet := recv_into_buffer datagram). clearbody packet.
    destruct (negb (Z.of_nat (length packet) =? C64U_VIDEO_PACKET_SIZE));
      cbn [fst snd]; [split; [exact Hinc | reflexivity]|].
    cbv zeta. set (st0 := mk_statics (packet_count st + 1) _ _ _ _ _ _ _).
    pose proof (update_video_statistics_picture st0 c (parse_header packet)
                  (Z.of_nat (length packet)) (t_stats env)) as (Hf & _).
    destruct (update_video_statistics st0 c (parse_header packet) _ (t_stats env)) as [st1 c1].
    cbn [snd] in Hf.
    assert (Hinc1 : is_frame_complete (current_frame c1) = false) by (rewrite Hf; exact Hinc).
    destruct (negb (valid_packet_format (parse_header packet))); cbn [fst snd];
      [split; [exact Hinc1 | reflexivity]|].
    destruct (assembly_lock_ok env); cbn [fst snd]; [|split; [exact Hinc1 | reflexivity]].
    pose proof (process_packet_incomplete c1 (parse_header packet)
                  (drop (Z.to_nat C64U_VIDEO_HEADER_SIZE) packet) env Hinc1) as Hp.
    destruct (process_packet c1 (parse_header packet) _ env) as [c2 evs]. exact Hp. }
  destruct (video_thread_iteration st c r env) as [[[st1 c1] | [st1 c1]] evs1];
    cbn [fst snd] in Hit; destruct Hit as [Hinc1 Hev1].
  - destruct (IH st1 c1 Hinc1) as [Hev2 Hinc2].
    destruct (thread_run st1 c1 inputs) as [[st2 c2] evs2]. cbn [fst snd] in *.
    split; [|exact Hinc2].
    unfold preempt_assemblies in *. rewrite omap_app, Hev1, Hev2. reflexivity.
  - cbn [fst snd]. split; [exact Hev1 | exact Hinc1].
Qed.

(** X7.  With a capacity that fits the 16-bit counter, every run from a
    table that agrees with its counter ends in one that does: the table keeps
    its capacity, [received_packets] is the number of occupied slots and never
    exceeds the capacity. *)
Theorem received_packets_within_capacity
    (st : video_statics) (context : source) (inputs : list (recv_result * step_env)) :
  0 <= C64U_MAX_PACKETS_PER_FRAME <= 65535 ->
  frame_wf (current_frame context) ->
  let f := current_frame (snd (fst (thread_run st context inputs))) in
  Z.of_nat (length (packets f)) = C64U_MAX_PACKETS_PER_FRAME
  /\ received_packets f = Z.of_nat (occupied (packets f))
  /\ 0 <= received_packets f <= C64U_MAX_PACKETS_PER_FRAME.
Proof.
  intros Hmax Hwf. cbv zeta.
  destruct (thread_run_wf inputs Hmax st context Hwf) as [Hlen Hcnt].
  pose proof (occupied_le (packets (current_frame (snd (fst (thread_run st context inputs)))))).
  rewrite Hcnt, Hlen. lia.
Qed.

(** X8.  After creation and start the first frame a run assembles is never
    frame number 0: [last_completed_frame] starts at 0, so a completed frame
    numbered 0 is reset without being assembled. *)
Theorem first_assembled_frame_is_not_zero
    (front_mem back_mem : pixbuf) (vs as' : Z) (st : video_statics)
    (inputs : list (recv_result * step_env)) :
  head (assembled_frames
          (snd (thread_run st (c64u_start_streaming (created_context front_mem back_mem) vs as')
                  inputs)))
  <> Some 0.
Proof.
  set (c := c64u_start_streaming (created_context front_mem back_mem) vs as').
  destruct (thread_run_trace inputs st c) as (Hg & _ & _).
  apply assemble_guard_adjacent in Hg.
  assert (Hl : last_completed_frame c = 0) by reflexivity.
  rewrite Hl in Hg.
  destruct (assembled_frames (snd (thread_run st c inputs))) as [|n rest]; [discriminate|].
  cbn [adjacent_distinct] in Hg. apply andb_true_iff in Hg as [Hn _].
  apply negb_true_iff, Z.eqb_neq in Hn. cbn [head]. congruence.
Qed.

End ReceivePathProperties.

Section FrameLifecycle.
Context {D : Type} {dops : DoubleOps D} {K : Protocol}.

#[local] Abbreviation source := (c64u_source D).

(** X9.  A frame found complete by the in-frame check is either swapped
    in or lost.  If the frame mutex is taken and the frame number differs from
    [last_completed_frame], the assembled back buffer becomes the front
    buffer and the old front buffer the back buffer, [frame_ready] is set, and
    the pixels of every row of the frame that no later slot covers are in the
    front buffer.  Otherwise buffers, [frame_ready] and
    [last_completed_frame] stay as they are and the frame is discarded.  In
    both cases the table is reset. *)
Theorem completed_frame_swapped_in_or_lost (context : source) (env : step_env) :
  is_frame_complete (current_frame context) = true ->
  let context' := fst (complete_if_ready context env) in
  let frame := current_frame context in
  current_frame context' = init_frame_assembly 0 (t_reset env)
  /\ if frame_lock_ok_complete env
        && negb (last_completed_frame context =? frame_num frame)
     then
       frame_buffer_front context'
       = assemble_slots (height context) (packets frame) (frame_buffer_back context)
       /\ frame_buffer_back context' = frame_buffer_front context
       /\ frame_ready context' = true
       /\ last_completed_frame context' = frame_num frame
       /\ (forall (i : nat) (p : frame_packet) (line x : Z),
              Z.of_nat i < C64U_MAX_PACKETS_PER_FRAME ->
              packets frame !! i = Some p -> received p = true ->
              0 <= line < lines_per_packet p ->
              line_num p + line < height context ->
              0 <= x < C64U_BYTES_PER_LINE ->
              later_slots_clear (packets frame) i (line_num p + line) = true ->
              let pixel_pair :=
                packet_data p !!! Z.to_nat (line * C64U_BYTES_PER_LINE + x) in
              let dst_line := (line_num p + line) * C64U_PIXELS_PER_LINE in
              frame_buffer_front context' (dst_line + x * 2)
              = vic_color (Z.land pixel_pair 0x0F)
              /\ frame_buffer_front context' (dst_line + (x * 2 + 1))
                 = vic_color (Z.shiftr pixel_pair 4))
     else
       frame_buffer_front context' = frame_buffer_front context
       /\ frame_buffer_back context' = frame_buffer_back context
       /\ frame_ready context' = frame_ready context
       /\ last_completed_frame context' = last_completed_frame context.
Proof.
  intros Hc. cbv zeta. unfold complete_if_ready. rewrite Hc.
  destruct (frame_lock_ok_complete env); cbn [andb]; [|cbn; auto].
  unfold deliver_completed_frame.
  destruct (negb (last_completed_frame context =? frame_num (current_frame context)));
    cbn; [|auto].
  split; [reflexivity|]. split; [reflexivity|]. split; [reflexivity|].
  split; [reflexivity|]. split; [reflexivity|].
  intros i p line x Hi Hp Hr Hline Hh Hx Hclear.
  apply (assemble_slots_at (height context) (packets (current_frame context))
           (frame_buffer_back context) i p line x Hi Hp Hr Hline Hh Hx
           (later_slots_clear_spec _ _ _ Hclear)).
Qed.

(** X10.  Nothing of the previous table leaks into a new frame.  When a
    packet without the last-packet flag and with an index below the capacity
    arrives for a frame number other than the one in progress, the table
    afterwards is the empty table started at that moment with this one packet
    in its slot, [received_packets] 1 and [expected_packets] 0, whatever the
    previous table held. *)
Theorem new_frame_starts_from_empty_table
    (context : source) (h : video_header) (payload : list Z) (env : step_env) :
  frame_num (current_frame context) <> hdr_frame_num h ->
  Z.land (hdr_line_num h) 0x8000 = 0 ->
  0 <= hdr_lines_per_packet h ->
  let line_num' := Z.land (hdr_line_num h) 0x7FFF in
  let packet_index := line_num' / hdr_lines_per_packet h in
  packet_index < C64U_MAX_PACKETS_PER_FRAME ->
  current_frame (fst (process_packet context h payload env))
  = mk_frame_assembly (hdr_frame_num h) (t_start env)
      (<[Z.to_nat packet_index :=
           mk_frame_packet line_num' (hdr_lines_per_packet h) true
             (take (Z.to_nat payload_size) payload)]>
         (replicate (Z.to_nat C64U_MAX_PACKETS_PER_FRAME) zero_frame_packet))
      1 0.
Proof.
  intros Hne Hflag Hlpp. cbv zeta. intros Hidx.
  pose proof (line_num_range (hdr_line_num h)) as Hl.
  destruct (packet_index_range _ _ Hl Hlpp) as [Hi Hu].
  unfold process_packet. cbv zeta.
  assert (Hnew : negb (frame_num (current_frame context) =? hdr_frame_num h) = true)
    by (apply negb_true_iff, Z.eqb_neq; exact Hne).
  rewrite Hnew, Hflag. cbn [Z.eqb negb].
  pose proof (start_new_frame_table context (hdr_frame_num h) env) as Htab.
  destruct (start_new_frame context (hdr_frame_num h) env) as [c1 evs1]. cbn [fst] in Htab.
  assert (Hadd : current_frame
                   (fst (add_packet c1 false (Z.land (hdr_line_num h) 32767)
                           (hdr_lines_per_packet h) payload env))
                 = mk_frame_assembly (hdr_frame_num h) (t_start env)
                     (<[Z.to_nat (Z.land (hdr_line_num h) 32767 / hdr_lines_per_packet h) :=
                          mk_frame_packet (Z.land (hdr_line_num h) 32767)
                            (hdr_lines_per_packet h) true
                            (take (Z.to_nat payload_size) payload)]>
                        (replicate (Z.to_nat C64U_MAX_PACKETS_PER_FRAME) zero_frame_packet))
                     1 0).
  { unfold add_packet. cbv zeta. rewrite Hu.
    assert (Hlt : (Z.land (hdr_line_num h) 32767 / hdr_lines_per_packet h
                   <? C64U_MAX_PACKETS_PER_FRAME) = true) by (apply Z.ltb_lt; exact Hidx).
    rewrite Hlt.
    assert (Hacc : current_frame
                     (accumulate_packet c1 false
                        (Z.land (hdr_line_num h) 32767 / hdr_lines_per_packet h)
                        (Z.land (hdr_line_num h) 32767) (hdr_lines_per_packet h) payload)
                   = mk_frame_assembly (hdr_frame_num h) (t_start env)
                       (<[Z.to_nat (Z.land (hdr_line_num h) 32767 / hdr_lines_per_packet h) :=
                            mk_frame_packet (Z.land (hdr_line_num h) 32767)
                              (hdr_lines_per_packet h) true
                              (take (Z.to_nat payload_size) payload)]>
                          (replicate (Z.to_nat C64U_MAX_PACKETS_PER_FRAME) zero_frame_packet))
                       1 0).
    { unfold accumulate_packet, note_last_packet. cbn [andb].
      unfold set_current_frame. cbn [current_frame]. rewrite Htab.
      unfold store_packet, init_frame_assembly, zero_frame_assembly. cbn [packets].
      rewrite lookup_replicate_2 by lia.
      cbn [received zero_frame_packet frame_num start_time received_packets expected_packets].
      reflexivity. }
    unfold complete_if_ready.
    assert (Hnc : is_frame_complete
                    (current_frame
                       (accumulate_packet c1 false
                          (Z.land (hdr_line_num h) 32767 / hdr_lines_per_packet h)
                          (Z.land (hdr_line_num h) 32767) (hdr_lines_per_packet h) payload))
                  = false) by (rewrite Hacc; reflexivity).
    rewrite Hnc. exact Hacc. }
  destruct (add_packet c1 false _ _ payload env) as [c2 evs2]. exact Hadd.
Qed.

End FrameLifecycle.

(* ===================================================================== *)
(** * Further properties of the timing engine *)
(* ===================================================================== *)

Lemma count_true_cons (a : bool) (l : list bool) :
  count_true (a :: l) = (if a then 1 else 0) + count_true l.
Proof. unfold count_true. cbn [List.filter]. destruct a; cbn [length]; lia. Qed.

Lemma wrap_add_wrap (w a b : Z) : wrap w (wrap w a + b) = wrap w (a + b).
Proof. unfold wrap. apply Zplus_mod_idemp_l. Qed.

Section TimingEngineProperties.
Context {D : Type} {dops : DoubleOps D}.

#[local] Abbreviation timing_state := (c64u_timing_state D).

Lemma timing_init_ring
    (s : c64u_timing_strategy_t) (target source : D) (bmalloc : Z -> option pixbuf) :
  ring_allocated (c64u_timing_init s target source bmalloc) = true.
Proof.
  unfold c64u_timing_init, ring_allocated.
  destruct s; cbn [strategy_eqb alloc_interpolation]; try reflexivity.
  change (0 + 1 + 1) with 2. change (0 + 1) with 1.
  destruct (bmalloc 0) as [b0|]; [|reflexivity].
  destruct (bmalloc 1) as [b1|]; [|reflexivity].
  destruct (bmalloc 2) as [b2|]; reflexivity.
Qed.

(** X11.  Initialisation leaves the interpolation ring allocated in full
    or not at all.  Under the interpolation strategy with three successful
    allocations the strategy is kept and the ring holds the three buffers; if
    any of them fails, the strategy falls back to adaptive and all three
    pointers are null.  Under every other strategy nothing is allocated and
    the strategy is as requested. *)
Theorem timing_init_ring_all_or_nothing
    (s : c64u_timing_strategy_t) (target source : D) (bmalloc : Z -> option pixbuf) :
  let t := c64u_timing_init s target source bmalloc in
  ring_allocated t = true
  /\ match s with
     | C64U_TIMING_INTERPOLATION =>
         match bmalloc 0, bmalloc 1, bmalloc 2 with
         | Some b0, Some b1, Some b2 =>
             strategy t = C64U_TIMING_INTERPOLATION
             /\ frames (interpolation t) = [Some b0; Some b1; Some b2]
         | _, _, _ =>
             strategy t = C64U_TIMING_ADAPTIVE
             /\ frames (interpolation t) = [None; None; None]
         end
     | _ => strategy t = s /\ frames (interpolation t) = [None; None; None]
     end.
Proof.
  cbv zeta. unfold c64u_timing_init, ring_allocated.
  destruct s; cbn [strategy_eqb alloc_interpolation];
    try (split; [reflexivity | split; reflexivity]).
  change (0 + 1 + 1) with 2. change (0 + 1) with 1.
  destruct (bmalloc 0) as [b0|]; [|repeat split; reflexivity].
  destruct (bmalloc 1) as [b1|]; [|repeat split; reflexivity].
  destruct (bmalloc 2) as [b2|]; repeat split; reflexivity.
Qed.

Lemma ring_allocated_same (t t' : timing_state) :
  strategy t' = strategy t -> interpolation t' = interpolation t ->
  ring_allocated t' = ring_allocated t.
Proof. intros Hs Hi. unfold ring_allocated. rewrite Hs, Hi. reflexivity. Qed.

Lemma should_deliver_ring (t : timing_state) (now : Z) :
  ring_allocated (snd (c64u_timing_should_deliver_frame t now)) = ring_allocated t
  /\ strategy (snd (c64u_timing_should_deliver_frame t now)) = strategy t
  /\ target_fps (snd (c64u_timing_should_deliver_frame t now)) = target_fps t
  /\ obs_frame_interval_ns (snd (c64u_timing_should_deliver_frame t now))
     = obs_frame_interval_ns t
  /\ frames_dropped (snd (c64u_timing_should_deliver_frame t now)) = frames_dropped t.
Proof. destruct (should_deliver_state t now) as [-> | ->]; auto. Qed.

Lemma on_delivered_ring (t : timing_state) (now : Z) :
  ring_allocated (c64u_timing_on_obs_frame_delivered t now) = ring_allocated t
  /\ strategy (c64u_timing_on_obs_frame_delivered t now) = strategy t
  /\ target_fps (c64u_timing_on_obs_frame_delivered t now) = target_fps t
  /\ obs_frame_interval_ns (c64u_timing_on_obs_frame_delivered t now)
     = obs_frame_interval_ns t
  /\ frames_dropped (c64u_timing_on_obs_frame_delivered t now) = frames_dropped t.
Proof.
  unfold c64u_timing_on_obs_frame_delivered. cbv zeta.
  repeat case_match; auto.
Qed.

(** With the ring allocated the frame handed back is never null, shows the
    front buffer over the frame size, and the ring stays allocated. *)
Lemma get_frame_shows_front (t : timing_state) (front : pixbuf) (w h now : Z) :
  ring_allocated t = true ->
  exists (f : pixbuf) (t' : timing_state),
    c64u_timing_get_frame_for_obs t front w h now = (Some f, t')
    /\ (forall i : Z, 0 <= i < frame_size_pixels w h -> f i = front i)
    /\ ring_allocated t' = true
    /\ strategy t' = strategy t
    /\ target_fps t' = target_fps t
    /\ obs_frame_interval_ns t' = obs_frame_interval_ns t
    /\ frames_delivered t' = frames_delivered t.
Proof.
  intros Hring. unfold c64u_timing_get_frame_for_obs.
  destruct (strategy t) eqn:Hs.
  - exists front, t. auto 10.
  - destruct (d_ltb (d_lit 2) (frame_debt t));
      [|destruct (d_ltb (frame_debt t) (d_lit (-2)))];
      eexists front, _; (split; [reflexivity|]); unfold ring_allocated in *; cbn;
      rewrite Hs in *; auto 10.
  - cbv zeta. unfold ring_allocated in Hring. rewrite Hs in Hring.
    destruct (frames (interpolation t)) as [|[b0|] [|[b1|] [|[b2|] [|? ?]]]] eqn:Hf;
      try discriminate.
    set (n := u8 ((write_index (interpolation t) + 1) mod 3)).
    assert (Hn : n = 0 \/ n = 1 \/ n = 2).
    { subst n. pose proof (Z.mod_pos_bound (write_index (interpolation t) + 1) 3 ltac:(lia)).
      unfold u8. rewrite wrap_small by (change (2 ^ 8) with 256; lia). lia. }
    clearbody n.
    destruct Hn as [-> | [-> | ->]]; cbn; eexists _, _;
      (split; [reflexivity|]);
      (split; [intros i Hi; unfold memcpy_pixels;
               assert (Hin : (0 <=? i) && (i <? frame_size_pixels w h) = true)
                 by (apply andb_true_iff; split; [apply Z.leb_le | apply Z.ltb_lt]; lia);
               rewrite Hin; reflexivity|]);
      unfold ring_allocated; cbn; rewrite Hs; auto 10.
  - exists front, t. unfold ring_allocated. rewrite Hs. auto 10.
Qed.

Lemma render_select_frame_ring (t : timing_state) (front : pixbuf) (w h now : Z) :
  ring_allocated t = true ->
  (forall i : Z, 0 <= i < frame_size_pixels w h ->
                 fst (render_select_frame t front w h now) i = front i)
  /\ ring_allocated (snd (render_select_frame t front w h now)) = true
  /\ strategy (snd (render_select_frame t front w h now)) = strategy t
  /\ target_fps (snd (render_select_frame t front w h now)) = target_fps t
  /\ obs_frame_interval_ns (snd (render_select_frame t front w h now))
     = obs_frame_interval_ns t
  /\ frames_delivered (snd (render_select_frame t front w h now))
     = if negb (strategy_eqb (strategy t) C64U_TIMING_PASSTHROUGH)
          && fst (c64u_timing_should_deliver_frame t now)
       then u32 (frames_delivered t + 1) else frames_delivered t.
Proof.
  intros Hring. unfold render_select_frame.
  destruct (negb (strategy_eqb (strategy t) C64U_TIMING_PASSTHROUGH)); cbn [andb];
    [|cbn; auto 10].
  pose proof (should_deliver_ring t now) as (Hr1 & Hs1 & Ht1 & Ho1 & _).
  pose proof (should_deliver_frames_delivered t now) as Hd1.
  destruct (c64u_timing_should_deliver_frame t now) as [deliver t1]. cbn [fst snd] in *.
  destruct deliver; [|cbn; rewrite Hr1; auto 10].
  destruct (get_frame_shows_front t1 front w h now ltac:(congruence))
    as (f & t2 & Hg & Hf & Hr2 & Hs2 & Ht2 & Ho2 & Hd2).
  rewrite Hg. cbn [fst snd].
  pose proof (on_delivered_ring t2 now) as (Hr3 & Hs3 & Ht3 & Ho3 & _).
  rewrite on_delivered_frames_delivered.
  split; [exact Hf|]. repeat split; congruence.
Qed.

Lemma timing_step_ring (t : timing_state) (e : timing_event) :
  ring_allocated t = true -> ring_allocated (timing_step t e) = true.
Proof.
  intros Hring. destruct e as [now | front w h now]; [exact Hring|].
  apply (render_select_frame_ring t front w h now Hring).
Qed.

Lemma timing_run_ring (es : list timing_event) (t : timing_state) :
  ring_allocated t = true -> ring_allocated (timing_run t es) = true.
Proof.
  revert t. induction es as [|e es IH]; intros t H; [exact H|].
  cbn. apply IH, timing_step_ring, H.
Qed.

Lemma timing_run_strategy (es : list timing_event) (t : timing_state) :
  ring_allocated t = true -> strategy (timing_run t es) = strategy t.
Proof.
  revert t. induction es as [|e es IH]; intros t Hring; [reflexivity|].
  change (timing_run t (e :: es)) with (timing_run (timing_step t e) es).
  rewrite IH by (apply timing_step_ring; exact Hring).
  destruct e as [now | front w h now]; [reflexivity|].
  apply (render_select_frame_ring t front w h now Hring).
Qed.

Lemma render_select_frame_front (t : timing_state) (front : pixbuf) (w h now : Z) :
  strategy t <> C64U_TIMING_INTERPOLATION ->
  fst (render_select_frame t front w h now) = front.
Proof.
  intros Hne. unfold render_select_frame.
  destruct (negb (strategy_eqb (strategy t) C64U_TIMING_PASSTHROUGH)); [|reflexivity].
  pose proof (should_deliver_ring t now) as (_ & Hs1 & _).
  destruct (c64u_timing_should_deliver_frame t now) as [deliver t1]. cbn [snd] in Hs1.
  destruct deliver; [|reflexivity].
  unfold c64u_timing_get_frame_for_obs.
  destruct (strategy t1) eqn:Hs; try reflexivity; [|congruence].
  destruct (d_ltb (d_lit 2) (frame_debt t1)); [reflexivity|].
  destruct (d_ltb (frame_debt t1) (d_lit (-2))); reflexivity.
Qed.

(** X12.  Unless the engine runs the interpolation strategy, the frame a
    render call selects is the front buffer itself, however the engine has
    been used since its initialisation: passthrough, adaptive and vsync never
    hand back another frame, and neither does an engine that was asked for
    interpolation and fell back to adaptive because an allocation failed. *)
Theorem selected_frame_is_front_buffer
    (s : c64u_timing_strategy_t) (target source : D) (bmalloc : Z -> option pixbuf)
    (es : list timing_event) (front : pixbuf) (width height now : Z) :
  strategy (c64u_timing_init s target source bmalloc) <> C64U_TIMING_INTERPOLATION ->
  fst (render_select_frame (timing_run (c64u_timing_init s target source bmalloc) es)
         front width height now)
  = front.
Proof.
  intros Hne. apply render_select_frame_front.
  rewrite timing_run_strategy by apply timing_init_ring. exact Hne.
Qed.

Lemma timing_step_frames_dropped (t : timing_state) (e : timing_event) :
  frame_debt t = d_zero -> frames_dropped (timing_step t e) = frames_dropped t.
Proof.
  intros Hz. destruct e as [now | front w h now]; [reflexivity|].
  unfold timing_step, render_select_frame.
  destruct (negb (strategy_eqb (strategy t) C64U_TIMING_PASSTHROUGH)); [|reflexivity].
  pose proof (should_deliver_ring t now) as (_ & _ & _ & _ & Hd1).
  pose proof (should_deliver_frame_debt t now) as Hz1.
  destruct (c64u_timing_should_deliver_frame t now) as [deliver t1]. cbn [snd] in *.
  destruct deliver; cbn [snd]; [|exact Hd1].
  assert (Hg : frames_dropped (snd (c64u_timing_get_frame_for_obs t1 front w h now))
               = frames_dropped t1).
  { unfold c64u_timing_get_frame_for_obs.
    destruct (strategy t1); try reflexivity.
    - rewrite Hz1, Hz, d_zero_not_above_two, d_zero_not_below_minus_two. reflexivity.
    - cbv zeta. repeat case_match; reflexivity. }
  destruct (c64u_timing_get_frame_for_obs t1 front w h now) as [f t2]. cbn [snd] in *.
  destruct f; cbn [snd]; [|congruence].
  pose proof (on_delivered_ring t2 now) as (_ & _ & _ & _ & Hd3). congruence.
Qed.

(** X13.  The engine never registers a drop: in every run from
    initialisation, under every strategy, [frames_dropped] reads zero. *)
Theorem timing_never_registers_drop
    (s : c64u_timing_strategy_t) (target source : D) (bmalloc : Z -> option pixbuf)
    (es : list timing_event) :
  frames_dropped (timing_run (c64u_timing_init s target source bmalloc) es) = 0.
Proof.
  assert (Hgen : forall (l : list timing_event) (t : timing_state),
             frame_debt t = d_zero ->
             frames_dropped (timing_run t l) = frames_dropped t).
  { induction l as [|e l IH]; intros t Hz; [reflexivity|].
    change (timing_run t (e :: l)) with (timing_run (timing_step t e) l).
    rewrite IH by (apply timing_step_frame_debt_zero; exact Hz).
    apply timing_step_frames_dropped. exact Hz. }
  rewrite Hgen by apply timing_init_frame_debt.
  unfold c64u_timing_init.
  destruct (strategy_eqb s C64U_TIMING_INTERPOLATION); [|reflexivity].
  cbn. repeat case_match; reflexivity.
Qed.

(** X14.  Every poll the policy allows is counted as delivered: in every
    run from initialisation [frames_delivered] is the number of polls that
    [c64u_timing_should_deliver_frame] answered with true, modulo 2^32. *)
Theorem frames_delivered_counts_allowed_polls
    (s : c64u_timing_strategy_t) (target source : D) (bmalloc : Z -> option pixbuf)
    (es : list timing_event) :
  let t0 := c64u_timing_init s target source bmalloc in
  frames_delivered (timing_run t0 es) = u32 (count_true (deliver_answers t0 es)).
Proof.
  assert (Hgen : forall (l : list timing_event) (t : timing_state),
             ring_allocated t = true ->
             0 <= frames_delivered t < 2 ^ 32 ->
             frames_delivered (timing_run t l)
             = u32 (frames_delivered t + count_true (deliver_answers t l))).
  { induction l as [|e l IH]; intros t Hring Hrange.
    - cbn. change (count_true []) with 0. rewrite Z.add_0_r.
      symmetry. apply wrap_small. exact Hrange.
    - change (timing_run t (e :: l)) with (timing_run (timing_step t e) l).
      cbn [deliver_answers].
      pose proof (timing_step_ring t e Hring) as Hring'.
      pose proof (wrap_range 32 (frames_delivered t + 1) ltac:(lia)) as Hw.
      destruct e as [now | front w h now].
      + apply (IH _ Hring'). exact Hrange.
      + pose proof (render_select_frame_ring t front w h now Hring)
          as (_ & _ & _ & _ & _ & Hstep).
        change (snd (render_select_frame t front w h now))
          with (timing_step t (RenderPoll front w h now)) in Hstep.
        destruct (negb (strategy_eqb (strategy t) C64U_TIMING_PASSTHROUGH));
          cbn [andb] in Hstep.
        * rewrite count_true_cons.
          destruct (fst (c64u_timing_should_deliver_frame t now)).
          -- rewrite (IH _ Hring') by (rewrite Hstep; exact Hw).
             rewrite Hstep. unfold u32. rewrite wrap_add_wrap. f_equal. lia.
          -- rewrite (IH _ Hring') by (rewrite Hstep; exact Hrange).
             rewrite Hstep. f_equal.
        * rewrite (IH _ Hring') by (rewrite Hstep; exact Hrange).
          rewrite Hstep. reflexivity. }
  cbv zeta. rewrite Hgen.
  - rewrite timing_init_frames_delivered. reflexivity.
  - apply timing_init_ring.
  - rewrite timing_init_frames_delivered. lia.
Qed.

End TimingEngineProperties.

(* ===================================================================== *)
(** * Further properties of rendering, start and stop *)
(* ===================================================================== *)

Section RenderProperties.
Context {D : Type} {dops : DoubleOps D}.

#[local] Abbreviation source := (c64u_source D).

(** X15.  A render call changes nothing of the source but the timing
    engine, its initialised flag and [obs_target_fps_x1000]: buffers,
    [frame_ready], slot table, format and counters are as before.  The target
    rate field is written only by a call that runs the initialisation (format
    detected, timing not yet initialised), and then holds the OBS rate times
    1000 whether or not the allocation succeeds.  The call takes the
    placeholder branch, selecting no frame, exactly when the source is not
    streaming or no frame is ready. *)
Theorem render_changes_only_timing (context : source) (renv : render_env D) :
  let r := c64u_render context renv in
  set_timing (timing (snd r))
    (set_timing_initialized (timing_initialized (snd r))
       (set_obs_target_fps_x1000 (obs_target_fps_x1000 (snd r)) context)) = snd r
  /\ obs_target_fps_x1000 (snd r)
     = (if format_detected context && negb (timing_initialized context)
        then d_to_u64 (d_mul (obs_fps renv) (d_lit 1000))
        else obs_target_fps_x1000 context)
  /\ (fst r = None <-> streaming context && frame_ready context = false).
Proof.
  cbv zeta.
  destruct context as [s ? ? ? ? ? ? ? ? ? fr ? ? fd ? ? ? ? ? ? ? ? ? ? ? ? tm ti ?].
  unfold c64u_render, c64u_init_timing_system.
  destruct s, fr, fd, ti, tm as [t|], (timing_alloc_ok renv); cbn;
    repeat match goal with
           | |- context [let '(_, _) := ?p in _] => destruct p; cbn
           end;
    (split; [reflexivity | split; [reflexivity|]; split; intros;
                           solve [reflexivity | discriminate]]).
Qed.

(** X16.  Once the timing engine is initialised, a render call never
    re-initialises it: whatever strategy and frame rate the settings and OBS
    report by then, the engine keeps its strategy, its target rate and its
    target interval, and stays initialised. *)
Theorem timing_strategy_fixed_after_init
    (context : source) (t : c64u_timing_state D) (renv : render_env D) :
  timing_initialized context = true ->
  timing context = Some t ->
  ring_allocated t = true ->
  exists t' : c64u_timing_state D,
    timing (snd (c64u_render context renv)) = Some t'
    /\ timing_initialized (snd (c64u_render context renv)) = true
    /\ strategy t' = strategy t
    /\ target_fps t' = target_fps t
    /\ obs_frame_interval_ns t' = obs_frame_interval_ns t
    /\ ring_allocated t' = true.
Proof.
  intros Hinit Ht Hring. unfold c64u_render.
  rewrite Hinit, andb_false_r. cbv zeta.
  destruct (streaming context && frame_ready context); cbn [snd];
    [|exists t; auto 10].
  rewrite Ht, Hinit.
  pose proof (render_select_frame_ring t (frame_buffer_front context) (width context)
                (height context) (render_start renv) Hring)
    as (_ & Hr & Hs & Htf & Ho & _).
  destruct (render_select_frame t (frame_buffer_front context) (width context)
              (height context) (render_start renv)) as [f t'].
  cbn [snd] in *. exists t'. auto 10.
Qed.

End RenderProperties.

Section StartStopProperties.
Context {D : Type} {dops : DoubleOps D} {K : Protocol}.

#[local] Abbreviation source := (c64u_source D).

Lemma process_packet_stream_fields (c : source) (h : video_header) (payload : list Z)
    (env : step_env) :
  stream_fields (fst (process_packet c h payload env)) = stream_fields c.
Proof.
  assert (Hdel : forall path (c0 : source) cap lat,
             stream_fields (fst (deliver_completed_frame path c0 cap lat)) = stream_fields c0).
  { intros. unfold deliver_completed_frame. destruct (negb _); reflexivity. }
  assert (Hnew : forall c0 : source,
             stream_fields (fst (start_new_frame c0 (hdr_frame_num h) env)) = stream_fields c0).
  { intros c0. unfold start_new_frame. cbv zeta.
    set (c2 := set_last_capture_time _ _).
    assert (H2 : stream_fields c2 = stream_fields c0)
      by (subst c2; destruct (0 <? last_capture_time c0); reflexivity).
    clearbody c2.
    assert (H3 : stream_fields (fst (finalize_previous_frame c2 env)) = stream_fields c2).
    { unfold finalize_previous_frame.
      repeat match goal with
             | |- context [if ?b then _ else _] => destruct b
             end; try reflexivity. apply Hdel. }
    destruct (finalize_previous_frame c2 env) as [c3 evs]. cbn [fst] in *.
    rewrite <- H2, <- H3. reflexivity. }
  assert (Hadd : forall c0 : source,
             stream_fields
               (fst (add_packet c0 (negb (Z.land (hdr_line_num h) 32768 =? 0))
                       (Z.land (hdr_line_num h) 32767) (hdr_lines_per_packet h) payload env))
             = stream_fields c0).
  { intros c0. unfold add_packet. cbv zeta.
    destruct (_ <? C64U_MAX_PACKETS_PER_FRAME); [|reflexivity].
    set (c2 := accumulate_packet c0 _ _ _ _ payload).
    assert (H2 : stream_fields c2 = stream_fields c0).
    { subst c2. unfold accumulate_packet, note_last_packet.
      destruct (_ && _); [|reflexivity]. cbv zeta. unfold detect_format.
      repeat match goal with
             | |- context [if ?b then _ else _] => destruct b
             end; reflexivity. }
    clearbody c2. unfold complete_if_ready.
    destruct (is_frame_complete (current_frame c2)); [|exact H2].
    destruct (frame_lock_ok_complete env); [|exact H2].
    pose proof (Hdel InFramePath c2 (t_capture env) (t_latency_complete env)) as H3.
    destruct (deliver_completed_frame InFramePath c2 (t_capture env) (t_latency_complete env))
      as [c3 evs]. cbn [fst] in *. rewrite <- H2, <- H3. reflexivity. }
  unfold process_packet. cbv zeta.
  destruct (negb (frame_num (current_frame c) =? hdr_frame_num h)).
  - specialize (Hnew c).
    destruct (start_new_frame c (hdr_frame_num h) env) as [c1 evs1]. cbn [fst] in Hnew.
    specialize (Hadd c1).
    destruct (add_packet c1 _ _ _ payload env) as [c2 evs2]. cbn [fst] in *. congruence.
  - specialize (Hadd c).
    destruct (add_packet c _ _ _ payload env) as [c2 evs2]. exact Hadd.
Qed.

(** The receive loop leaves the stream flags and the sockets alone. *)
Lemma thread_run_stream_fields (inputs : list (recv_result * step_env)) :
  forall (st : video_statics) (c : source),
    stream_fields (snd (fst (thread_run st c inputs))) = stream_fields c.
Proof.
  induction inputs as [|[r env] inputs IH]; intros st c; [reflexivity|].
  cbn [thread_run].
  assert (Hit : match fst (video_thread_iteration st c r env) with
                | LoopContinue (_, c') | LoopBreak (_, c') =>
                    stream_fields c' = stream_fields c
                end).
  { unfold video_thread_iteration.
    destruct r as [ | | datagram]; cbn [fst]; try reflexivity.
    set (packet := recv_into_buffer datagram). clearbody packet.
    destruct (negb (Z.of_nat (length packet) =? C64U_VIDEO_PACKET_SIZE));
      cbn [fst]; [reflexivity|].
    cbv zeta. set (st0 := mk_statics (packet_count st + 1) _ _ _ _ _ _ _).
    assert (Hst : stream_fields
                    (snd (update_video_statistics st0 c (parse_header packet)
                            (Z.of_nat (length packet)) (t_stats env)))
                  = stream_fields c).
    { unfold update_video_statistics. cbv zeta. destruct (5000000000 <=? _); reflexivity. }
    destruct (update_video_statistics st0 c (parse_header packet) _ (t_stats env)) as [st1 c1].
    cbn [snd] in Hst.
    destruct (negb (valid_packet_format (parse_header packet))); cbn [fst]; [exact Hst|].
    destruct (assembly_lock_ok env); cbn [fst]; [|exact Hst].
    pose proof (process_packet_stream_fields c1 (parse_header packet)
                  (drop (Z.to_nat C64U_VIDEO_HEADER_SIZE) packet) env) as Hp.
    destruct (process_packet c1 (parse_header packet) _ env) as [c2 evs]. cbn [fst] in Hp.
    congruence. }
  destruct (video_thread_iteration st c r env) as [[[st1 c1] | [st1 c1]] evs1];
    cbn [fst] in Hit.
  - specialize (IH st1 c1).
    destruct (thread_run st1 c1 inputs) as [[st2 c2] evs2]. cbn [fst snd] in *. congruence.
  - exact Hit.
Qed.

(** X17.  Starting a stream that is not streaming either succeeds, and
    then the source is streaming with both sockets open and both thread flags
    set, or fails, and then it is not streaming and holds no socket.  A
    failure of [create_udp_socket] or [pthread_create] never leaves a socket
    open or the streaming flag set.  A source that is streaming already is
    returned as it is. *)
Theorem start_streaming_all_or_nothing (context : source) (senv : start_env D) :
  (forall c : source, stream_fields (video_thread_ran senv c) = stream_fields c) ->
  let context' := c64u_start_streaming_io context senv in
  if streaming context then context' = context
  else
    match video_socket_created senv, audio_socket_created senv with
    | Some vs, Some as' =>
        if video_thread_created senv && audio_thread_created senv
        then context' = c64u_start_streaming context vs as'
             /\ stream_fields context' = (true, true, true, true, Some vs, Some as')
        else stream_fields context' = (false, false, false, false, None, None)
    | _, _ =>
        streaming context' = false
        /\ video_socket context' = None /\ audio_socket context' = None
    end.
Proof.
  intros Hran. cbv zeta. unfold c64u_start_streaming_io, c64u_start_streaming.
  destruct (streaming context) eqn:Hs; [reflexivity|].
  cbv zeta. cbn [video_socket audio_socket set_audio_socket set_video_socket].
  destruct (video_socket_created senv) as [vs|], (audio_socket_created senv) as [as'|];
    try (cbn; auto).
  destruct (video_thread_created senv); cbn [negb andb]; [|reflexivity].
  destruct (audio_thread_created senv); cbn [negb]; [split; reflexivity|].
  cbn [video_thread_active set_thread_active set_streaming set_video_thread_active].
  match goal with
  | |- context [video_thread_ran senv ?c] =>
      pose proof (Hran c) as Hr; destruct (video_thread_ran senv c)
  end.
  unfold stream_fields in *. cbn in *. injection Hr as -> -> _ ->. reflexivity.
Qed.

Lemma stop_streaming_not_streaming (c : source) (f a : bool) :
  streaming (fst (c64u_stop_streaming c f a)) = false.
Proof.
  unfold c64u_stop_streaming. destruct (streaming c) eqn:Hs; cbn [negb]; [|exact Hs].
  cbv zeta. destruct f, a; reflexivity.
Qed.

(** X18.  Stopping is idempotent, and stopping a source that is not
    streaming changes nothing: a second stop returns the source of the first
    as it is, with no lock taken and no buffer cleared, whichever locks the
    first stop could take. *)
Theorem stop_streaming_idempotent (context : source) (f1 a1 f2 a2 : bool) :
  (streaming context = false -> c64u_stop_streaming context f1 a1 = (context, []))
  /\ c64u_stop_streaming (fst (c64u_stop_streaming context f1 a1)) f2 a2
     = (fst (c64u_stop_streaming context f1 a1), []).
Proof.
  split.
  - intros Hs. unfold c64u_stop_streaming. rewrite Hs. reflexivity.
  - pose proof (stop_streaming_not_streaming context f1 a1) as Hs.
    generalize dependent (fst (c64u_stop_streaming context f1 a1)).
    intros c Hs. unfold c64u_stop_streaming. rewrite Hs. reflexivity.
Qed.

End StartStopProperties.

(* ===================================================================== *)
(** * The pixel buffers between swaps *)
(* ===================================================================== *)

Section BufferProperties.
Context {D : Type} {dops : DoubleOps D} {K : Protocol}.

#[local] Abbreviation source := (c64u_source D).

Lemma swap_only_trans (c c1 c2 : source) (e1 e2 : list video_event) :
  swap_only c c1 e1 -> swap_only c1 c2 e2 -> swap_only c c2 (e1 ++ e2).
Proof.
  unfold swap_only, assembled_frames. rewrite omap_app.
  destruct (omap _ e1) as [|a1 l1], (omap _ e2) as [|a2 l2]; cbn [app].
  - intros (-> & -> & ->) H. exact H.
  - intros _ H. exact H.
  - intros H1 (-> & _). exact H1.
  - intros _ H. exact H.
Qed.

Lemma swap_only_same (c c' : source) (evs : list video_event) :
  assembled_frames evs = [] ->
  frame_ready c' = frame_ready c ->
  frame_buffer_front c' = frame_buffer_front c ->
  frame_buffer_back c' = frame_buffer_back c ->
  swap_only c c' evs.
Proof. intros He Hr Hf Hb. unfold swap_only. rewrite He. auto. Qed.

Lemma deliver_completed_frame_swap_only (path : completion_path) (c : source) (cap lat : Z) :
  swap_only c (fst (deliver_completed_frame path c cap lat))
    (snd (deliver_completed_frame path c cap lat)).
Proof.
  unfold deliver_completed_frame.
  destruct (negb (last_completed_frame c =? frame_num (current_frame c))).
  - reflexivity.
  - apply swap_only_same; reflexivity.
Qed.

Lemma finalize_previous_frame_swap_only (c : source) (env : step_env) :
  swap_only c (fst (finalize_previous_frame c env)) (snd (finalize_previous_frame c env)).
Proof.
  unfold finalize_previous_frame.
  repeat match goal with
         | |- context [if ?b then _ else _] => destruct b
         end;
    try (apply swap_only_same; reflexivity).
  apply deliver_completed_frame_swap_only.
Qed.

Lemma start_new_frame_swap_only (c : source) (n : Z) (env : step_env) :
  swap_only c (fst (start_new_frame c n env)) (snd (start_new_frame c n env)).
Proof.
  unfold start_new_frame. cbv zeta.
  set (c2 := set_last_capture_time _ _).
  assert (H2 : swap_only c c2 [])
    by (subst c2; destruct (0 <? last_capture_time c); apply swap_only_same; reflexivity).
  clearbody c2.
  pose proof (finalize_previous_frame_swap_only c2 env) as H3.
  destruct (finalize_previous_frame c2 env) as [c3 evs]. cbn [fst snd] in *.
  apply (swap_only_trans c c2 _ [] _ H2).
  apply (swap_only_trans c2 c3 _ evs _ H3).
  apply swap_only_same; reflexivity.
Qed.

Lemma accumulate_packet_swap_only (c : source) (last_packet : bool)
    (packet_index line_num' lines_per_packet' : Z) (payload : list Z) :
  swap_only c
    (accumulate_packet c last_packet packet_index line_num' lines_per_packet' payload) [].
Proof.
  unfold accumulate_packet, note_last_packet.
  destruct (_ && _); [|apply swap_only_same; reflexivity].
  cbv zeta. unfold detect_format.
  repeat match goal with
         | |- context [if ?b then _ else _] => destruct b
         end; apply swap_only_same; reflexivity.
Qed.

Lemma complete_if_ready_swap_only (c : source) (env : step_env) :
  swap_only c (fst (complete_if_ready c env)) (snd (complete_if_ready c env)).
Proof.
  unfold complete_if_ready.
  destruct (is_frame_complete (current_frame c)); [|apply swap_only_same; reflexivity].
  destruct (frame_lock_ok_complete env); [|apply swap_only_same; reflexivity].
  pose proof (deliver_completed_frame_swap_only InFramePath c (t_capture env)
                (t_latency_complete env)) as H.
  destruct (deliver_completed_frame InFramePath c (t_capture env) (t_latency_complete env))
    as [c1 evs]. cbn [fst snd] in *.
  apply (swap_only_trans c c1 _ evs _ H).
  apply swap_only_same; reflexivity.
Qed.

Lemma add_packet_swap_only (c : source) (last_packet : bool) (line_num' lines_per_packet' : Z)
    (payload : list Z) (env : step_env) :
  swap_only c (fst (add_packet c last_packet line_num' lines_per_packet' payload env))
    (snd (add_packet c last_packet line_num' lines_per_packet' payload env)).
Proof.
  unfold add_packet. cbv zeta.
  destruct (_ <? C64U_MAX_PACKETS_PER_FRAME); [|apply swap_only_same; reflexivity].
  cbn [fst snd].
  set (packet_index := u16 (line_num' / lines_per_packet')).
  apply (swap_only_trans c _ _ [] _
           (accumulate_packet_swap_only c last_packet packet_index line_num'
              lines_per_packet' payload)).
  apply complete_if_ready_swap_only.
Qed.

Lemma process_packet_swap_only (c : source) (h : video_header) (payload : list Z)
    (env : step_env) :
  swap_only c (fst (process_packet c h payload env)) (snd (process_packet c h payload env)).
Proof.
  unfold process_packet. cbv zeta.
  destruct (negb (frame_num (current_frame c) =? hdr_frame_num h)).
  - pose proof (start_new_frame_swap_only c (hdr_frame_num h) env) as H1.
    destruct (start_new_frame c (hdr_frame_num h) env) as [c1 evs1]. cbn [fst snd] in H1.
    pose proof (add_packet_swap_only c1 (negb (Z.land (hdr_line_num h) 32768 =? 0))
                  (Z.land (hdr_line_num h) 32767) (hdr_lines_per_packet h) payload env) as H2.
    destruct (add_packet c1 _ _ _ payload env) as [c2 evs2]. cbn [fst snd] in *.
    apply (swap_only_trans _ _ _ _ _ H1 H2).
  - pose proof (add_packet_swap_only c (negb (Z.land (hdr_line_num h) 32768 =? 0))
                  (Z.land (hdr_line_num h) 32767) (hdr_lines_per_packet h) payload env) as H2.
    destruct (add_packet c _ _ _ payload env) as [c2 evs2]. exact H2.
Qed.

Lemma video_thread_iteration_swap_only (st : video_statics) (c : source) (r : recv_result)
    (env : step_env) :
  match fst (video_thread_iteration st c r env) with
  | LoopContinue (_, c') | LoopBreak (_, c') =>
      swap_only c c' (snd (video_thread_iteration st c r env))
  end.
Proof.
  unfold video_thread_iteration.
  destruct r as [ | | datagram]; cbn [fst snd]; try (apply swap_only_same; reflexivity).
  set (packet := recv_into_buffer datagram). clearbody packet.
  destruct (negb (Z.of_nat (length packet) =? C64U_VIDEO_PACKET_SIZE));
    cbn [fst snd]; [apply swap_only_same; reflexivity|].
  cbv zeta. set (st0 := mk_statics (packet_count st + 1) _ _ _ _ _ _ _).
  pose proof (update_video_statistics_picture st0 c (parse_header packet)
                (Z.of_nat (length packet)) (t_stats env))
    as (_ & _ & Hf & Hb & Hr & _).
  destruct (update_video_statistics st0 c (parse_header packet) _ (t_stats env)) as [st1 c1].
  cbn [snd] in Hf, Hb, Hr.
  assert (H1 : swap_only c c1 []) by (apply swap_only_same; auto).
  destruct (negb (valid_packet_format (parse_header packet))); cbn [fst snd]; [exact H1|].
  destruct (assembly_lock_ok env); cbn [fst snd]; [|exact H1].
  pose proof (process_packet_swap_only c1 (parse_header packet)
                (drop (Z.to_nat C64U_VIDEO_HEADER_SIZE) packet) env) as Hp.
  destruct (process_packet c1 (parse_header packet) _ env) as [c2 evs]. cbn [fst snd] in *.
  apply (swap_only_trans c c1 c2 [] evs H1 Hp).
Qed.

(** X19.  The receive loop writes the two pixel buffers and [frame_ready]
    only in an assemble-and-swap.  In a run that assembles no frame, both
    buffers and [frame_ready] are as they were, whatever packets arrived, were
    stored or dropped; in a run that assembles a frame, [frame_ready] is set
    at the end.  The loop never clears [frame_ready].  (Width and height are
    not covered: format detection changes them without a swap.) *)
Theorem buffers_change_only_by_swap
    (st : video_statics) (context : source) (inputs : list (recv_result * step_env)) :
  let context' := snd (fst (thread_run st context inputs)) in
  match assembled_frames (snd (thread_run st context inputs)) with
  | [] =>
      frame_ready context' = frame_ready context
      /\ frame_buffer_front context' = frame_buffer_front context
      /\ frame_buffer_back context' = frame_buffer_back context
  | _ :: _ => frame_ready context' = true
  end.
Proof.
  cbv zeta. change (swap_only context (snd (fst (thread_run st context inputs)))
                      (snd (thread_run st context inputs))).
  revert st context. induction inputs as [|[r env] inputs IH]; intros st c.
  - apply swap_only_same; reflexivity.
  - cbn [thread_run].
    pose proof (video_thread_iteration_swap_only st c r env) as Hit.
    destruct (video_thread_iteration st c r env) as [[[st1 c1] | [st1 c1]] evs1];
      cbn [fst snd] in Hit.
    + specialize (IH st1 c1).
      destruct (thread_run st1 c1 inputs) as [[st2 c2] evs2]. cbn [fst snd] in *.
      apply (swap_only_trans _ _ _ _ _ Hit IH).
    + exact Hit.
Qed.

End BufferProperties.

(* ===================================================================== *)
(** * Diagnostic counters and the policy before source frames are known *)
(* ===================================================================== *)

Section CounterProperties.
Context {D : Type} {dops : DoubleOps D} {K : Protocol}.

#[local] Abbreviation source := (c64u_source D).

Lemma counters_agree_same (c c' : source) :
  frames_delivered_to_obs c' = frames_delivered_to_obs c ->
  frames_completed c' = frames_completed c ->
  buffer_swaps c' = buffer_swaps c ->
  counters_agree c -> counters_agree c'.
Proof. unfold counters_agree. intros -> -> ->. auto. Qed.

Lemma deliver_completed_frame_counters (path : completion_path) (c : source) (cap lat : Z) :
  counters_agree c -> counters_agree (fst (deliver_completed_frame path c cap lat)).
Proof.
  unfold counters_agree, deliver_completed_frame. intros [H1 H2].
  destruct (negb (last_completed_frame c =? frame_num (current_frame c))); cbn [fst];
    [|auto].
  cbv zeta.
  cbn [frames_delivered_to_obs frames_completed buffer_swaps set_total_pipeline_latency
       set_frames_delivered_to_obs set_buffer_swaps set_frames_completed
       set_last_completed_frame].
  unfold swap_frame_buffers, assemble_frame_to_buffer.
  cbn [frames_delivered_to_obs frames_completed buffer_swaps set_buffer_swap_pending
       set_frame_ready set_frame_buffer_back set_frame_buffer_front].
  rewrite H1, H2. auto.
Qed.

Lemma finalize_previous_frame_counters (c : source) (env : step_env) :
  counters_agree c -> counters_agree (fst (finalize_previous_frame c env)).
Proof.
  intros H. unfold finalize_previous_frame.
  repeat match goal with
         | |- context [if ?b then _ else _] => destruct b
         end; try exact H.
  apply deliver_completed_frame_counters. exact H.
Qed.

Lemma start_new_frame_counters (c : source) (n : Z) (env : step_env) :
  counters_agree c -> counters_agree (fst (start_new_frame c n env)).
Proof.
  intros H. unfold start_new_frame. cbv zeta.
  set (c2 := set_last_capture_time _ _).
  assert (H2 : counters_agree c2)
    by (subst c2; destruct (0 <? last_capture_time c); exact H).
  clearbody c2.
  pose proof (finalize_previous_frame_counters c2 env H2) as H3.
  destruct (finalize_previous_frame c2 env) as [c3 evs]. exact H3.
Qed.

Lemma accumulate_packet_counters (c : source) (last_packet : bool)
    (packet_index line_num' lines_per_packet' : Z) (payload : list Z) :
  counters_agree c ->
  counters_agree
    (accumulate_packet c last_packet packet_index line_num' lines_per_packet' payload).
Proof.
  intros H. unfold accumulate_packet, note_last_packet.
  destruct (_ && _); [|exact H].
  cbv zeta. unfold detect_format.
  repeat match goal with
         | |- context [if ?b then _ else _] => destruct b
         end; exact H.
Qed.

Lemma complete_if_ready_counters (c : source) (env : step_env) :
  counters_agree c -> counters_agree (fst (complete_if_ready c env)).
Proof.
  intros H. unfold complete_if_ready.
  destruct (is_frame_complete (current_frame c)); [|exact H].
  destruct (frame_lock_ok_complete env); [|exact H].
  pose proof (deliver_completed_frame_counters InFramePath c (t_capture env)
                (t_latency_complete env) H) as H1.
  destruct (deliver_completed_frame InFramePath c (t_capture env) (t_latency_complete env))
    as [c1 evs]. exact H1.
Qed.

Lemma process_packet_counters (c : source) (h : video_header) (payload : list Z)
    (env : step_env) :
  counters_agree c -> counters_agree (fst (process_packet c h payload env)).
Proof.
  intros H.
  assert (Hadd : forall c0 : source,
             counters_agree c0 ->
             counters_agree
               (fst (add_packet c0 (negb (Z.land (hdr_line_num h) 32768 =? 0))
                       (Z.land (hdr_line_num h) 32767) (hdr_lines_per_packet h) payload env))).
  { intros c0 H0. unfold add_packet. cbv zeta.
    destruct (_ <? C64U_MAX_PACKETS_PER_FRAME); [|exact H0].
    apply complete_if_ready_counters, accumulate_packet_counters. exact H0. }
  unfold process_packet. cbv zeta.
  destruct (negb (frame_num (current_frame c) =? hdr_frame_num h)).
  - pose proof (start_new_frame_counters c (hdr_frame_num h) env H) as H1.
    destruct (start_new_frame c (hdr_frame_num h) env) as [c1 evs1]. cbn [fst] in H1.
    specialize (Hadd c1 H1).
    destruct (add_packet c1 _ _ _ payload env) as [c2 evs2]. exact Hadd.
  - specialize (Hadd c H).
    destruct (add_packet c _ _ _ payload env) as [c2 evs2]. exact Hadd.
Qed.

(** X20.  The receive loop keeps [frames_delivered_to_obs], [buffer_swaps]
    and [frames_completed] equal: they are stepped together on every
    assemble-and-swap and zeroed together by the five-second statistics reset,
    so a run that starts with the three equal, as after creation, ends with
    the three equal, and the difference of completed and delivered frames that
    the statistics report is zero. *)
Theorem delivered_counter_tracks_completed
    (st : video_statics) (context : source) (inputs : list (recv_result * step_env)) :
  frames_delivered_to_obs context = frames_completed context ->
  buffer_swaps context = frames_completed context ->
  let context' := snd (fst (thread_run st context inputs)) in
  frames_delivered_to_obs context' = frames_completed context'
  /\ buffer_swaps context' = frames_completed context'.
Proof.
  intros Hd Hb. cbv zeta.
  change (counters_agree (snd (fst (thread_run st context inputs)))).
  assert (H : counters_agree context) by (split; assumption). clear Hd Hb.
  revert st context H. induction inputs as [|[r env] inputs IH]; intros st c H; [exact H|].
  cbn [thread_run].
  assert (Hit : match fst (video_thread_iteration st c r env) with
                | LoopContinue (_, c') | LoopBreak (_, c') => counters_agree c'
                end).
  { unfold video_thread_iteration.
    destruct r as [ | | datagram]; cbn [fst]; try exact H.
    set (packet := recv_into_buffer datagram). clearbody packet.
    destruct (negb (Z.of_nat (length packet) =? C64U_VIDEO_PACKET_SIZE));
      cbn [fst]; [exact H|].
    cbv zeta. set (st0 := mk_statics (packet_count st + 1) _ _ _ _ _ _ _).
    assert (Hst : counters_agree
                    (snd (update_video_statistics st0 c (parse_header packet)
                            (Z.of_nat (length packet)) (t_stats env)))).
    { unfold update_video_statistics. cbv zeta.
      destruct (5000000000 <=? _); [split; reflexivity | exact H]. }
    destruct (update_video_statistics st0 c (parse_header packet) _ (t_stats env)) as [st1 c1].
    cbn [snd] in Hst.
    destruct (negb (valid_packet_format (parse_header packet))); cbn [fst]; [exact Hst|].
    destruct (assembly_lock_ok env); cbn [fst]; [|exact Hst].
    pose proof (process_packet_counters c1 (parse_header packet)
                  (drop (Z.to_nat C64U_VIDEO_HEADER_SIZE) packet) env Hst) as Hp.
    destruct (process_packet c1 (parse_header packet) _ env) as [c2 evs]. exact Hp. }
  destruct (video_thread_iteration st c r env) as [[[st1 c1] | [st1 c1]] evs1];
    cbn [fst] in Hit.
  - specialize (IH st1 c1 Hit).
    destruct (thread_run st1 c1 inputs) as [[st2 c2] evs2]. exact IH.
  - exact Hit.
Qed.

End CounterProperties.

Section PolicyBeforeSourceFrames.
Context {D : Type} {dops : DoubleOps D}.

#[local] Abbreviation timing_state := (c64u_timing_state D).

Lemma should_deliver_few_source_frames (t : timing_state) (now : Z) :
  frames_received t < 5 -> fst (c64u_timing_should_deliver_frame t now) = true.
Proof.
  intros H. unfold c64u_timing_should_deliver_frame.
  assert (Hlt : (frames_received t <? 5) = true) by (apply Z.ltb_lt; exact H).
  rewrite Hlt, orb_true_r.
  destruct (strategy t); [reflexivity | | |];
    destruct (frames_delivered t <? 10); reflexivity.
Qed.

Lemma render_select_frame_frames_received (t : timing_state) (front : pixbuf)
    (w h now : Z) :
  frames_received (snd (render_select_frame t front w h now)) = frames_received t.
Proof.
  unfold render_select_frame.
  destruct (negb (strategy_eqb (strategy t) C64U_TIMING_PASSTHROUGH)); [|reflexivity].
  assert (H1 : frames_received (snd (c64u_timing_should_deliver_frame t now))
               = frames_received t)
    by (destruct (should_deliver_state t now) as [-> | ->]; reflexivity).
  destruct (c64u_timing_should_deliver_frame t now) as [deliver t1]. cbn [snd] in H1.
  destruct deliver; cbn [snd]; [|exact H1].
  assert (H2 : frames_received (snd (c64u_timing_get_frame_for_obs t1 front w h now))
               = frames_received t1).
  { unfold c64u_timing_get_frame_for_obs.
    destruct (strategy t1); cbv zeta; repeat case_match; reflexivity. }
  destruct (c64u_timing_get_frame_for_obs t1 front w h now) as [f t2]. cbn [snd] in H2.
  destruct f; cbn [snd]; [|congruence].
  assert (H3 : frames_received (c64u_timing_on_obs_frame_delivered t2 now)
               = frames_received t2).
  { unfold c64u_timing_on_obs_frame_delivered. cbv zeta. repeat case_match; reflexivity. }
  congruence.
Qed.

Lemma source_frames_cons (e : timing_event) (es : list timing_event) :
  source_frames (e :: es) = (if is_source_frame e then 1 else 0) + source_frames es.
Proof.
  unfold source_frames. cbn [List.filter]. destruct (is_source_frame e); cbn [length]; lia.
Qed.

Lemma source_frames_nonneg (es : list timing_event) : 0 <= source_frames es.
Proof. unfold source_frames. lia. Qed.

(** X21.  Until five source frames have been notified to the engine, the
    policy holds no frame back: in a run from initialisation with fewer than
    five [c64u_timing_on_c64_frame_received] calls, every consulted render
    poll is answered with true, however many polls there are and however
    close together. *)
Theorem polls_deliver_before_five_source_frames
    (s : c64u_timing_strategy_t) (target source : D) (bmalloc : Z -> option pixbuf)
    (es : list timing_event) :
  source_frames es < 5 ->
  forallb (fun b : bool => b) (deliver_answers (c64u_timing_init s target source bmalloc) es)
  = true.
Proof.
  intros Hfew.
  assert (Hgen : forall (l : list timing_event) (t : timing_state),
             0 <= frames_received t ->
             frames_received t + source_frames l < 5 ->
             forallb (fun b : bool => b) (deliver_answers t l) = true).
  { induction l as [|e l IH]; intros t H0 Hlt; [reflexivity|].
    rewrite source_frames_cons in Hlt.
    pose proof (source_frames_nonneg l) as Hnn.
    cbn [deliver_answers].
    destruct e as [now | front w h now]; cbn [is_source_frame] in Hlt.
    - apply IH; cbn [timing_step]; unfold c64u_timing_on_c64_frame_received;
        cbn [frames_received set_last_c64_frame_time set_frames_received];
        unfold u32; rewrite wrap_small by (change (2 ^ 32) with 4294967296; lia); lia.
    - assert (Hstep : frames_received (timing_step t (RenderPoll front w h now))
                      = frames_received t)
        by apply render_select_frame_frames_received.
      assert (Hrest : forallb (fun b : bool => b)
                        (deliver_answers (timing_step t (RenderPoll front w h now)) l) = true)
        by (apply IH; rewrite Hstep; lia).
      destruct (negb (strategy_eqb (strategy t) C64U_TIMING_PASSTHROUGH)); [|exact Hrest].
      cbn [forallb]. rewrite should_deliver_few_source_frames by lia. exact Hrest. }
  apply Hgen.
  - assert (H0 : frames_received (c64u_timing_init s target source bmalloc) = 0).
    { unfold c64u_timing_init.
      destruct (strategy_eqb s C64U_TIMING_INTERPOLATION); [|reflexivity].
      cbn. repeat case_match; reflexivity. }
    lia.
  - assert (H0 : frames_received (c64u_timing_init s target source bmalloc) = 0).
    { unfold c64u_timing_init.
      destruct (strategy_eqb s C64U_TIMING_INTERPOLATION); [|reflexivity].
      cbn. repeat case_match; reflexivity. }
    lia.
Qed.

End PolicyBeforeSourceFrames.

(* ===================================================================== *)
(** * The further properties on sample inputs *)
(* ===================================================================== *)

(** With the 100 ms budget of the sample protocol a frame started at 0 has
    timed out at 101 ms. *)
Lemma frame_timeout_threshold_witness :
  is_frame_timeout (K := sample_protocol) (init_frame_assembly (K := sample_protocol) 1 0)
    (ms 101) = true.
Proof.
  apply (frame_timeout_threshold (K := sample_protocol)
           (init_frame_assembly (K := sample_protocol) 1 0) (ms 101)).
  - vm_compute. discriminate.
  - vm_compute. reflexivity.
  - vm_compute. discriminate.
Defined.

(** The datagram announcing eight bits per pixel is counted and dropped. *)
Lemma malformed_packet_keeps_picture_witness :
  exists (st' : video_statics) (context' : c64u_source Q),
    video_thread_iteration (K := sample_protocol) initial_statics sample_source
      (RecvData malformed_sample_packet) (env_at 0)
    = (LoopContinue (st', context'), [])
    /\ same_picture_state sample_source context'
    /\ packet_count st' = packet_count initial_statics + 1
    /\ last_video_seq st' = hdr_seq_num (parse_header malformed_sample_packet).
Proof.
  assert (H1 : Z.of_nat (length malformed_sample_packet)
               = C64U_VIDEO_PACKET_SIZE (Protocol := sample_protocol))
    by (vm_compute; reflexivity).
  assert (H2 : valid_packet_format (K := sample_protocol)
                 (parse_header malformed_sample_packet) = false)
    by (vm_compute; reflexivity).
  exact (malformed_packet_keeps_picture (K := sample_protocol) initial_statics sample_source
           malformed_sample_packet (env_at 0) H1 H2).
Defined.

(** The three frames of [repeated_frame_run] are all assembled by the
    in-frame check. *)
Lemma preempt_path_never_assembles_witness :
  preempt_assemblies (snd (run_sample repeated_frame_run)) = []
  /\ is_frame_complete (current_frame (snd (fst (run_sample repeated_frame_run)))) = false.
Proof.
  assert (H : is_frame_complete (current_frame sample_source) = false)
    by (vm_compute; reflexivity).
  exact (preempt_path_never_assembles (K := sample_protocol) repeated_frame_run
           initial_statics sample_source H).
Defined.

(** After [late_packet_run] the table of the sample source has its 72
    slots and a counter within them. *)
Lemma received_packets_within_capacity_witness :
  let f := current_frame (snd (fst (run_sample late_packet_run))) in
  Z.of_nat (length (packets f)) = 72 /\ 0 <= received_packets f <= 72.
Proof.
  cbv zeta.
  assert (Hmax : 0 <= C64U_MAX_PACKETS_PER_FRAME (Protocol := sample_protocol) <= 65535)
    by (cbn; lia).
  assert (Hwf : frame_wf (K := sample_protocol) (current_frame sample_source))
    by (split; vm_compute; reflexivity).
  pose proof (received_packets_within_capacity (K := sample_protocol) initial_statics
                sample_source late_packet_run Hmax Hwf) as H.
  cbv zeta in H. destruct H as (Hlen & _ & Hrange).
  split; [exact Hlen | exact Hrange].
Defined.

(** The complete one-packet frame of [complete_frame_source] is swapped
    in: a frame is ready, frame 1 is the last completed frame and the old
    front buffer is the back buffer. *)
Lemma completed_frame_swapped_in_or_lost_witness :
  let context' :=
    fst (complete_if_ready (K := sample_protocol) complete_frame_source (env_at 7)) in
  frame_ready context' = true
  /\ last_completed_frame context' = 1
  /\ frame_buffer_back context' = frame_buffer_front complete_frame_source.
Proof.
  cbv zeta.
  assert (Hc : is_frame_complete (current_frame complete_frame_source) = true)
    by (vm_compute; reflexivity).
  assert (Hg : frame_lock_ok_complete (env_at 7)
               && negb (last_completed_frame complete_frame_source
                        =? frame_num (current_frame complete_frame_source)) = true)
    by (vm_compute; reflexivity).
  assert (Hn : frame_num (current_frame complete_frame_source) = 1)
    by (vm_compute; reflexivity).
  pose proof (completed_frame_swapped_in_or_lost (K := sample_protocol) complete_frame_source
                (env_at 7) Hc) as H.
  cbv zeta in H. destruct H as [_ H]. rewrite Hg in H.
  destruct H as (_ & Hb & Hr & Hl & _).
  split; [exact Hr|]. split; [rewrite Hl; exact Hn | exact Hb].
Defined.

(** A packet of frame 5 at line 8 arriving at the fresh sample source
    starts the table of frame 5 with one packet. *)
Lemma new_frame_starts_from_empty_table_witness :
  let f :=
    current_frame
      (fst (process_packet (K := sample_protocol) sample_source (sample_header 0 5 8 false)
              (sample_payload 0x21) (env_at 3))) in
  frame_num f = 5 /\ start_time f = 3 /\ received_packets f = 1 /\ expected_packets f = 0.
Proof.
  cbv zeta.
  assert (H1 : frame_num (current_frame sample_source)
               <> hdr_frame_num (sample_header 0 5 8 false))
    by (vm_compute; discriminate).
  assert (H2 : Z.land (hdr_line_num (sample_header 0 5 8 false)) 0x8000 = 0)
    by (vm_compute; reflexivity).
  assert (H3 : 0 <= hdr_lines_per_packet (sample_header 0 5 8 false))
    by (vm_compute; discriminate).
  pose proof (new_frame_starts_from_empty_table (K := sample_protocol) sample_source
                (sample_header 0 5 8 false) (sample_payload 0x21) (env_at 3) H1 H2 H3) as H.
  cbv zeta in H. lapply H; [clear H; intros H | vm_compute; reflexivity].
  rewrite H. repeat split; reflexivity.
Defined.

(** An engine asked for interpolation whose allocations fail runs the
    adaptive strategy; after [rapid_polls] a render call selects the front
    buffer itself. *)
Lemma selected_frame_is_front_buffer_witness :
  fst (render_select_frame
         (timing_run (c64u_timing_init C64U_TIMING_INTERPOLATION 50%Q 50%Q (fun _ => None))
            rapid_polls)
         (fun i => i + 1) 384 4 4000)
  = (fun i => i + 1).
Proof.
  assert (Hne : strategy (c64u_timing_init C64U_TIMING_INTERPOLATION 50%Q 50%Q
                            (fun _ => None))
                <> C64U_TIMING_INTERPOLATION)
    by (vm_compute; discriminate).
  exact (selected_frame_is_front_buffer C64U_TIMING_INTERPOLATION 50%Q 50%Q (fun _ => None)
           rapid_polls (fun i => i + 1) 384 4 4000 Hne).
Defined.

(** [rendered_source] has an adaptive engine; a render call made after the
    strategy setting changed to passthrough keeps the adaptive strategy. *)
Lemma timing_strategy_fixed_after_init_witness :
  exists t' : c64u_timing_state Q,
    timing (snd (c64u_render rendered_source (passthrough_render_at 2000))) = Some t'
    /\ strategy t' = C64U_TIMING_ADAPTIVE.
Proof.
  pose (t := default (c64u_timing_init C64U_TIMING_ADAPTIVE 50%Q 50%Q (fun _ => None))
               (timing rendered_source)).
  assert (Hi : timing_initialized rendered_source = true) by (vm_compute; reflexivity).
  assert (Ht : timing rendered_source = Some t) by (vm_compute; reflexivity).
  assert (Hr : ring_allocated t = true) by (vm_compute; reflexivity).
  assert (Hs : strategy t = C64U_TIMING_ADAPTIVE) by (vm_compute; reflexivity).
  destruct (timing_strategy_fixed_after_init rendered_source t (passthrough_render_at 2000)
              Hi Ht Hr) as (t' & H1 & _ & H3 & _).
  exists t'. split; [exact H1 | rewrite H3; exact Hs].
Defined.

(** When the audio thread cannot be created, the source created for the
    sample protocol is left not streaming and without sockets, although its
    video thread has received three frames. *)
Lemma start_streaming_all_or_nothing_witness :
  stream_fields
    (c64u_start_streaming_io
       (created_context (K := sample_protocol) zero_pixbuf zero_pixbuf) failed_audio_start)
  = (false, false, false, false, None, None).
Proof.
  assert (Hran : forall c : c64u_source Q,
             stream_fields (video_thread_ran failed_audio_start c) = stream_fields c).
  { intros c.
    exact (thread_run_stream_fields (K := sample_protocol) repeated_frame_run
             initial_statics c). }
  pose proof (start_streaming_all_or_nothing
                (created_context (K := sample_protocol) zero_pixbuf zero_pixbuf)
                failed_audio_start Hran) as H.
  cbv zeta in H. exact H.
Defined.

(** In [repeated_frame_run] on the sample source three frames are
    assembled and the three counters agree at the end. *)
Lemma delivered_counter_tracks_completed_witness :
  let context' := snd (fst (run_sample repeated_frame_run)) in
  frames_delivered_to_obs context' = frames_completed context'
  /\ buffer_swaps context' = frames_completed context'.
Proof.
  assert (Hd : frames_delivered_to_obs sample_source = frames_completed sample_source)
    by (vm_compute; reflexivity).
  assert (Hb : buffer_swaps sample_source = frames_completed sample_source)
    by (vm_compute; reflexivity).
  exact (delivered_counter_tracks_completed (K := sample_protocol) initial_statics
           sample_source repeated_frame_run Hd Hb).
Defined.

(** With four source frames notified, twelve polls one nanosecond apart
    are all answered with true under the adaptive strategy. *)
Lemma polls_deliver_before_five_source_frames_witness :
  forallb (fun b : bool => b)
    (deliver_answers (c64u_timing_init C64U_TIMING_ADAPTIVE 50%Q 50%Q (fun _ => None))
       rapid_polls)
  = true.
Proof.
  assert (H : source_frames rapid_polls < 5) by (vm_compute; reflexivity).
  exact (polls_deliver_before_five_source_frames C64U_TIMING_ADAPTIVE 50%Q 50%Q
           (fun _ => None) rapid_polls H).
Defined.

(** The datagram of frame 5, line 8 with the last-packet flag, arriving at
    the fresh sample source: the table is that of frame 5 with the packet in
    slot 2 and three packets expected. *)
Lemma wire_header_reaches_slot_witness :
  exists (st' : video_statics) (context' : c64u_source Q) (evs : list video_event),
    video_thread_iteration (K := sample_protocol) initial_statics sample_source
      (RecvData (encode_packet (sample_header 0 5 8 true) (sample_payload 0x21))) (env_at 3)
    = (LoopContinue (st', context'), evs)
    /\ frame_num (current_frame context') = 5
    /\ expected_packets (current_frame context') = 3
    /\ packets (current_frame context') !! 2%nat
       = Some (mk_frame_packet 8 4 true (sample_payload 0x21)).
Proof.
  assert (Hbytes : Forall (fun b : Z => 0 <= b < 256)
                     (encode_packet (sample_header 0 5 8 true) (sample_payload 0x21))).
  { assert (Hf : forallb (fun b : Z => (0 <=? b) && (b <? 256))
                   (encode_packet (sample_header 0 5 8 true) (sample_payload 0x21)) = true)
      by (vm_compute; reflexivity).
    apply List.Forall_forall. intros b Hin.
    apply (proj1 (forallb_forall _ _) Hf) in Hin.
    apply andb_true_iff in Hin as [H1 H2].
    apply Z.leb_le in H1. apply Z.ltb_lt in H2. lia. }
  assert (Hlen : Z.of_nat (length (encode_packet (sample_header 0 5 8 true)
                                     (sample_payload 0x21)))
                 = C64U_VIDEO_PACKET_SIZE (Protocol := sample_protocol))
    by (vm_compute; reflexivity).
  pose proof (wire_header_reaches_slot (K := sample_protocol) initial_statics sample_source
                (encode_packet (sample_header 0 5 8 true) (sample_payload 0x21)) (env_at 3)
                Hbytes Hlen eq_refl) as H.
  cbv zeta in H.
  destruct H as (st' & c' & evs & Hit & _ & Htab);
    [vm_compute; reflexivity | vm_compute; reflexivity | vm_compute; reflexivity
    | vm_compute; discriminate | vm_compute; reflexivity |].
  exists st', c', evs. split; [exact Hit|].
  rewrite Htab. vm_compute. repeat split; reflexivity.
Defined.

